(** * rigol_dp932a: a shallow embedding of the SCPI command layer

    The Python package drives a Rigol DP932A bench supply through an
    external [tcp_scpi.SCPIClient].  Every method of the package is a short
    sequence of [send]/[query] calls on that one shared client, possibly
    wrapped in [try ... finally].  The embedding therefore is

    - a small exception-and-state monad [M] whose state records the device
      behind the client and the list of commands handed to the client;
    - the Python builtins the package leans on ([str.split], [str.join],
      [int], [float], [format(x, ".3f")], [Enum] lookup by value);
    - one module per Python class, each method a definition in [M]. *)

From Stdlib Require Import ZArith NArith PArith List String Ascii Bool Lia.
From Stdlib Require Import SpecFloat.
Import ListNotations.
Local Open Scope string_scope.
Local Open Scope Z_scope.

Set Implicit Arguments.

(** ** Python exceptions and outcomes *)

Inductive exn : Type :=
| SCPIError (msg : string)          (* raised by the transport *)
| ValueError (msg : string)
| AssertionError (msg : string)
| AttributeError (msg : string)
| KeyboardInterrupt                 (* cancellation of a running body *)
| OtherException (name : string).

Inductive outcome (A : Type) : Type :=
| Return (a : A)
| Raise (e : exn).
Arguments Return {A} a.
Arguments Raise {A} e.

Definition raised {A} (r : outcome A) : option exn :=
  match r with Return _ => None | Raise e => Some e end.

(** ** Python strings *)

Module Py.

(** [s.split(sep)] for a one-character separator: never empty. *)
Fixpoint split (sep : ascii) (s : string) : list string :=
  match s with
  | EmptyString => [EmptyString]
  | String c s' =>
      if Ascii.eqb c sep then EmptyString :: split sep s'
      else match split sep s' with
           | h :: t => String c h :: t
           | [] => [String c EmptyString]
           end
  end.

(** [s.split(sep, maxsplit=1)]: one or two pieces. *)
Fixpoint split1 (sep : ascii) (s : string) : list string :=
  match s with
  | EmptyString => [EmptyString]
  | String c s' =>
      if Ascii.eqb c sep then [EmptyString; s']
      else match split1 sep s' with
           | h :: t => String c h :: t
           | [] => [String c EmptyString]
           end
  end.

(** [sep.join(parts)] *)
Definition join (sep : string) (parts : list string) : string :=
  String.concat sep parts.

(** Truthiness of the two kinds of value that reach a conditional
    expression in the package. *)
Inductive value : Type :=
| VBool (b : bool)
| VStr (s : string).

Definition truthy (v : value) : bool :=
  match v with
  | VBool b => b
  | VStr s => negb (String.eqb s "")
  end.

(** *** Decimal digits *)

Definition digit_char (d : N) : ascii :=
  ascii_of_N (48 + d).

Definition is_digit (c : ascii) : bool :=
  let n := N_of_ascii c in ((48 <=? n) && (n <=? 57))%N.

Definition digit_val (c : ascii) : N := (N_of_ascii c - 48)%N.

Fixpoint digits_aux (fuel : nat) (n : N) (acc : string) : string :=
  match fuel with
  | O => acc
  | S fuel' =>
      let acc' := String (digit_char (n mod 10)) acc in
      if (n <? 10)%N then acc' else digits_aux fuel' (n / 10) acc'
  end.

(** [str(n)] for a natural number. *)
Definition str_of_N (n : N) : string :=
  digits_aux (S (N.to_nat (N.log2 n))) n "".

(** The decimal text of [z]: a minus sign if negative, then the digits. *)
Definition str_of_int (z : Z) : string :=
  match z with
  | Zneg p => String "-" (str_of_N (Npos p))
  | _ => str_of_N (Z.to_N z)
  end.

(** [sys.get_int_max_str_digits()], at its default: conversions between
    [int] and decimal text refuse more digits than this. *)
Definition int_max_str_digits : nat := 4300.

Definition str_limit_error : exn :=
  ValueError ("Exceeds the limit (4300 digits) for integer string conversion"
              ++ "; use sys.set_int_max_str_digits() to increase the limit").

(** [str(z)], also what [f"{z}"] gives for an [int]: the decimal text,
    unless it would have more digits than the limit. *)
Definition str (z : Z) : outcome string :=
  if Nat.leb (String.length (str_of_N (Z.abs_N z))) int_max_str_digits
  then Return (str_of_int z)
  else Raise str_limit_error.

(** The blanks that [int] and [float] skip around a literal: the six of
    C's [isspace], and the two Latin-1 blanks (NEL, NBSP), which both
    constructors turn into a space first.  The separators [0x1C] to [0x1F]
    are blanks for [str.strip] only: [int] and [float] reject them. *)
Definition is_space (c : ascii) : bool :=
  let n := N_of_ascii c in
  ((n =? 32) || (n =? 133) || (n =? 160) || ((9 <=? n) && (n <=? 13)))%N.

Fixpoint lstrip (s : string) : string :=
  match s with
  | String c s' => if is_space c then lstrip s' else s
  | EmptyString => EmptyString
  end.

Fixpoint rstrip (s : string) : string :=
  match s with
  | EmptyString => EmptyString
  | String c s' =>
      match rstrip s' with
      | EmptyString => if is_space c then EmptyString else String c EmptyString
      | r => String c r
      end
  end.

(** The literal without the blanks before and after it. *)
Definition strip (s : string) : string := rstrip (lstrip s).

(** A run of digits in which single underscores may separate digits
    (PEP 515).  Returns the value and the number of digits. *)
Fixpoint digits_from (s : string) (acc : N) (cnt : nat) : option (N * nat) :=
  match s with
  | EmptyString => Some (acc, cnt)
  | String c s' =>
      if is_digit c then digits_from s' (acc * 10 + digit_val c)%N (S cnt)
      else if Ascii.eqb c "_" then
        match s' with
        | String c' _ => if is_digit c' then digits_from s' acc cnt else None
        | EmptyString => None
        end
      else None
  end.

(** The empty run is accepted here; callers decide whether it may be. *)
Definition digit_run (s : string) : option (N * nat) :=
  match s with
  | EmptyString => Some (0%N, O)
  | String c _ => if is_digit c then digits_from s 0%N O else None
  end.

Definition split_sign (s : string) : bool * string :=
  match s with
  | String "-" s' => (true, s')
  | String "+" s' => (false, s')
  | _ => (false, s)
  end.

(** [int(s)] on a [str]: base 10.  A literal of more digits than the
    limit is refused, leading zeros counted. *)
Definition int_of_str (s : string) : outcome Z :=
  let (neg, body) := split_sign (strip s) in
  match digit_run body with
  | Some (n, S cnt) =>
      if Nat.leb (S cnt) int_max_str_digits
      then Return (if neg then (- Z.of_N n) else Z.of_N n)
      else Raise (ValueError
                    ("Exceeds the limit (4300 digits) for integer string "
                     ++ "conversion: value has " ++ str_of_N (N.of_nat (S cnt))
                     ++ " digits; use sys.set_int_max_str_digits() to "
                     ++ "increase the limit"))
  | _ => Raise (ValueError "invalid literal for int() with base 10")
  end.

(** *** Floats

    A Python [float] is an IEEE 754 binary64 value; the standard library's
    [spec_float] is used for it, with [valid_binary 53 1024] as the
    well-formedness of a value.  A finite [S754_finite s m e] stands for
    [(-1)^s * m * 2^e]. *)

Definition float : Type := spec_float.

Definition is_binary64 (x : float) : Prop := valid_binary 53 1024 x = true.

Definition is_finite (x : float) : bool :=
  match x with
  | S754_zero _ | S754_finite _ _ _ => true
  | _ => false
  end.

(** Nearest integer to [a / b], ties to the even one ([0 <= a], [0 < b]). *)
Definition div_rne (a b : Z) : Z :=
  let q := a / b in
  match 2 * (a mod b) ?= b with
  | Lt => q
  | Gt => q + 1
  | Eq => if Z.even q then q else q + 1
  end.

(** Nearest integer to [1000 * m * 2^e]. *)
Definition thousandths (m : positive) (e : Z) : Z :=
  div_rne (1000 * Zpos m * 2 ^ Z.max e 0) (2 ^ Z.max (- e) 0).

Definition pad3 (r : Z) : string :=
  let r := Z.to_N r in
  String (digit_char (r / 100))
    (String (digit_char ((r / 10) mod 10))
       (String (digit_char (r mod 10)) EmptyString)).

(** The text for [n] thousandths: integer part, point, three digits. *)
Definition fixed3 (n : Z) : string :=
  str_of_N (Z.to_N (n / 1000)) ++ "." ++ pad3 (n mod 1000).

Definition sign_text (s : bool) : string := if s then "-" else "".

(** [format(x, ".3f")], that is [f"{x:.3f}"]: the exact value correctly
    rounded to three places, ties to even. *)
Definition format_3f (x : float) : string :=
  match x with
  | S754_nan => "nan"
  | S754_infinity s => sign_text s ++ "inf"
  | S754_zero s => sign_text s ++ "0.000"
  | S754_finite s m e => sign_text s ++ fixed3 (thousandths m e)
  end.

(** [den * 2^l <= num], for [l] of either sign. *)
Definition above_pow2 (num den l : Z) : bool :=
  den * 2 ^ Z.max l 0 <=? num * 2 ^ Z.max (- l) 0.

(** Exponent of the unit in the last place of the binary64 nearest to
    [num / den] before rounding ([0 < num], [0 < den]). *)
Definition ulp_exponent (num den : Z) : Z :=
  let l := Z.log2 num - Z.log2 den in
  let k := if above_pow2 num den l then l else l - 1 in
  Z.max (k - 52) (-1074).

(** The binary64 nearest to [(-1)^s * num / den], ties to even
    ([0 <= num], [0 < den]); overflow gives an infinity. *)
Definition round_b64 (s : bool) (num den : Z) : float :=
  if num =? 0 then S754_zero s
  else
    let e := ulp_exponent num den in
    let m := div_rne (num * 2 ^ Z.max (- e) 0) (den * 2 ^ Z.max e 0) in
    let m' := if m =? 2 ^ 53 then 2 ^ 52 else m in
    let e' := if m =? 2 ^ 53 then e + 1 else e in
    if m' =? 0 then S754_zero s
    else if 971 <? e' then S754_infinity s
    else S754_finite s (Z.to_pos m') e'.

Definition lower_char (c : ascii) : ascii :=
  let n := N_of_ascii c in
  if ((65 <=? n) && (n <=? 90))%N then ascii_of_N (n + 32) else c.

Fixpoint lower (s : string) : string :=
  match s with
  | EmptyString => EmptyString
  | String c s' => String (lower_char c) (lower s')
  end.

(** Cut at the first [e] or [E]. *)
Fixpoint split_exponent (s : string) : string * option string :=
  match s with
  | EmptyString => (EmptyString, None)
  | String c s' =>
      if Ascii.eqb (lower_char c) "e" then (EmptyString, Some s')
      else let (h, t) := split_exponent s' in (String c h, t)
  end.

(** The decimal exponent after [e]: sign and at least one digit. *)
Definition exponent_value (o : option string) : option Z :=
  match o with
  | None => Some 0
  | Some t =>
      let (neg, ds) := split_sign t in
      match digit_run ds with
      | Some (n, S _) => Some (if neg then - Z.of_N n else Z.of_N n)
      | _ => None
      end
  end.

(** The digits of the mantissa and how many follow the point. *)
Definition mantissa_value (s : string) : option (N * nat) :=
  match split1 "." s with
  | [ip] =>
      match digit_run ip with
      | Some (n, S _) => Some (n, O)
      | _ => None
      end
  | [ip; fp] =>
      match digit_run ip, digit_run fp with
      | Some (iv, ic), Some (fv, fc) =>
          match (ic + fc)%nat with
          | O => None
          | S _ => Some ((iv * 10 ^ N.of_nat fc + fv)%N, fc)
          end
      | _, _ => None
      end
  | _ => None
  end.

Definition float_syntax_error : exn :=
  ValueError "could not convert string to float".

(** [float(s)] on a [str]: the decimal literal, correctly rounded. *)
Definition float_of_str (s : string) : outcome float :=
  let (neg, body) := split_sign (strip s) in
  let low := lower body in
  if String.eqb low "inf" || String.eqb low "infinity" then
    Return (S754_infinity neg)
  else if String.eqb low "nan" then Return S754_nan
  else
    let (mant, ex) := split_exponent body in
    match mantissa_value mant, exponent_value ex with
    | Some (d, fc), Some x =>
        let p := x - Z.of_nat fc in
        Return (round_b64 neg (Z.of_N d * 10 ^ Z.max p 0) (10 ^ Z.max (- p) 0))
    | _, _ => Raise float_syntax_error
    end.

End Py.

(** ** The transport and the command monad *)

(** Modelled from the spec: [tcp_scpi.SCPIClient] is an external
    collaborator whose code is not in the package.  It is the black box of
    the spec, [send(command) -> ack] and [query(command) -> response-text],
    either of which may raise: an interface over a device of some state
    type [T]. *)
Class SCPIClient (T : Type) : Type := {
  client_send : string -> T -> outcome string * T;
  client_query : string -> T -> outcome string * T
}.

(** What a run can observe: the device, every command handed to the
    client so far (oldest first), and the time spent in [time.sleep]. *)
Record World (T : Type) : Type := mkWorld {
  device : T;
  wire : list string;
  slept_ms : N
}.

Definition M (T A : Type) : Type := World T -> outcome A * World T.

Definition ret {T A} (a : A) : M T A := fun w => (Return a, w).

Definition raise {T A} (e : exn) : M T A := fun w => (Raise e, w).

Definition bind {T A B} (c : M T A) (k : A -> M T B) : M T B :=
  fun w =>
    match c w with
    | (Return a, w') => k a w'
    | (Raise e, w') => (Raise e, w')
    end.

Declare Scope py_scope.
Delimit Scope py_scope with py.
Notation "x <- c ;; k" := (bind c (fun x => k))
  (at level 61, c at next level, right associativity) : py_scope.
Notation "c ;; k" := (bind c (fun _ => k))
  (at level 61, right associativity) : py_scope.
Local Open Scope py_scope.

(** [try: body finally: fin].  [fin] runs however [body] ended; an
    exception of [fin] replaces the pending outcome. *)
Definition try_finally {T A} (body : M T A) (fin : M T unit) : M T A :=
  fun w =>
    match body w with
    | (r, w1) =>
        match fin w1 with
        | (Return _, w2) => (r, w2)
        | (Raise e, w2) => (Raise e, w2)
        end
    end.

(** [for x in xs: body x] *)
Fixpoint for_each {T A} (xs : list A) (body : A -> M T unit) : M T unit :=
  match xs with
  | [] => ret tt
  | x :: xs' => body x ;; for_each xs' body
  end.

(** [a, b = parts] and [a, b, c = parts] *)
Definition unpack2 {T A} (parts : list A) : M T (A * A) :=
  match parts with
  | [a; b] => ret (a, b)
  | [] | [_] => raise (ValueError "not enough values to unpack (expected 2)")
  | _ => raise (ValueError "too many values to unpack (expected 2)")
  end.

Definition unpack3 {T A} (parts : list A) : M T (A * A * A) :=
  match parts with
  | [a; b; c] => ret (a, b, c)
  | [] | [_] | [_; _] =>
      raise (ValueError "not enough values to unpack (expected 3)")
  | _ => raise (ValueError "too many values to unpack (expected 3)")
  end.

Definition lift {T A} (r : outcome A) : M T A := fun w => (r, w).

(** [time.sleep(ms / 1000)] *)
Definition time_sleep {T} (ms : N) : M T unit :=
  fun w => (Return tt, mkWorld (device w) (wire w) (slept_ms w + ms)).

Section Client.
Context {T : Type} {client : SCPIClient T}.

(** [self._scpi.send(cmd)] *)
Definition scpi_send (cmd : string) : M T string :=
  fun w =>
    let (r, d) := client_send cmd (device w) in
    (r, mkWorld d (wire w ++ [cmd]) (slept_ms w)).

(** [self._scpi.query(cmd)] *)
Definition scpi_query (cmd : string) : M T string :=
  fun w =>
    let (r, d) := client_query cmd (device w) in
    (r, mkWorld d (wire w ++ [cmd]) (slept_ms w)).

End Client.

Definition on_off (value : bool) : string := if value then "ON" else "OFF".

(** ** channel.py *)

(** [class OutputMode(Enum)].  The class body binds three names; a name
    whose value repeats an earlier one is an alias of that member, and
    lookup by value finds the first name declared with the value. *)
Module OutputMode.

Inductive name : Type := ConstantVoltage | ConstantCurrent | Unregulated.

Definition declared : list name :=
  [ConstantVoltage; ConstantCurrent; Unregulated].

Definition value (n : name) : string :=
  match n with
  | ConstantVoltage => "CV"
  | ConstantCurrent => "CV"
  | Unregulated => "UR"
  end.

Definition by_value (v : string) : option name :=
  List.find (fun n => String.eqb (value n) v) declared.

(** The member a name is bound to. *)
Definition member (n : name) : name :=
  match by_value (value n) with
  | Some n' => n'
  | None => n
  end.

(** [OutputMode(v)] *)
Definition call {T} (v : string) : M T name :=
  match by_value v with
  | Some n => ret n
  | None => raise (ValueError (v ++ " is not a valid OutputMode"))
  end.

End OutputMode.

Record Measurement : Type := mkMeasurement {
  m_voltage : Py.float; m_current : Py.float; m_power : Py.float
}.

Record Output : Type := mkOutput {
  voltage : Py.float; current : Py.float
}.

Module OverProtectiveParent.

Record t : Type := mk {
  _channel : Z;
  _protecting : string;
  _source_id : string
}.

(** The channel number is written once, here.  Python refuses to write
    a number of more than 4300 digits, so no object with such a number
    comes to exist; for every other number [str_of_int] is the text the
    f-strings of the methods produce. *)
Definition __init__ (channel : Z) (protecting : string) : t :=
  mk channel protecting (":SOURCe[" ++ Py.str_of_int channel ++ "]").

Section Methods.
Context {T : Type} {client : SCPIClient T}.
Variable self : t.

Definition prefix : string := _source_id self ++ ":" ++ _protecting self.

Definition get_state : M T bool :=
  r <- scpi_query (prefix ++ ":PROT:STAT?") ;;
  ret (String.eqb r "1").

Definition set_state (value : bool) : M T unit :=
  scpi_send (prefix ++ ":PROT:STAT " ++ on_off value) ;; ret tt.

Definition get_level : M T Py.float :=
  r <- scpi_query (prefix ++ ":PROT?") ;;
  lift (Py.float_of_str r).

Definition set_level (value : Py.float) : M T unit :=
  scpi_send (prefix ++ ":PROT " ++ Py.format_3f value) ;; ret tt.

Definition tripped : M T bool :=
  r <- scpi_query (prefix ++ ":PROT:TRIP?") ;;
  ret (String.eqb r "1").

Definition clear : M T unit :=
  scpi_send (prefix ++ ":PROT:CLE") ;; ret tt.

(** [with self(level): body].  The generator behind [@contextmanager]
    yields inside its [try], so the body of the [with] statement runs at
    the [yield] and its exception, if any, is thrown there. *)
Definition __call__ {A} (level : Py.float) (body : M T A) : M T A :=
  try_finally
    (clear ;; set_level level ;; set_state true ;; body)
    (set_state false).

End Methods.
End OverProtectiveParent.

Definition OverCurrentProtection (channel : Z) : OverProtectiveParent.t :=
  OverProtectiveParent.__init__ channel "CURRent".

Definition OverVoltageProtection (channel : Z) : OverProtectiveParent.t :=
  OverProtectiveParent.__init__ channel "VOLTage".

Module Channel.

Record t : Type := mk {
  _channel : Z;
  _ocp : OverProtectiveParent.t;
  _ovp : OverProtectiveParent.t
}.

Definition __init__ (channel : Z) : t :=
  mk channel (OverCurrentProtection channel) (OverVoltageProtection channel).

Section Methods.
Context {T : Type} {client : SCPIClient T}.
Variable self : t.

Definition ch : string := "CH" ++ Py.str_of_int (_channel self).

Definition get_output : M T Output :=
  response <- scpi_query (":APPL? " ++ ch) ;;
  p <- unpack2 (Py.split1 ":" response) ;;
  q <- unpack3 (Py.split "," (snd p)) ;;
  let '(_, set_voltage, set_current) := q in
  v <- lift (Py.float_of_str set_voltage) ;;
  c <- lift (Py.float_of_str set_current) ;;
  ret (mkOutput v c).

Definition set_output (output : Output) : M T unit :=
  scpi_send (":APPL " ++ ch ++ "," ++ Py.format_3f (voltage output) ++ ","
             ++ Py.format_3f (current output)) ;;
  ret tt.

Definition probe : M T Measurement :=
  r <- scpi_query ("MEAS:ALL? " ++ ch) ;;
  q <- unpack3 (Py.split "," r) ;;
  let '(v, c, p) := q in
  v' <- lift (Py.float_of_str v) ;;
  c' <- lift (Py.float_of_str c) ;;
  p' <- lift (Py.float_of_str p) ;;
  ret (mkMeasurement v' c' p').

Definition get_enabled : M T bool :=
  r <- scpi_query (":OUTP? " ++ ch) ;;
  ret (String.eqb r "1").

Definition set_enabled (value : bool) : M T unit :=
  scpi_send (":OUTP " ++ ch ++ "," ++ on_off value) ;; ret tt.

Definition enable : M T unit := set_enabled true.

Definition disable : M T unit := set_enabled false.

Definition output_mode : M T OutputMode.name :=
  r <- scpi_query (":OUTP:MODE? " ++ ch) ;;
  OutputMode.call r.

Definition ocp : OverProtectiveParent.t := _ocp self.

Definition ovp : OverProtectiveParent.t := _ovp self.

(** [with self(output): body] *)
Definition __call__ {A} (output : Output) (body : M T A) : M T A :=
  try_finally (set_output output ;; enable ;; body) disable.

End Methods.
End Channel.

(** ** analyzer.py *)

Module AnalysisType.

Inductive name : Type := Common | PulseCurrent.

Definition value (n : name) : string :=
  match n with
  | Common => "COM"
  | PulseCurrent => "CURR"
  end.

Definition by_value (v : string) : option name :=
  List.find (fun n => String.eqb (value n) v) [Common; PulseCurrent].

Definition call {T} (v : string) : M T name :=
  match by_value v with
  | Some n => ret n
  | None => raise (ValueError (v ++ " is not a valid AnalysisType"))
  end.

End AnalysisType.

Module CommonAnalysisType.

Inductive name : Type := Voltage | Current | Power.

Definition value (n : name) : string :=
  match n with
  | Voltage => "V"
  | Current => "C"
  | Power => "P"
  end.

Definition by_value (v : string) : option name :=
  List.find (fun n => String.eqb (value n) v) [Voltage; Current; Power].

Definition call {T} (v : string) : M T name :=
  match by_value v with
  | Some n => ret n
  | None => raise (ValueError (v ++ " is not a valid CommonAnalysisType"))
  end.

End CommonAnalysisType.

Module CommonAnalysis.

Record t : Type := mk {
  ch1 : option CommonAnalysisType.name;
  ch2 : option CommonAnalysisType.name;
  ch3 : option CommonAnalysisType.name
}.

(** [CommonAnalysis()] *)
Definition default : t := mk None None None.

Definition with_ch1 (r : t) (v : CommonAnalysisType.name) : t :=
  mk (Some v) (ch2 r) (ch3 r).

Definition with_ch2 (r : t) (v : CommonAnalysisType.name) : t :=
  mk (ch1 r) (Some v) (ch3 r).

Definition with_ch3 (r : t) (v : CommonAnalysisType.name) : t :=
  mk (ch1 r) (ch2 r) (Some v).

End CommonAnalysis.

Module PulseCurrentAnalysis.

Record t : Type := mk { ch1 : bool; ch2 : bool }.

Definition default : t := mk true true.

End PulseCurrentAnalysis.

(** [for i, x in enumerate(xs, start=i0)] *)
Fixpoint enumerate {A} (i0 : Z) (xs : list A) : list (Z * A) :=
  match xs with
  | [] => []
  | x :: xs' => (i0, x) :: enumerate (i0 + 1) xs'
  end.

Module AnalyzerAPI.

(** [config: CommonAnalysis | PulseCurrentAnalysis] *)
Inductive config : Type :=
| OfCommon (c : CommonAnalysis.t)
| OfPulseCurrent (c : PulseCurrentAnalysis.t).

Section Methods.
Context {T : Type} {client : SCPIClient T}.

(** The response text itself is returned. *)
Definition get_log : M T string :=
  scpi_query ":ANALyzer:SAVE:STATe?".

(** [enabled] is whatever the caller passes; only its truth matters. *)
Definition set_log (enabled : Py.value) : M T unit :=
  scpi_send (":ANALyzer:SAVE:STATe "
             ++ (if Py.truthy enabled then "1" else "0")) ;;
  ret tt.

Definition get_active : M T bool :=
  r <- scpi_query ":ANALyzer:STATe?" ;;
  ret (String.eqb r "1").

Definition set_active (enabled : bool) : M T unit :=
  scpi_send (":ANALyzer:STATe " ++ (if enabled then "1" else "0")) ;;
  ret tt.

Definition get_file : M T string :=
  scpi_query ":ANALyzer:SAVE:ROUTe?".

Definition set_file (file : string) : M T unit :=
  scpi_send (":ANALyzer:SAVE:ROUTe " ++ file) ;; ret tt.

Definition get_type : M T AnalysisType.name :=
  r <- scpi_query ":ANALyzer:TYPE?" ;;
  AnalysisType.call r.

Definition set_type (analysis_type : AnalysisType.name) : M T unit :=
  scpi_send (":ANALyzer:TYPE " ++ AnalysisType.value analysis_type) ;;
  ret tt.

(** One turn of the loop of [get_common_measure]. *)
Definition common_measure_item (item : string) (result : CommonAnalysis.t)
  : M T CommonAnalysis.t :=
  p <- unpack2 (Py.split "_" item) ;;
  let (channel, analysis_type) := p in
  if String.eqb channel "CH1" then
    v <- CommonAnalysisType.call analysis_type ;;
    ret (CommonAnalysis.with_ch1 result v)
  else if String.eqb channel "CH2" then
    v <- CommonAnalysisType.call analysis_type ;;
    ret (CommonAnalysis.with_ch2 result v)
  else if String.eqb channel "CH3" then
    v <- CommonAnalysisType.call analysis_type ;;
    ret (CommonAnalysis.with_ch3 result v)
  else raise (AssertionError "Hinerk assumed he knew how to code!").

Fixpoint common_measure_loop (items : list string) (result : CommonAnalysis.t)
  : M T CommonAnalysis.t :=
  match items with
  | [] => ret result
  | item :: rest =>
      result' <- common_measure_item item result ;;
      common_measure_loop rest result'
  end.

Definition get_common_measure : M T CommonAnalysis.t :=
  response <- scpi_query ":ANALyzer:COMMon:MEASure:TYPE?" ;;
  common_measure_loop (Py.split " " response) CommonAnalysis.default.

Definition common_cmd_parts (cfg : CommonAnalysis.t) : list string :=
  List.flat_map
    (fun p : Z * option CommonAnalysisType.name =>
       match snd p with
       | Some c =>
           ["CH" ++ Py.str_of_int (fst p) ++ "_" ++ CommonAnalysisType.value c]
       | None => []
       end)
    (enumerate 1 [CommonAnalysis.ch1 cfg; CommonAnalysis.ch2 cfg;
                  CommonAnalysis.ch3 cfg]).

Definition set_common_measure (cfg : CommonAnalysis.t) : M T unit :=
  set_type AnalysisType.Common ;;
  scpi_send (":ANALyzer:COMMon:MEASure:TYPE "
             ++ Py.join "," (common_cmd_parts cfg)) ;;
  ret tt.

Definition get_current_measure : M T string :=
  scpi_send ":ANALyzer:CURRent:MEASure:TYPE?".

Definition pulse_cmd_parts (cfg : PulseCurrentAnalysis.t) : list string :=
  List.flat_map
    (fun p : Z * bool =>
       if snd p then ["CH" ++ Py.str_of_int (fst p)] else [])
    (enumerate 1 [PulseCurrentAnalysis.ch1 cfg; PulseCurrentAnalysis.ch2 cfg]).

Definition set_current_measure (cfg : PulseCurrentAnalysis.t) : M T unit :=
  set_type AnalysisType.PulseCurrent ;;
  if negb (List.existsb (fun b : bool => b)
             [PulseCurrentAnalysis.ch1 cfg; PulseCurrentAnalysis.ch2 cfg])
  then raise (AttributeError
                "Pulse-Current-Analysis requires at least one enabled channel!")
  else
    scpi_send (":ANALyzer:CURRent:MEASure:TYPE "
               ++ Py.join "," (pulse_cmd_parts cfg)) ;;
    ret tt.

(** [with self.analyze(config, log): body] *)
Definition analyze {A} (cfg : config) (log : bool) (body : M T A) : M T A :=
  initial_value_of_self_log <- get_log ;;
  initial_value_of_self_active <- get_active ;;
  try_finally
    ((match cfg with
      | OfPulseCurrent c => set_current_measure c
      | OfCommon c => set_common_measure c
      end) ;;
     (if log then set_log (Py.VBool true) else ret tt) ;;
     set_active true ;;
     body)
    (set_active initial_value_of_self_active ;;
     if log then set_log (Py.VStr initial_value_of_self_log) else ret tt).

End Methods.
End AnalyzerAPI.

(** ** rigol_dp932a.py *)

Module RigolDP932A.

Section Methods.
Context {T : Type} {client : SCPIClient T}.

Definition get_display_brightness : M T Z :=
  r <- scpi_query ":SYST:BRIG?" ;;
  lift (Py.int_of_str r).

Definition set_display_brightness (brightness : Z) : M T unit :=
  text <- lift (Py.str brightness) ;;
  scpi_send (":SYST:BRIG " ++ text) ;; ret tt.

Definition get_beeper : M T bool :=
  r <- scpi_query ":SYST:BEEP?" ;;
  ret (String.eqb r "1").

Definition set_beeper (value : bool) : M T unit :=
  scpi_send (":SYST:BEEP " ++ on_off value) ;; ret tt.

Definition beep : M T unit :=
  scpi_send ":SYSTem:BEEPer:IMMediate" ;; ret tt.

(** The local [blink]; its [half_duration] argument is not used. *)
Definition blink : M T unit :=
  set_display_brightness 100 ;;
  time_sleep 500 ;;
  set_display_brightness 10 ;;
  time_sleep 500.

Definition look_at_me : M T unit :=
  initial_brightness <- get_display_brightness ;;
  initial_beeper <- get_beeper ;;
  for_each [0; 1; 2] (fun _ => blink ;; beep ;; blink) ;;
  set_display_brightness initial_brightness ;;
  set_beeper initial_beeper.

End Methods.
End RigolDP932A.

(** ** Test doubles for the transport *)

(** A scripted client: each call, [send] or [query] alike, consumes the
    next prepared reply; once the script is used up every call is
    acknowledged with the empty text. *)
Module Scripted.

Definition t : Type := list (outcome string).

Definition step (cmd : string) (d : t) : outcome string * t :=
  match d with
  | [] => (Return "", [])
  | r :: d' => (r, d')
  end.

#[global] Instance client : SCPIClient t :=
  {| client_send := step; client_query := step |}.

Definition start (script : t) : World t := mkWorld script [] 0.

End Scripted.

(** Modelled from the spec: the instrument behind the transport is not
    part of the package.  This device keeps the analyzer's two switches,
    the set-points last applied to each channel, the display brightness
    and the beeper switch, and never raises; commands and replies follow
    the wire table ([:ANALyzer:SAVE:STATe], [:ANALyzer:STATe], [:APPL],
    [:SYST:BRIG], [:SYST:BEEP]), booleans being read back as [1] or [0]. *)
Module Sim.

Record t : Type := mk {
  active : bool;
  logging : bool;
  applied : list (string * string);
  brightness : Z;
  beeper : bool
}.

Definition after (p cmd : string) : string :=
  String.substring (String.length p) (String.length cmd - String.length p) cmd.

Definition is_on (arg : string) : bool :=
  String.eqb arg "1" || String.eqb arg "ON".

Fixpoint lookup (tag : string) (l : list (string * string)) : string :=
  match l with
  | [] => "0.000,0.000"
  | (k, v) :: l' => if String.eqb k tag then v else lookup tag l'
  end.

Definition send (cmd : string) (d : t) : outcome string * t :=
  if String.prefix ":ANALyzer:SAVE:STATe " cmd then
    (Return "",
     mk (active d) (is_on (after ":ANALyzer:SAVE:STATe " cmd)) (applied d)
        (brightness d) (beeper d))
  else if String.prefix ":ANALyzer:STATe " cmd then
    (Return "",
     mk (is_on (after ":ANALyzer:STATe " cmd)) (logging d) (applied d)
        (brightness d) (beeper d))
  else if String.prefix ":APPL " cmd then
    match Py.split1 "," (after ":APPL " cmd) with
    | [tag; payload] =>
        (Return "",
         mk (active d) (logging d) ((tag, payload) :: applied d)
            (brightness d) (beeper d))
    | _ => (Return "", d)
    end
  else if String.prefix ":SYST:BRIG " cmd then
    match Py.int_of_str (after ":SYST:BRIG " cmd) with
    | Return b =>
        (Return "", mk (active d) (logging d) (applied d) b (beeper d))
    | Raise _ => (Return "", d)
    end
  else if String.prefix ":SYST:BEEP " cmd then
    (Return "",
     mk (active d) (logging d) (applied d) (brightness d)
        (is_on (after ":SYST:BEEP " cmd)))
  else (Return "", d).

Definition bit (b : bool) : string := if b then "1" else "0".

Definition query (cmd : string) (d : t) : outcome string * t :=
  if String.eqb cmd ":ANALyzer:SAVE:STATe?" then (Return (bit (logging d)), d)
  else if String.eqb cmd ":ANALyzer:STATe?" then (Return (bit (active d)), d)
  else if String.prefix ":APPL? " cmd then
    let tag := after ":APPL? " cmd in
    (Return (tag ++ ":30V/3A," ++ lookup tag (applied d)), d)
  else if String.eqb cmd ":SYST:BRIG?" then
    (Return (Py.str_of_int (brightness d)), d)
  else if String.eqb cmd ":SYST:BEEP?" then (Return (bit (beeper d)), d)
  else (Return "", d).

#[global] Instance client : SCPIClient t :=
  {| client_send := send; client_query := query |}.

(** Power-on state: everything off, display at half brightness. *)
Definition initial : t := mk false false [] 50 true.

Definition start (d : t) : World t := mkWorld d [] 0.

End Sim.

(** Float literals of the Python source text. *)
Definition float_lit (s : string) : Py.float :=
  match Py.float_of_str s with
  | Return x => x
  | Raise _ => S754_nan
  end.

(** ** Vocabulary of the properties *)

Unset Implicit Arguments.

Definition ch1 : Channel.t := Channel.__init__ 1.

Definition ocp1 : OverProtectiveParent.t := OverCurrentProtection 1.

(** The four commands of a protection session. *)
Definition clear_cmd (self : OverProtectiveParent.t) : string :=
  OverProtectiveParent.prefix self ++ ":PROT:CLE".

Definition level_cmd (self : OverProtectiveParent.t) (level : Py.float)
  : string :=
  OverProtectiveParent.prefix self ++ ":PROT " ++ Py.format_3f level.

Definition arm_cmd (self : OverProtectiveParent.t) : string :=
  OverProtectiveParent.prefix self ++ ":PROT:STAT ON".

Definition disarm_cmd (self : OverProtectiveParent.t) : string :=
  OverProtectiveParent.prefix self ++ ":PROT:STAT OFF".

(** What [set_current_measure] raises for a configuration without any
    channel; the spec calls it [InvalidArgument]. *)
Definition no_channel_error : exn :=
  AttributeError "Pulse-Current-Analysis requires at least one enabled channel!".

(** The spec's [ProtocolViolation]: the local failures by which the
    package rejects a reply it cannot parse. *)
Definition is_protocol_violation (e : exn) : bool :=
  match e with
  | AssertionError _ | ValueError _ => true
  | _ => false
  end.

(** The text before the underscore of a reply token. *)
Definition channel_tag (item : string) : string :=
  List.hd "" (Py.split "_" item).

Definition known_tag (tag : string) : Prop :=
  tag = "CH1" \/ tag = "CH2" \/ tag = "CH3".

(** A command that drives the logging switch. *)
Definition sets_logging (cmd : string) : bool :=
  String.prefix ":ANALyzer:SAVE:STATe " cmd.

(** [c] leaves the logging state, read off the device by [logging_of],
    as it found it. *)
Definition keeps_logging {T L A : Type} (logging_of : T -> L) (c : M T A)
  : Prop :=
  forall w, logging_of (device (snd (c w))) = logging_of (device w).

(** A body that switches logging on and puts back what it found. *)
Definition toggling_body : M Sim.t unit :=
  found <- scpi_query ":ANALyzer:SAVE:STATe?" ;;
  scpi_send ":ANALyzer:SAVE:STATe 1" ;;
  scpi_send (":ANALyzer:SAVE:STATe " ++ found) ;;
  ret tt.

(** The first half of that body: logging read, then switched on. *)
Definition toggling_start : M Sim.t unit :=
  scpi_query ":ANALyzer:SAVE:STATe?" ;;
  scpi_send ":ANALyzer:SAVE:STATe 1" ;;
  ret tt.

(** What a session does before its body starts: the two queries, the
    configuration, the logging switch if requested, the start command. *)
Definition analyze_setup {T : Type} {client : SCPIClient T}
  (cfg : AnalyzerAPI.config) (log : bool) : M T unit :=
  AnalyzerAPI.get_log ;;
  AnalyzerAPI.get_active ;;
  (match cfg with
   | AnalyzerAPI.OfPulseCurrent c => AnalyzerAPI.set_current_measure c
   | AnalyzerAPI.OfCommon c => AnalyzerAPI.set_common_measure c
   end) ;;
  (if log then AnalyzerAPI.set_log (Py.VBool true) else ret tt) ;;
  AnalyzerAPI.set_active true.

(** One blink/beep/blink round on the wire. *)
Definition blink_round : list string :=
  [":SYST:BRIG 100"; ":SYST:BRIG 10"; ":SYSTem:BEEPer:IMMediate";
   ":SYST:BRIG 100"; ":SYST:BRIG 10"].

(** [c] returns normally and hands exactly [cmds] to the client. *)
Definition emits {T : Type} (c : M T unit) (cmds : list string) : Prop :=
  forall w, fst (c w) = Return tt /\ wire (snd (c w)) = (wire w ++ cmds)%list.

(** [c] hands the commands of [cmds] to the client in order and stops at
    the first that raises: either it returns after all of them, or its
    outcome is the error of one of them, which is then the last command
    it sent. *)
Definition stops_within {T : Type} {client : SCPIClient T}
  (c : M T unit) (cmds : list string) : Prop :=
  forall w,
    (fst (c w) = Return tt /\ wire (snd (c w)) = (wire w ++ cmds)%list)
    \/ (exists e n d,
          fst (c w) = Raise e
          /\ (n < List.length cmds)%nat
          /\ wire (snd (c w)) = (wire w ++ firstn (S n) cmds)%list
          /\ fst (client_send (nth n cmds "") d) = Raise e).

(** [round(x, 3)]: the binary64 nearest to [x] rounded to three places. *)
Definition round3 (x : Py.float) : Py.float :=
  match x with
  | S754_finite s m e => Py.round_b64 s (Py.thousandths m e) 1000
  | _ => x
  end.

(** Every finite binary64 is a whole multiple of [2^-1074]; scaled by
    [grid] it is the integer [on_grid m e]. *)
Definition grid : Z := 2 ^ 1074.

Definition on_grid (m : positive) (e : Z) : Z := Zpos m * 2 ^ (e + 1074).

(** The exponent, the step (times [1000 * grid]) and the mantissa that
    [round_b64] settles on for [n / 1000]. *)
Definition picked_exponent (n : Z) : Z := Py.ulp_exponent n 1000.

Definition picked_step (n : Z) : Z := 1000 * 2 ^ (picked_exponent n + 1074).

Definition picked_mantissa (n : Z) : Z :=
  Py.div_rne (n * 2 ^ Z.max (- picked_exponent n) 0)
             (1000 * 2 ^ Z.max (picked_exponent n) 0).

Fixpoint all_chars (p : ascii -> bool) (s : string) : bool :=
  match s with
  | EmptyString => true
  | String c s' => p c && all_chars p s'
  end.

(** Value of a run of digits, most significant first. *)
Fixpoint digits_value (s : string) : N :=
  match s with
  | EmptyString => 0%N
  | String c s' =>
      (Py.digit_val c * 10 ^ N.of_nat (String.length s') + digits_value s')%N
  end.

Definition fixed_char (c : ascii) : bool :=
  Py.is_digit c || Ascii.eqb c ".".

Definition plain_char (c : ascii) : bool :=
  fixed_char c || Ascii.eqb c "-".

Definition drop_minus (s : string) : string :=
  match s with
  | String c t => if Ascii.eqb c "-" then t else s
  | EmptyString => s
  end.

(** An optional minus sign, at least one digit, a point, three digits. *)
Definition three_decimals (txt : string) : bool :=
  match Py.split1 "." (drop_minus txt) with
  | [ip; fp] =>
      negb (String.eqb ip "") && all_chars Py.is_digit ip
      && all_chars Py.is_digit fp && Nat.eqb (String.length fp) 3
  | _ => false
  end.

(** The sign of a float as a factor. *)
Definition sign_factor (s : bool) : Z := if s then -1 else 1.

(** The exact value of a finite binary64, times [grid]. *)
Definition scaled (x : Py.float) : Z :=
  match x with
  | S754_finite s m e => sign_factor s * on_grid m e
  | _ => 0
  end.

Definition has_minus (s : string) : bool :=
  match s with
  | String c _ => Ascii.eqb c "-"
  | EmptyString => false
  end.

(** The number of thousandths that a text with three decimals stands
    for: its digits read as one integer, with the sign of the text. *)
Definition text_thousandths (txt : string) : Z :=
  match Py.split1 "." (drop_minus txt) with
  | [ip; fp] =>
      sign_factor (has_minus txt)
      * Z.of_N (digits_value ip * 1000 + digits_value fp)
  | _ => 0
  end.

(** The decimal [txt] is [x] to the nearest thousandth: the two differ by
    half a thousandth at most. *)
Definition names_to_thousandth (txt : string) (x : Py.float) : Prop :=
  2 * Z.abs (text_thousandths txt * grid - 1000 * scaled x) <= grid.

(** [y] is a finite binary64 nearest to the decimal [txt]: no finite
    binary64 is nearer. *)
Definition nearest_binary64 (y : Py.float) (txt : string) : Prop :=
  Py.is_binary64 y /\ Py.is_finite y = true
  /\ forall z, Py.is_binary64 z -> Py.is_finite z = true ->
       Z.abs (1000 * scaled y - text_thousandths txt * grid)
       <= Z.abs (1000 * scaled z - text_thousandths txt * grid).

(** ** Further code and its vocabulary *)

(** [Channel.__repr__]: the set-points are read first, then a live
    measurement; both voltages and both currents are shown with three
    decimals. *)
Definition Channel__repr__ {T : Type} {client : SCPIClient T}
  (self : Channel.t) : M T string :=
  out <- Channel.get_output self ;;
  probe <- Channel.probe self ;;
  ret ("<CH" ++ Py.str_of_int (Channel._channel self) ++ ": "
       ++ "voltage: " ++ Py.format_3f (m_voltage probe)
       ++ " V (set: " ++ Py.format_3f (voltage out) ++ " V), "
       ++ "current: " ++ Py.format_3f (m_current probe)
       ++ " A (set: " ++ Py.format_3f (current out) ++ ") A>").

(** The three commands of a channel session. *)
Definition apply_cmd (self : Channel.t) (output : Output) : string :=
  ":APPL " ++ Channel.ch self ++ "," ++ Py.format_3f (voltage output) ++ ","
  ++ Py.format_3f (current output).

Definition enable_cmd (self : Channel.t) : string :=
  ":OUTP " ++ Channel.ch self ++ ",ON".

Definition disable_cmd (self : Channel.t) : string :=
  ":OUTP " ++ Channel.ch self ++ ",OFF".

(** A client none of whose sends raises. *)
Definition sends_never_raise {T : Type} {client : SCPIClient T} : Prop :=
  forall cmd d, exists a, fst (client_send cmd d) = Return a.

(** The tokens [get_common_measure] accepts: a known channel tag, an
    underscore, a member value of [CommonAnalysisType]. *)
Definition accepted_item (item : string) : bool :=
  match Py.split "_" item with
  | [tag; ty] =>
      (String.eqb tag "CH1" || String.eqb tag "CH2" || String.eqb tag "CH3")
      && match CommonAnalysisType.by_value ty with
         | Some _ => true
         | None => false
         end
  | _ => false
  end.

(** The two commands by which a session applies its configuration. *)
Definition config_cmds (cfg : AnalyzerAPI.config) : list string :=
  match cfg with
  | AnalyzerAPI.OfCommon c =>
      [":ANALyzer:TYPE COM";
       ":ANALyzer:COMMon:MEASure:TYPE "
       ++ Py.join "," (AnalyzerAPI.common_cmd_parts c)]
  | AnalyzerAPI.OfPulseCurrent c =>
      [":ANALyzer:TYPE CURR";
       ":ANALyzer:CURRent:MEASure:TYPE "
       ++ Py.join "," (AnalyzerAPI.pulse_cmd_parts c)]
  end.

(** A configuration [set_current_measure] does not reject. *)
Definition has_channel (cfg : AnalyzerAPI.config) : bool :=
  match cfg with
  | AnalyzerAPI.OfCommon _ => true
  | AnalyzerAPI.OfPulseCurrent c =>
      PulseCurrentAnalysis.ch1 c || PulseCurrentAnalysis.ch2 c
  end.

Definition active_cmd (b : bool) : string :=
  ":ANALyzer:STATe " ++ (if b then "1" else "0").

Definition log_cmd (v : Py.value) : string :=
  ":ANALyzer:SAVE:STATe " ++ (if Py.truthy v then "1" else "0").

(** A device that reports through [active_of] whether the analyzer runs:
    queries leave it alone and the state query tells it, the state command
    is acknowledged and sets it, the logging command leaves it alone. *)
Definition analyzer_device {T : Type} {client : SCPIClient T}
  (active_of : T -> bool) : Prop :=
  (forall cmd d, active_of (snd (client_query cmd d)) = active_of d)
  /\ (forall d, fst (client_query ":ANALyzer:STATe?" d)
                = Return (if active_of d then "1" else "0"))
  /\ (forall b d, (exists a, fst (client_send (active_cmd b) d) = Return a)
                  /\ active_of (snd (client_send (active_cmd b) d)) = b)
  /\ (forall cmd d, sets_logging cmd = true ->
                    active_of (snd (client_send cmd d)) = active_of d).

(** [c] returns normally, hands exactly [cmds] to the client and sleeps
    [ms] milliseconds. *)
Definition runs {T : Type} (c : M T unit) (cmds : list string) (ms : N)
  : Prop :=
  forall w, fst (c w) = Return tt
            /\ wire (snd (c w)) = (wire w ++ cmds)%list
            /\ slept_ms (snd (c w)) = (slept_ms w + ms)%N.

(** Number of channels a common configuration selects. *)
Definition selected (cfg : CommonAnalysis.t) : nat :=
  List.length
    (List.filter (fun o : option CommonAnalysisType.name =>
                    match o with Some _ => true | None => false end)
       [CommonAnalysis.ch1 cfg; CommonAnalysis.ch2 cfg; CommonAnalysis.ch3 cfg]).

(** * Properties *)

(** ** The monad *)

Section MonadFacts.
Context {T : Type} {client : SCPIClient T}.

Lemma scpi_send_run (cmd : string) (w : World T) :
  scpi_send cmd w =
  (fst (client_send cmd (device w)),
   mkWorld (snd (client_send cmd (device w))) (wire w ++ [cmd]) (slept_ms w)).
Proof.
  unfold scpi_send. destruct (client_send cmd (device w)); reflexivity.
Qed.

Lemma scpi_query_run (cmd : string) (w : World T) :
  scpi_query cmd w =
  (fst (client_query cmd (device w)),
   mkWorld (snd (client_query cmd (device w))) (wire w ++ [cmd]) (slept_ms w)).
Proof.
  unfold scpi_query. destruct (client_query cmd (device w)); reflexivity.
Qed.

(** A computation that follows a call with world-free work ends in the
    world the call left. *)
Lemma bind_lift_world {A B} (c : M T A) (f : A -> outcome B) (w : World T) :
  snd (bind c (fun a => lift (f a)) w) = snd (c w).
Proof.
  unfold bind, lift. destruct (c w) as [[a | e] w']; reflexivity.
Qed.

Lemma bind_ret_tt (c : M T string) (w : World T) :
  bind c (fun _ => ret tt) w =
  (match fst (c w) with Return _ => Return tt | Raise e => Raise e end,
   snd (c w)).
Proof.
  unfold bind, ret. destruct (c w) as [[a | e] w']; reflexivity.
Qed.

End MonadFacts.

Section ChannelFacts.
Context {T : Type} {client : SCPIClient T}.

Lemma pure_tail_world {A B} (c : M T A) (k : A -> M T B) (w : World T) :
  (forall a w', snd (k a w') = w') ->
  snd (bind c k w) = snd (c w).
Proof.
  intros Hk. unfold bind. destruct (c w) as [[a | e] w']; [apply Hk | reflexivity].
Qed.

Lemma unpack3_world {A} (l : list A) (w : World T) :
  snd (unpack3 (T:=T) l w) = w.
Proof.
  destruct l as [| a [| b [| c [| d l]]]]; reflexivity.
Qed.

Lemma probe_world (self : Channel.t) (w : World T) :
  snd (Channel.probe self w) = snd (scpi_query ("MEAS:ALL? " ++ Channel.ch self) w).
Proof.
  unfold Channel.probe. apply pure_tail_world. intros r w1.
  rewrite pure_tail_world; [apply unpack3_world |].
  intros [[v c] p] w2.
  repeat (rewrite pure_tail_world; [reflexivity | intros ? ?]).
  reflexivity.
Qed.

Lemma ch1_set_output :
  Channel.set_output (Channel.__init__ 1)
    (mkOutput (float_lit "5.0") (float_lit "1.0"))
  = (scpi_send ":APPL CH1,5.000,1.000" ;; ret tt).
Proof. reflexivity. Qed.

End ChannelFacts.

Section C1.
Context {T : Type} {client : SCPIClient T}.

(** C1.  On channel 1, [with ch1(Output(5.0, 1.0)): ch1.probe()] hands the
    client exactly [:APPL CH1,5.000,1.000], [:OUTP CH1,ON], [MEAS:ALL? CH1]
    and [:OUTP CH1,OFF], in this order and nothing else, whenever the
    client acknowledges the first two; what the measurement query and the
    last command answer does not matter. *)
Theorem run_active_probe_wire (w : World T) (a1 a2 : string) (d1 d2 : T) :
  client_send ":APPL CH1,5.000,1.000" (device w) = (Return a1, d1) ->
  client_send ":OUTP CH1,ON" d1 = (Return a2, d2) ->
  wire (snd (Channel.__call__ ch1
               (mkOutput (float_lit "5.0") (float_lit "1.0"))
               (Channel.probe ch1) w))
  = (wire w ++ [":APPL CH1,5.000,1.000"; ":OUTP CH1,ON";
                "MEAS:ALL? CH1"; ":OUTP CH1,OFF"])%list.
Proof.
  intros H1 H2.
  unfold Channel.__call__, ch1. rewrite ch1_set_output.
  unfold try_finally.
  change (Channel.enable (Channel.__init__ 1))
    with (scpi_send (T:=T) ":OUTP CH1,ON" ;; ret tt).
  change (Channel.disable (Channel.__init__ 1))
    with (scpi_send (T:=T) ":OUTP CH1,OFF" ;; ret tt).
  unfold bind at 1 2. rewrite scpi_send_run, H1. cbn [fst snd].
  unfold ret at 1. unfold bind at 1 2. rewrite scpi_send_run. cbn [device].
  rewrite H2. cbn [fst snd]. unfold ret at 1.
  destruct (Channel.probe (Channel.__init__ 1) _) as [r wb] eqn:Hp.
  apply (f_equal snd) in Hp. rewrite probe_world in Hp. cbn [snd] in Hp.
  change (Channel.ch (Channel.__init__ 1)) with "CH1" in Hp.
  rewrite scpi_query_run in Hp. cbn in Hp. subst wb.
  rewrite bind_ret_tt, scpi_send_run. cbn [fst snd device wire].
  destruct (fst (client_send _ _)); cbn; rewrite <- !app_assoc; reflexivity.
Qed.
End C1.

(** C1 at a scripted client that acknowledges and answers the probe. *)
Lemma run_active_probe_wire_witness :
  let script := [Return ""; Return ""; Return "4.998,0.250,1.250"] in
  client_send ":APPL CH1,5.000,1.000" (device (Scripted.start script))
    = (Return "", tl script) /\
  client_send ":OUTP CH1,ON" (tl script) = (Return "", tl (tl script)) /\
  wire (snd (Channel.__call__ ch1
               (mkOutput (float_lit "5.0") (float_lit "1.0"))
               (Channel.probe ch1) (Scripted.start script)))
  = [":APPL CH1,5.000,1.000"; ":OUTP CH1,ON"; "MEAS:ALL? CH1"; ":OUTP CH1,OFF"].
Proof.
  intros script. split; [reflexivity | split; [reflexivity |]].
  apply (run_active_probe_wire (Scripted.start script) "" ""
           (tl script) (tl (tl script))); reflexivity.
Defined.

Section C2.
Context {T : Type} {client : SCPIClient T}.
Variable self : OverProtectiveParent.t.

Lemma finally_send_is_last {A} (c : M T A) (cmd : string) (w : World T) :
  exists pre,
    wire (snd (try_finally c (scpi_send cmd ;; ret tt) w)) = (pre ++ [cmd])%list.
Proof.
  unfold try_finally. destruct (c w) as [r w1].
  rewrite bind_ret_tt, scpi_send_run. cbn [fst snd].
  exists (wire w1). destruct (fst (client_send cmd (device w1))); reflexivity.
Qed.

(** C2.  For every level and every body, the disarm command is the last
    command of the session on every exit path, also when a command before
    the body raised.  Once the client has acknowledged the clear, the
    threshold and the arm command, sent in this order, the body runs in
    the world they left, and whatever way the body ends (a value, an
    exception, a cancellation) the disarm command is sent next.  The
    session then ends the way the body did, so an exception of the body
    reaches the caller after the disarm command; only an exception raised
    by the disarm command itself takes its place. *)
Theorem run_protected_always_disarms
  {A} (level : Py.float) (body : M T A) (w : World T) :
  (exists pre,
      wire (snd (OverProtectiveParent.__call__ self level body w))
      = (pre ++ [disarm_cmd self])%list)
  /\ forall (a1 a2 a3 : string) (d1 d2 d3 : T),
      client_send (clear_cmd self) (device w) = (Return a1, d1) ->
      client_send (level_cmd self level) d1 = (Return a2, d2) ->
      client_send (arm_cmd self) d2 = (Return a3, d3) ->
      let w3 := mkWorld d3
                  (wire w ++ [clear_cmd self; level_cmd self level; arm_cmd self])
                  (slept_ms w) in
      let rb := fst (body w3) in
      let wb := snd (body w3) in
      let rd := fst (client_send (disarm_cmd self) (device wb)) in
      let dd := snd (client_send (disarm_cmd self) (device wb)) in
      OverProtectiveParent.__call__ self level body w
      = (match rd with Return _ => rb | Raise e => Raise e end,
         mkWorld dd (wire wb ++ [disarm_cmd self]) (slept_ms wb)).
Proof.
  split.
  { unfold OverProtectiveParent.__call__. apply finally_send_is_last. }
  intros a1 a2 a3 d1 d2 d3 H1 H2 H3 w3 rb wb rd dd.
  unfold OverProtectiveParent.__call__, try_finally.
  unfold OverProtectiveParent.clear, OverProtectiveParent.set_level,
    OverProtectiveParent.set_state.
  fold (clear_cmd self). fold (level_cmd self level).
  change (OverProtectiveParent.prefix self ++ ":PROT:STAT " ++ on_off true)
    with (arm_cmd self).
  change (OverProtectiveParent.prefix self ++ ":PROT:STAT " ++ on_off false)
    with (disarm_cmd self).
  unfold bind at 1 2. rewrite scpi_send_run, H1. cbn [fst snd]. unfold ret at 1.
  unfold bind at 1 2. rewrite scpi_send_run. cbn [device]. rewrite H2.
  cbn [fst snd]. unfold ret at 1.
  unfold bind at 1 2. rewrite scpi_send_run. cbn [device]. rewrite H3.
  cbn [fst snd wire slept_ms]. unfold ret at 1.
  rewrite <- !app_assoc. cbn [app]. fold w3.
  rewrite (surjective_pairing (body w3)). fold rb wb.
  rewrite bind_ret_tt, scpi_send_run. cbn [fst snd]. fold rd dd.
  destruct rd; reflexivity.
Qed.
End C2.

(** C2 at a body that is cancelled at once. *)
Lemma run_protected_always_disarms_witness :
  client_send (clear_cmd ocp1) (device (Scripted.start [])) = (Return "", []) /\
  client_send (level_cmd ocp1 (float_lit "2.5")) [] = (Return "", []) /\
  client_send (arm_cmd ocp1) [] = (Return "", []) /\
  OverProtectiveParent.__call__ ocp1 (float_lit "2.5")
    (raise (A := unit) KeyboardInterrupt) (Scripted.start [])
  = (Raise KeyboardInterrupt,
     mkWorld []
       [":SOURCe[1]:CURRent:PROT:CLE"; ":SOURCe[1]:CURRent:PROT 2.500";
        ":SOURCe[1]:CURRent:PROT:STAT ON"; ":SOURCe[1]:CURRent:PROT:STAT OFF"]
       0).
Proof.
  repeat (split; [reflexivity |]).
  exact (proj2 (run_protected_always_disarms ocp1 (float_lit "2.5")
                  (raise KeyboardInterrupt) (Scripted.start []))
           "" "" "" [] [] [] eq_refl eq_refl eq_refl).
Defined.

Section C3.
Context {T : Type} {client : SCPIClient T}.

(** C3, amended.  With neither channel enabled, [set_current_measure]
    hands the client exactly one command, the type switch
    [:ANALyzer:TYPE CURR], and then raises the error for a configuration
    without channels (or the client's own error, if the switch raised);
    the measure-type command is never sent. *)
Theorem set_current_measure_rejects_after_type (w : World T) :
  AnalyzerAPI.set_current_measure (PulseCurrentAnalysis.mk false false) w
  = (match fst (client_send ":ANALyzer:TYPE CURR" (device w)) with
     | Return _ => Raise no_channel_error
     | Raise e => Raise e
     end,
     mkWorld (snd (client_send ":ANALyzer:TYPE CURR" (device w)))
             (wire w ++ [":ANALyzer:TYPE CURR"]) (slept_ms w)).
Proof.
  unfold AnalyzerAPI.set_current_measure, AnalyzerAPI.set_type.
  cbn [AnalysisType.value PulseCurrentAnalysis.ch1 PulseCurrentAnalysis.ch2
       existsb orb negb].
  change (":ANALyzer:TYPE " ++ "CURR") with ":ANALyzer:TYPE CURR".
  unfold bind. rewrite scpi_send_run.
  destruct (fst (client_send _ _)); reflexivity.
Qed.
End C3.

(** C3 as stated fails: the error is raised after a command was sent. *)
Lemma set_current_measure_sends_before_raising :
  let w0 := Scripted.start [] in
  let r := AnalyzerAPI.set_current_measure (PulseCurrentAnalysis.mk false false) w0 in
  fst r = Raise no_channel_error /\ wire (snd r) = [":ANALyzer:TYPE CURR"]
  /\ wire (snd r) <> wire w0.
Proof. repeat split. discriminate. Qed.

(** C7 at the reply [CC]: the enumeration lookup raises [ValueError],
    because [ConstantCurrent] is declared with the value [CV] and so is
    only another name of [ConstantVoltage]; [CV] and [UR] are parsed. *)
Theorem output_mode_cc_not_parsed :
  fst (Channel.output_mode ch1 (Scripted.start [Return "CC"]))
    = Raise (ValueError "CC is not a valid OutputMode")
  /\ fst (Channel.output_mode ch1 (Scripted.start [Return "CV"]))
    = Return OutputMode.ConstantVoltage
  /\ fst (Channel.output_mode ch1 (Scripted.start [Return "UR"]))
    = Return OutputMode.Unregulated
  /\ OutputMode.member OutputMode.ConstantCurrent = OutputMode.ConstantVoltage
  /\ OutputMode.value OutputMode.ConstantCurrent = "CV".
Proof. repeat split. Qed.

Section C10.
Context {T : Type} {client : SCPIClient T}.

(** C10.  The logging getter ends exactly as the client's query did: the
    reply text is returned as it is.  The active getter compares the reply
    with [1] and returns the boolean. *)
Theorem log_getter_returns_text (w : World T) :
  fst (AnalyzerAPI.get_log w)
    = fst (client_query ":ANALyzer:SAVE:STATe?" (device w))
  /\ fst (AnalyzerAPI.get_active w)
    = match fst (client_query ":ANALyzer:STATe?" (device w)) with
      | Return s => Return (String.eqb s "1")
      | Raise e => Raise e
      end.
Proof.
  unfold AnalyzerAPI.get_log, AnalyzerAPI.get_active, bind, ret.
  rewrite !scpi_query_run. cbn [fst].
  split; [reflexivity |]. destruct (fst (client_query _ _)); reflexivity.
Qed.
End C10.

Section C4.
Context {T : Type} {client : SCPIClient T}.

Lemma enum_call_outcome (v : string) (w : World T) :
  (exists n, CommonAnalysisType.call v w = (Return n, w))
  \/ (exists e, CommonAnalysisType.call v w = (Raise e, w)
                /\ is_protocol_violation e = true).
Proof.
  unfold CommonAnalysisType.call.
  destruct (CommonAnalysisType.by_value v) as [n |].
  - left. exists n. reflexivity.
  - right. eexists. split; reflexivity.
Qed.

Lemma item_outcome (item : string) (result : CommonAnalysis.t) (w : World T) :
  (exists r, AnalyzerAPI.common_measure_item item result w = (Return r, w))
  \/ (exists e, AnalyzerAPI.common_measure_item item result w = (Raise e, w)
                /\ is_protocol_violation e = true).
Proof.
  unfold AnalyzerAPI.common_measure_item.
  destruct (Py.split "_" item) as [| a [| b [| c l]]];
    try (right; eexists; split; reflexivity).
  cbn [unpack2]. unfold bind, ret, raise. cbv beta iota.
  repeat match goal with
  | |- context [if String.eqb a ?t then _ else _] =>
      destruct (String.eqb a t);
      [ destruct (enum_call_outcome b w) as [[n Hn] | [e [He Hv]]];
        rewrite ?Hn, ?He;
        [ left; eexists; reflexivity
        | right; exists e; split; [reflexivity | exact Hv] ]
      | ]
  end.
  right. eexists. split; reflexivity.
Qed.

Lemma item_unknown_tag (item : string) (result : CommonAnalysis.t) (w : World T) :
  ~ known_tag (channel_tag item) ->
  exists e, AnalyzerAPI.common_measure_item item result w = (Raise e, w)
            /\ is_protocol_violation e = true.
Proof.
  unfold channel_tag, known_tag, AnalyzerAPI.common_measure_item. intros Hbad.
  destruct (Py.split "_" item) as [| a [| b [| c l]]];
    try (eexists; split; reflexivity).
  cbn [hd] in Hbad. cbn [unpack2]. unfold bind, ret, raise. cbv beta iota.
  destruct (String.eqb_spec a "CH1"); [tauto |].
  destruct (String.eqb_spec a "CH2"); [tauto |].
  destruct (String.eqb_spec a "CH3"); [tauto |].
  eexists. split; reflexivity.
Qed.

Lemma loop_unknown_tag (items : list string) (item : string) :
  In item items -> ~ known_tag (channel_tag item) ->
  forall (result : CommonAnalysis.t) (w : World T),
  exists e, AnalyzerAPI.common_measure_loop items result w = (Raise e, w)
            /\ is_protocol_violation e = true.
Proof.
  intros Hin Hbad. induction items as [| x rest IH]; [contradiction |].
  intros result w. cbn [AnalyzerAPI.common_measure_loop]. unfold bind.
  destruct Hin as [-> | Hin].
  - destruct (item_unknown_tag item result w Hbad) as [e [He Hv]].
    rewrite He. exists e. split; [reflexivity | exact Hv].
  - destruct (item_outcome x result w) as [[r Hr] | [e [He Hv]]].
    + rewrite Hr. apply IH. exact Hin.
    + rewrite He. exists e. split; [reflexivity | exact Hv].
Qed.

(** C4.  The reply [CH1_V CH2_C CH3_P] is parsed to voltage, current and
    power for the three channels.  A reply with a token whose channel tag
    is none of [CH1], [CH2], [CH3] makes [get_common_measure] raise one of
    the parse failures the spec calls [ProtocolViolation]; for the reply
    [CH4_V] it is the [AssertionError] of the final branch. *)
Theorem get_common_measure_parsing (w : World T) :
  (forall d',
      client_query ":ANALyzer:COMMon:MEASure:TYPE?" (device w)
        = (Return "CH1_V CH2_C CH3_P", d') ->
      fst (AnalyzerAPI.get_common_measure w)
        = Return (CommonAnalysis.mk (Some CommonAnalysisType.Voltage)
                    (Some CommonAnalysisType.Current)
                    (Some CommonAnalysisType.Power)))
  /\ (forall response d' item,
      client_query ":ANALyzer:COMMon:MEASure:TYPE?" (device w)
        = (Return response, d') ->
      In item (Py.split " " response) ->
      ~ known_tag (channel_tag item) ->
      exists e, fst (AnalyzerAPI.get_common_measure w) = Raise e
                /\ is_protocol_violation e = true)
  /\ (forall d',
      client_query ":ANALyzer:COMMon:MEASure:TYPE?" (device w)
        = (Return "CH4_V", d') ->
      fst (AnalyzerAPI.get_common_measure w)
        = Raise (AssertionError "Hinerk assumed he knew how to code!")).
Proof.
  unfold AnalyzerAPI.get_common_measure, bind.
  rewrite scpi_query_run.
  split; [| split].
  - intros d' H. rewrite H. reflexivity.
  - intros response d' item H Hin Hbad. rewrite H. cbn [fst snd].
    destruct (loop_unknown_tag _ item Hin Hbad CommonAnalysis.default
                (mkWorld d' (wire w ++ [":ANALyzer:COMMon:MEASure:TYPE?"])
                   (slept_ms w))) as [e [He Hv]].
    rewrite He. exists e. split; [reflexivity | exact Hv].
  - intros d' H. rewrite H. reflexivity.
Qed.
End C4.

(** C4 at three scripted replies. *)
Lemma get_common_measure_parsing_witness :
  fst (AnalyzerAPI.get_common_measure
         (Scripted.start [Return "CH1_V CH2_C CH3_P"]))
    = Return (CommonAnalysis.mk (Some CommonAnalysisType.Voltage)
                (Some CommonAnalysisType.Current)
                (Some CommonAnalysisType.Power))
  /\ (exists e,
        fst (AnalyzerAPI.get_common_measure
               (Scripted.start [Return "CH1_V CH4_V"])) = Raise e
        /\ is_protocol_violation e = true)
  /\ fst (AnalyzerAPI.get_common_measure (Scripted.start [Return "CH4_V"]))
    = Raise (AssertionError "Hinerk assumed he knew how to code!").
Proof.
  split; [| split].
  - exact (proj1 (get_common_measure_parsing
                    (Scripted.start [Return "CH1_V CH2_C CH3_P"])) [] eq_refl).
  - apply (proj1 (proj2 (get_common_measure_parsing
                           (Scripted.start [Return "CH1_V CH4_V"])))
             "CH1_V CH4_V" [] "CH4_V").
    + reflexivity.
    + right. left. reflexivity.
    + unfold known_tag. cbn. intros [H | [H | H]]; discriminate H.
  - exact (proj2 (proj2 (get_common_measure_parsing
                           (Scripted.start [Return "CH4_V"]))) [] eq_refl).
Defined.

Section C5.
Context {T : Type} {client : SCPIClient T} {L : Type}.
Variable logging_of : T -> L.

Lemma keeps_ret {A} (a : A) : keeps_logging logging_of (ret a).
Proof. intros w. reflexivity. Qed.

Lemma keeps_raise {A} (e : exn) : keeps_logging logging_of (raise (A := A) e).
Proof. intros w. reflexivity. Qed.

Lemma keeps_bind {A B} (c : M T A) (k : A -> M T B) :
  keeps_logging logging_of c ->
  (forall a, keeps_logging logging_of (k a)) ->
  keeps_logging logging_of (bind c k).
Proof.
  intros Hc Hk w. unfold bind. specialize (Hc w).
  destruct (c w) as [[a | e] w1]; cbn [snd] in *.
  - rewrite Hk. exact Hc.
  - exact Hc.
Qed.

Hypothesis other_sends_keep :
  forall cmd d, sets_logging cmd = false ->
                logging_of (snd (client_send cmd d)) = logging_of d.
Hypothesis queries_keep :
  forall cmd d, logging_of (snd (client_query cmd d)) = logging_of d.

Lemma keeps_send (cmd : string) :
  sets_logging cmd = false -> keeps_logging logging_of (scpi_send cmd).
Proof.
  intros H w. rewrite scpi_send_run. cbn [snd device].
  apply other_sends_keep. exact H.
Qed.

Lemma keeps_query (cmd : string) : keeps_logging logging_of (scpi_query cmd).
Proof.
  intros w. rewrite scpi_query_run. cbn [snd device]. apply queries_keep.
Qed.

Lemma keeps_set_active (b : bool) :
  keeps_logging logging_of (AnalyzerAPI.set_active b).
Proof.
  unfold AnalyzerAPI.set_active.
  apply keeps_bind; [| intros; apply keeps_ret].
  apply keeps_send. destruct b; reflexivity.
Qed.

Lemma keeps_set_type (n : AnalysisType.name) :
  keeps_logging logging_of (AnalyzerAPI.set_type n).
Proof.
  unfold AnalyzerAPI.set_type.
  apply keeps_bind; [| intros; apply keeps_ret].
  apply keeps_send. destruct n; reflexivity.
Qed.

Lemma keeps_configure (cfg : AnalyzerAPI.config) :
  keeps_logging logging_of
    match cfg with
    | AnalyzerAPI.OfPulseCurrent c => AnalyzerAPI.set_current_measure c
    | AnalyzerAPI.OfCommon c => AnalyzerAPI.set_common_measure c
    end.
Proof.
  destruct cfg as [c | c].
  - unfold AnalyzerAPI.set_common_measure.
    apply keeps_bind; [apply keeps_set_type | intros _].
    apply keeps_bind; [| intros; apply keeps_ret].
    apply keeps_send. reflexivity.
  - unfold AnalyzerAPI.set_current_measure.
    apply keeps_bind; [apply keeps_set_type | intros _].
    destruct (negb _); [apply keeps_raise |].
    apply keeps_bind; [| intros; apply keeps_ret].
    apply keeps_send. reflexivity.
Qed.

Lemma finally_keeps {A} (c : M T A) (f : M T unit) (w : World T) :
  keeps_logging logging_of f ->
  logging_of (device (snd (try_finally c f w)))
  = logging_of (device (snd (c w))).
Proof.
  intros Hf. unfold try_finally. destruct (c w) as [r w1].
  specialize (Hf w1). destruct (f w1) as [[u | e] w2]; exact Hf.
Qed.

(** C5, amended.  On a device whose logging state changes only through
    the logging command, a session with [log=False] does nothing to the
    logging state: its commands up to the start of the body leave it
    alone, and after the session it is the state the body left, or the
    state before the session if the body was never started.  So it is the
    state before the session whenever the body, in the state it was
    started in, leaves logging as it found it, whatever it did to it in
    between. *)
Theorem analyze_without_log_keeps_logging
  {A} (cfg : AnalyzerAPI.config) (body : M T A) (w : World T) :
  let entry := analyze_setup cfg false w in
  let final :=
    logging_of (device (snd (AnalyzerAPI.analyze cfg false body w))) in
  logging_of (device (snd entry)) = logging_of (device w)
  /\ (forall e, fst entry = Raise e -> final = logging_of (device w))
  /\ (fst entry = Return tt ->
      final = logging_of (device (snd (body (snd entry))))
      /\ (logging_of (device (snd (body (snd entry))))
          = logging_of (device (snd entry)) ->
          final = logging_of (device w))).
Proof.
  set (conf := match cfg with
               | AnalyzerAPI.OfPulseCurrent c => AnalyzerAPI.set_current_measure c
               | AnalyzerAPI.OfCommon c => AnalyzerAPI.set_common_measure c
               end).
  assert (K1 : keeps_logging logging_of AnalyzerAPI.get_log)
    by apply keeps_query.
  assert (K2 : keeps_logging logging_of AnalyzerAPI.get_active)
    by (apply keeps_bind; [apply keeps_query | intros; apply keeps_ret]).
  assert (K3 : keeps_logging logging_of conf) by apply keeps_configure.
  assert (Kf : forall a0,
             keeps_logging logging_of
               (AnalyzerAPI.set_active a0 ;; ret tt)).
  { intros a0. apply keeps_bind; [apply keeps_set_active | intros; apply keeps_ret]. }
  assert (Hbind : forall (B C : Type) (c : M T B) (k : B -> M T C) (w' : World T),
             bind c k w'
             = match c w' with
               | (Return a, w1) => k a w1
               | (Raise e, w1) => (Raise e, w1)
               end) by reflexivity.
  cbv zeta. unfold AnalyzerAPI.analyze, analyze_setup. fold conf.
  rewrite !Hbind.
  pose proof (K1 w) as H1.
  destruct (AnalyzerAPI.get_log w) as [[l0 | e1] w1]; cbn [fst snd] in *.
  2:{ split; [exact H1 |]. split; [intros _ _; exact H1 | discriminate]. }
  rewrite !Hbind.
  pose proof (K2 w1) as H2.
  destruct (AnalyzerAPI.get_active w1) as [[a0 | e2] w2]; cbn [fst snd] in *.
  2:{ split; [congruence |]. split; [intros _ _; congruence | discriminate]. }
  rewrite (finally_keeps _ _ w2 (Kf a0)).
  rewrite !Hbind.
  pose proof (K3 w2) as H3.
  destruct (conf w2) as [[[] | e3] w3]; cbn [fst snd] in *.
  2:{ split; [congruence |]. split; [intros _ _; congruence | discriminate]. }
  rewrite !Hbind. unfold ret. rewrite ?Hbind.
  pose proof (keeps_set_active true w3) as H4.
  destruct (AnalyzerAPI.set_active true w3) as [[[] | e4] w4]; cbn [fst snd] in *.
  2:{ split; [congruence |]. split; [intros _ _; congruence | discriminate]. }
  split; [congruence |]. split; [discriminate |].
  intros _. split; [reflexivity | intros Hb; congruence].
Qed.
End C5.

Lemma sim_other_sends_keep (cmd : string) (d : Sim.t) :
  sets_logging cmd = false ->
  Sim.logging (snd (client_send cmd d)) = Sim.logging d.
Proof.
  unfold sets_logging. intros H. cbn [client_send Sim.client]. unfold Sim.send.
  rewrite H.
  destruct (String.prefix ":ANALyzer:STATe " cmd); [reflexivity |].
  destruct (String.prefix ":APPL " cmd).
  { destruct (Py.split1 "," _) as [| a [| b [| c l]]]; reflexivity. }
  destruct (String.prefix ":SYST:BRIG " cmd).
  { destruct (Py.int_of_str _); reflexivity. }
  destruct (String.prefix ":SYST:BEEP " cmd); reflexivity.
Qed.

Lemma sim_queries_keep (cmd : string) (d : Sim.t) :
  Sim.logging (snd (client_query cmd d)) = Sim.logging d.
Proof.
  cbn [client_query Sim.client]. unfold Sim.query.
  repeat match goal with |- context [if ?b then _ else _] => destruct b end;
    reflexivity.
Qed.

(** C5, amended, on the simulated device with logging off, around a body
    that switches logging on and puts back what it found: logging is off
    before the session, on in the middle of the body, off after the
    session. *)
Lemma analyze_without_log_keeps_logging_witness :
  let cfg := AnalyzerAPI.OfPulseCurrent PulseCurrentAnalysis.default in
  let w := Sim.start Sim.initial in
  let entry := analyze_setup cfg false w in
  (forall cmd d, sets_logging cmd = false ->
                 Sim.logging (snd (client_send cmd d)) = Sim.logging d)
  /\ (forall cmd d, Sim.logging (snd (client_query cmd d)) = Sim.logging d)
  /\ fst entry = Return tt
  /\ Sim.logging (device (snd (toggling_body (snd entry))))
     = Sim.logging (device (snd entry))
  /\ Sim.logging (device w) = false
  /\ Sim.logging (device (snd (toggling_start (snd entry)))) = true
  /\ Sim.logging
       (device (snd (AnalyzerAPI.analyze cfg false toggling_body w)))
     = false.
Proof.
  intros cfg w entry.
  assert (H1 : fst entry = Return tt) by reflexivity.
  assert (H2 : Sim.logging (device (snd (toggling_body (snd entry))))
               = Sim.logging (device (snd entry))) by reflexivity.
  split; [exact sim_other_sends_keep |].
  split; [exact sim_queries_keep |].
  split; [exact H1 |]. split; [exact H2 |].
  split; [reflexivity |]. split; [reflexivity |].
  exact (proj2 (proj2 (proj2 (analyze_without_log_keeps_logging Sim.logging
                                sim_other_sends_keep sim_queries_keep
                                cfg toggling_body w)) H1) H2).
Defined.

(** C5 as stated fails: with [log=False] the session restores nothing.
    Around a body that switches logging on and leaves it on, logging is
    off before the session and on after it; the session itself has sent
    no logging command. *)
Lemma analyze_without_log_keeps_body_change :
  let w0 := Sim.start Sim.initial in
  let r := AnalyzerAPI.analyze
             (AnalyzerAPI.OfPulseCurrent PulseCurrentAnalysis.default)
             false (AnalyzerAPI.set_log (Py.VBool true)) w0 in
  fst r = Return tt
  /\ Sim.logging (device w0) = false
  /\ Sim.logging (device (snd r)) = true
  /\ wire (snd r)
     = [":ANALyzer:SAVE:STATe?"; ":ANALyzer:STATe?"; ":ANALyzer:TYPE CURR";
        ":ANALyzer:CURRent:MEASure:TYPE CH1,CH2"; ":ANALyzer:STATe 1";
        ":ANALyzer:SAVE:STATe 1"; ":ANALyzer:STATe 0"].
Proof. repeat split. Qed.

(** C6 at a device with logging off: a session with [log=True] restores
    [active], but its last command is [:ANALyzer:SAVE:STATe 1], because the
    saved reply text [0] is a non-empty string and counts as true; logging
    stays on although it was off before the session. *)
Theorem analyze_with_log_leaves_logging_on :
  let w0 := Sim.start Sim.initial in
  let r := AnalyzerAPI.analyze
             (AnalyzerAPI.OfCommon
                (CommonAnalysis.mk (Some CommonAnalysisType.Voltage) None None))
             true (ret tt) w0 in
  fst r = Return tt
  /\ Sim.active (device (snd r)) = Sim.active (device w0)
  /\ Sim.logging (device w0) = false
  /\ Sim.logging (device (snd r)) = true
  /\ wire (snd r)
     = [":ANALyzer:SAVE:STATe?"; ":ANALyzer:STATe?"; ":ANALyzer:TYPE COM";
        ":ANALyzer:COMMon:MEASure:TYPE CH1_V"; ":ANALyzer:SAVE:STATe 1";
        ":ANALyzer:STATe 1"; ":ANALyzer:STATe 0"; ":ANALyzer:SAVE:STATe 1"].
Proof. repeat split. Qed.

(** ** Rounding *)

Lemma div_rne_spec (a b : Z) :
  0 < b ->
  2 * Z.abs (Py.div_rne a b * b - a) < b
  \/ (2 * Z.abs (Py.div_rne a b * b - a) = b /\ Z.even (Py.div_rne a b) = true).
Proof.
  intros Hb. unfold Py.div_rne.
  pose proof (Z.div_mod a b ltac:(lia)) as Hdm.
  pose proof (Z.mod_pos_bound a b Hb) as Hr.
  set (q := a / b) in *. set (r := a mod b) in *.
  destruct (Z.compare_spec (2 * r) b) as [He | Hl | Hg].
  - destruct (Z.even q) eqn:Hq.
    + right. split; [lia | exact Hq].
    + right. split; [lia |].
      rewrite Z.even_add, Hq. reflexivity.
  - left. lia.
  - left. lia.
Qed.

Lemma div_rne_unique (a b n : Z) :
  0 < b ->
  2 * Z.abs (n * b - a) < b \/ (2 * Z.abs (n * b - a) = b /\ Z.even n = true) ->
  Py.div_rne a b = n.
Proof.
  intros Hb Hn. pose proof (div_rne_spec a b Hb) as Hm.
  set (m := Py.div_rne a b) in *.
  assert (Hd : Z.abs (m - n) * b <= Z.abs (m * b - a) + Z.abs (n * b - a)).
  { replace (Z.abs (m - n) * b) with (Z.abs ((m - n) * b)) by
      (rewrite Z.abs_mul, (Z.abs_eq b); lia).
    replace ((m - n) * b) with ((m * b - a) - (n * b - a)) by ring.
    lia. }
  destruct Hm as [Hm | [Hm Hme]]; destruct Hn as [Hn | [Hn Hne]];
    try (assert (Z.abs (m - n) < 1) by nia; lia).
  assert (Hle : Z.abs (m - n) <= 1) by nia.
  destruct (Z.eq_dec m n) as [| Hne']; [assumption | exfalso].
  assert (Hodd : Z.even (m - n) = false).
  { assert (m - n = 1 \/ m - n = -1) as [-> | ->] by lia; reflexivity. }
  rewrite Z.even_sub, Hme, Hne in Hodd. discriminate.
Qed.

Lemma div_rne_scale (a b c : Z) :
  0 < b -> 0 < c -> Py.div_rne (a * c) (b * c) = Py.div_rne a b.
Proof.
  intros Hb Hc. apply div_rne_unique; [nia |].
  replace (Py.div_rne a b * (b * c) - a * c)
    with ((Py.div_rne a b * b - a) * c) by ring.
  rewrite Z.abs_mul, (Z.abs_eq c) by lia.
  destruct (div_rne_spec a b Hb) as [H | [H He]].
  - left. nia.
  - right. split; [nia | exact He].
Qed.

Lemma div_rne_nearest (a b j : Z) :
  0 < b -> Z.abs (Py.div_rne a b * b - a) <= Z.abs (j * b - a).
Proof.
  intros Hb. pose proof (div_rne_spec a b Hb) as Hm.
  set (m := Py.div_rne a b) in *.
  destruct (Z.eq_dec j m) as [-> | Hne]; [lia |].
  assert (Hd : b <= Z.abs (j * b - a) + Z.abs (m * b - a)).
  { assert (1 <= Z.abs (j - m)) by lia.
    assert (Z.abs ((j - m) * b) = Z.abs (j - m) * b)
      by (rewrite Z.abs_mul, (Z.abs_eq b); lia).
    replace ((j - m) * b) with ((j * b - a) - (m * b - a)) in H0 by ring.
    nia. }
  lia.
Qed.

Lemma digits2_bound (m : positive) : Zpos m < 2 ^ Zpos (digits2_pos m).
Proof.
  induction m as [m IH | m IH |]; cbn [digits2_pos]; [| | reflexivity].
  - rewrite Pos2Z.inj_succ, Z.pow_succ_r by lia. lia.
  - rewrite Pos2Z.inj_succ, Z.pow_succ_r by lia. lia.
Qed.

Lemma valid_finite_bounds (s : bool) (m : positive) (e : Z) :
  Py.is_binary64 (S754_finite s m e) ->
  Zpos m < 2 ^ 53 /\ -1074 <= e <= 971.
Proof.
  unfold Py.is_binary64, valid_binary, bounded, canonical_mantissa, fexp, emin.
  intros H. apply andb_true_iff in H. destruct H as [Hc He].
  apply Z.eqb_eq in Hc. apply Z.leb_le in He.
  pose proof (digits2_bound m) as Hd.
  set (dg := Zpos (digits2_pos m)) in *.
  assert (Hdg : dg <= 53) by lia.
  split; [| lia].
  apply Z.lt_le_trans with (1 := Hd).
  apply Z.pow_le_mono_r; lia.
Qed.

Lemma pow2_split (a b : Z) : 0 <= a -> 0 <= b -> 2 ^ (a + b) = 2 ^ a * 2 ^ b.
Proof. intros. apply Z.pow_add_r; assumption. Qed.

Lemma thousandths_scaled (m : positive) (e : Z) :
  -1074 <= e ->
  Py.thousandths m e
  = Py.div_rne (1000 * (Zpos m * 2 ^ (e + 1074))) (2 ^ 1074).
Proof.
  intros He. unfold Py.thousandths.
  set (c := 2 ^ (1074 - Z.max (- e) 0)).
  assert (Hc : 0 < c) by (apply Z.pow_pos_nonneg; lia).
  assert (Hd : 0 < 2 ^ Z.max (- e) 0) by (apply Z.pow_pos_nonneg; lia).
  rewrite <- (div_rne_scale _ _ c Hd Hc). f_equal.
  - replace (e + 1074) with (Z.max e 0 + (1074 - Z.max (- e) 0)) by lia.
    rewrite pow2_split by lia. fold c. ring.
  - unfold c. rewrite <- pow2_split by lia. f_equal. lia.
Qed.

Lemma above_pow2_scaled (num den l s : Z) :
  0 <= s -> 0 <= l + s ->
  Py.above_pow2 num den l = true <-> den * 2 ^ (l + s) <= num * 2 ^ s.
Proof.
  intros Hs Hls. unfold Py.above_pow2. rewrite Z.leb_le.
  set (c := 2 ^ (s - Z.max (- l) 0)).
  assert (Hc : 0 < c) by (apply Z.pow_pos_nonneg; lia).
  replace (2 ^ (l + s)) with (2 ^ Z.max l 0 * c).
  2:{ unfold c. rewrite <- pow2_split by lia. f_equal. lia. }
  replace (2 ^ s) with (2 ^ Z.max (- l) 0 * c).
  2:{ unfold c. rewrite <- pow2_split by lia. f_equal. lia. }
  rewrite !Z.mul_assoc. split; intros H.
  - apply Z.mul_le_mono_nonneg_r; lia.
  - apply Z.mul_le_mono_pos_r in H; assumption.
Qed.

Lemma ulp_exponent_lower (num den : Z) :
  0 < num -> 0 < den ->
  -1074 <= Py.ulp_exponent num den
  /\ (-1074 < Py.ulp_exponent num den ->
      den * 2 ^ (Py.ulp_exponent num den + 52 + 1074) <= num * 2 ^ 1074).
Proof.
  intros Hn Hd. unfold Py.ulp_exponent.
  set (l := Z.log2 num - Z.log2 den).
  set (k := if Py.above_pow2 num den l then l else l - 1).
  split; [lia |]. intros He.
  assert (Hk : Z.max (k - 52) (-1074) = k - 52) by lia. rewrite Hk.
  replace (k - 52 + 52 + 1074) with (k + 1074) by ring.
  assert (Hk0 : 0 <= k + 1074) by lia.
  unfold k in *. destruct (Py.above_pow2 num den l) eqn:Ha.
  - apply (above_pow2_scaled num den l 1074); [lia | lia | exact Ha].
  - destruct (Z.log2_spec num Hn) as [Hn1 _].
    destruct (Z.log2_spec den Hd) as [_ Hd2].
    pose proof (Z.log2_nonneg num). pose proof (Z.log2_nonneg den).
    apply Z.le_trans with (2 ^ Z.log2 num * 2 ^ 1074).
    2:{ apply Z.mul_le_mono_nonneg_r; [apply Z.pow_nonneg; lia | exact Hn1]. }
    rewrite <- pow2_split by lia.
    replace (Z.log2 num + 1074) with (Z.succ (Z.log2 den) + (l - 1 + 1074))
      by (unfold l; lia).
    rewrite (pow2_split (Z.succ (Z.log2 den))) by lia.
    apply Z.mul_le_mono_nonneg_r; [apply Z.pow_nonneg; lia | lia].
Qed.

Lemma ulp_exponent_upper (num den : Z) :
  0 < num -> 0 < den -> -1074 <= Z.log2 num - Z.log2 den ->
  num * 2 ^ 1074 < den * 2 ^ (Py.ulp_exponent num den + 53 + 1074).
Proof.
  intros Hn Hd Hl. unfold Py.ulp_exponent.
  set (l := Z.log2 num - Z.log2 den) in *.
  set (k := if Py.above_pow2 num den l then l else l - 1).
  set (e := Z.max (k - 52) (-1074)).
  assert (Hbelow : num * 2 ^ 1074 < den * 2 ^ (k + 1 + 1074)).
  { unfold k. destruct (Py.above_pow2 num den l) eqn:Ha.
    - destruct (Z.log2_spec num Hn) as [_ Hn2].
      destruct (Z.log2_spec den Hd) as [Hd1 _].
      pose proof (Z.log2_nonneg num). pose proof (Z.log2_nonneg den).
      set (ld := Z.log2 den) in *. set (ln := Z.log2 num) in *.
      assert (Hp : 0 < 2 ^ ld) by (apply Z.pow_pos_nonneg; lia).
      apply Z.mul_lt_mono_pos_r with (p := 2 ^ ld); [exact Hp |].
      replace (den * 2 ^ (l + 1 + 1074) * 2 ^ ld)
        with (den * (2 ^ Z.succ ln * 2 ^ 1074)).
      2:{ rewrite <- Z.mul_assoc. f_equal. rewrite <- !pow2_split by lia.
          f_equal. unfold l. lia. }
      assert (Hq : 0 < 2 ^ 1074) by (apply Z.pow_pos_nonneg; lia).
      apply Z.le_lt_trans with (num * 2 ^ 1074 * den).
      + apply Z.mul_le_mono_nonneg_l; [lia | exact Hd1].
      + replace (num * 2 ^ 1074 * den) with (den * (num * 2 ^ 1074)) by ring.
        apply Z.mul_lt_mono_pos_l; [exact Hd |].
        apply Z.mul_lt_mono_pos_r; [exact Hq | exact Hn2].
    - replace (l - 1 + 1 + 1074) with (l + 1074) by ring.
      destruct (Z_lt_le_dec (num * 2 ^ 1074) (den * 2 ^ (l + 1074)))
        as [H | H]; [exact H | exfalso].
      apply (above_pow2_scaled num den l 1074) in H; [| lia | lia].
      congruence. }
  apply Z.lt_le_trans with (1 := Hbelow).
  apply Z.mul_le_mono_nonneg_l; [lia |].
  apply Z.pow_le_mono_r; unfold e; lia.
Qed.

Lemma digits2_lower (p : positive) : 2 ^ (Zpos (digits2_pos p) - 1) <= Zpos p.
Proof.
  induction p as [p IH | p IH |]; cbn [digits2_pos]; [| | cbn; lia].
  - rewrite Pos2Z.inj_succ.
    replace (Z.succ (Zpos (digits2_pos p)) - 1)
      with (Z.succ (Zpos (digits2_pos p) - 1)) by lia.
    rewrite Z.pow_succ_r by lia. lia.
  - rewrite Pos2Z.inj_succ.
    replace (Z.succ (Zpos (digits2_pos p)) - 1)
      with (Z.succ (Zpos (digits2_pos p) - 1)) by lia.
    rewrite Z.pow_succ_r by lia. lia.
Qed.

(** A mantissa of at most 53 bits, of exactly 53 above the least
    exponent, makes a binary64. *)
Lemma binary64_of_bounds (s : bool) (m : positive) (e : Z) :
  Zpos m < 2 ^ 53 -> -1074 <= e <= 971 ->
  (-1074 < e -> 2 ^ 52 <= Zpos m) ->
  Py.is_binary64 (S754_finite s m e).
Proof.
  intros Hm He Hn.
  unfold Py.is_binary64, valid_binary, bounded, canonical_mantissa, fexp, emin.
  pose proof (digits2_bound m) as Hup. pose proof (digits2_lower m) as Hlo.
  set (d := Zpos (digits2_pos m)) in *.
  assert (Hd0 : 0 < d) by (unfold d; lia).
  assert (Hd53 : d <= 53).
  { destruct (Z_le_gt_dec d 53) as [H | H]; [exact H | exfalso].
    assert (2 ^ 53 <= 2 ^ (d - 1)) by (apply Z.pow_le_mono_r; lia). lia. }
  apply andb_true_iff. split; [apply Z.eqb_eq | apply Z.leb_le; lia].
  destruct (Z.eq_dec e (-1074)) as [-> | Hne]; [lia |].
  assert (H52 : 2 ^ 52 <= Zpos m) by (apply Hn; lia).
  assert (d = 53); [| lia].
  destruct (Z_le_gt_dec d 52) as [H | H]; [exfalso | lia].
  assert (2 ^ d <= 2 ^ 52) by (apply Z.pow_le_mono_r; lia). lia.
Qed.

Lemma div_rne_nonneg (a b : Z) : 0 <= a -> 0 < b -> 0 <= Py.div_rne a b.
Proof.
  intros Ha Hb. unfold Py.div_rne.
  pose proof (Z.div_pos a b Ha Hb).
  destruct (2 * (a mod b) ?= b); [destruct (Z.even (a / b)) | |]; lia.
Qed.

Lemma thousandths_nonneg (m : positive) (e : Z) : 0 <= Py.thousandths m e.
Proof.
  unfold Py.thousandths. apply div_rne_nonneg.
  - assert (0 < 2 ^ Z.max e 0) by (apply Z.pow_pos_nonneg; lia). lia.
  - apply Z.pow_pos_nonneg; lia.
Qed.

Section RoundTrip.
Variables (s : bool) (mx : positive) (ex : Z).
Hypothesis valid : Py.is_binary64 (S754_finite s mx ex).

Local Abbreviation N := (Py.thousandths mx ex).
Local Abbreviation P := grid.
Local Abbreviation X := (on_grid mx ex).
Local Abbreviation e := (picked_exponent N).
Local Abbreviation B := (picked_step N).
Local Abbreviation m := (picked_mantissa N).

Hypothesis N_pos : 0 < N.

Local Lemma P_pos : 0 < P.
Proof. unfold grid. apply Z.pow_pos_nonneg; lia. Qed.

Local Lemma e_low : -1074 <= e.
Proof. apply ulp_exponent_lower; [exact N_pos | lia]. Qed.

Local Lemma B_pos : 0 < B.
Proof.
  pose proof e_low.
  assert (0 < 2 ^ (e + 1074)) by (apply Z.pow_pos_nonneg; lia).
  unfold picked_step. lia.
Qed.

Local Lemma m_scaled : m = Py.div_rne (N * P) B.
Proof.
  pose proof e_low as He. unfold picked_mantissa, picked_step, grid.
  set (c := 2 ^ (1074 - Z.max (- e) 0)).
  assert (Hc : 0 < c) by (apply Z.pow_pos_nonneg; lia).
  assert (Hd : 0 < 1000 * 2 ^ Z.max e 0).
  { assert (0 < 2 ^ Z.max e 0) by (apply Z.pow_pos_nonneg; lia). lia. }
  rewrite <- (div_rne_scale _ _ c Hd Hc). f_equal.
  - rewrite <- Z.mul_assoc. f_equal. unfold c.
    rewrite <- pow2_split by lia. f_equal. lia.
  - rewrite <- Z.mul_assoc. f_equal. unfold c.
    rewrite <- pow2_split by lia. f_equal. lia.
Qed.

Local Lemma N_rounds_X :
  2 * Z.abs (N * P - 1000 * X) < P
  \/ (2 * Z.abs (N * P - 1000 * X) = P /\ Z.even N = true).
Proof.
  destruct (valid_finite_bounds s mx ex valid) as [_ [Hlo _]].
  rewrite (thousandths_scaled mx ex Hlo). fold X. fold P.
  apply div_rne_spec. exact P_pos.
Qed.

Local Lemma m_near : Z.abs (m * B - N * P) <= Z.abs (1000 * X - N * P).
Proof.
  destruct (valid_finite_bounds s mx ex valid) as [Hm [Hlo Hhi]].
  pose proof e_low as He. pose proof B_pos as HB.
  rewrite m_scaled.
  destruct (Z_le_gt_dec e ex) as [Hle | Hgt].
  - replace (1000 * X) with (Zpos mx * 2 ^ (ex - e) * B).
    + apply div_rne_nearest. exact HB.
    + unfold on_grid, picked_step. replace (ex + 1074) with ((ex - e) + (e + 1074)) by ring.
      rewrite (pow2_split (ex - e) (e + 1074)) by lia. ring.
  - destruct (ulp_exponent_lower N 1000 N_pos ltac:(lia)) as [_ Hk].
    fold e in Hk. specialize (Hk ltac:(lia)).
    assert (HkB : 2 ^ 52 * B <= N * P).
    { unfold picked_step, grid. replace (e + 52 + 1074) with (52 + (e + 1074)) in Hk by ring.
      rewrite pow2_split in Hk by lia. lia. }
    assert (HX : 1000 * X < 2 ^ 52 * B).
    { unfold on_grid, picked_step.
      assert (Hp : 2 * 2 ^ (ex + 1074) <= 2 ^ (e + 1074)).
      { replace (e + 1074) with (Z.succ (e - 1 + 1074)) by lia.
        rewrite Z.pow_succ_r by lia.
        assert (2 ^ (ex + 1074) <= 2 ^ (e - 1 + 1074))
          by (apply Z.pow_le_mono_r; lia). lia. }
      assert (0 < 2 ^ (ex + 1074)) by (apply Z.pow_pos_nonneg; lia).
      set (u := 2 ^ (ex + 1074)) in *. set (v := 2 ^ (e + 1074)) in *.
      change (2 ^ 52) with 4503599627370496.
      change (2 ^ 53) with 9007199254740992 in Hm. nia. }
    pose proof (div_rne_nearest (N * P) B (2 ^ 52) HB) as Hn. lia.
Qed.

Local Lemma m_pos : 0 < m.
Proof.
  pose proof m_near as Hn. pose proof P_pos as HP. pose proof B_pos as HB.
  assert (Hm0 : 0 <= m).
  { rewrite m_scaled. apply div_rne_nonneg; [nia | exact HB]. }
  destruct (Z.eq_dec m 0) as [Hz | Hz]; [exfalso | lia].
  rewrite Hz in Hn. pose proof N_pos as HN.
  assert (HNP : P <= N * P) by nia.
  destruct N_rounds_X as [H1 | [H1 _]]; lia.
Qed.

Local Lemma m_normal : -1074 < e -> 2 ^ 52 <= m.
Proof.
  intros He. pose proof B_pos as HB.
  destruct (ulp_exponent_lower N 1000 N_pos ltac:(lia)) as [_ Hk].
  fold e in Hk. specialize (Hk He).
  assert (HkB : 2 ^ 52 * B <= N * P).
  { unfold picked_step, grid. replace (e + 52 + 1074) with (52 + (e + 1074)) in Hk by ring.
    rewrite pow2_split in Hk by lia. lia. }
  pose proof (div_rne_spec (N * P) B HB) as Hs. rewrite <- m_scaled in Hs.
  destruct (Z_lt_le_dec m (2 ^ 52)) as [Hlt | Hge]; [exfalso | exact Hge].
  assert (Hmb : m * B <= (2 ^ 52 - 1) * B)
    by (apply Z.mul_le_mono_nonneg_r; lia).
  rewrite Z.mul_sub_distr_r in Hmb. lia.
Qed.

Local Lemma no_overflow (m' e' : Z) :
  (m' = m /\ e' = e) \/ (m = 2 ^ 53 /\ m' = 2 ^ 52 /\ e' = e + 1) ->
  e' <= 971.
Proof.
  intros Hcase.
  destruct (Z_le_gt_dec e' 971) as [Hle | Hgt]; [exact Hle | exfalso].
  destruct (valid_finite_bounds s mx ex valid) as [Hm [Hlo Hhi]].
  pose proof e_low as He. pose proof B_pos as HB. pose proof P_pos as HP.
  assert (Hnorm : 2 ^ 52 <= m) by (apply m_normal; lia).
  pose proof m_near as Hn.
  set (Q := 2 ^ (971 + 1074)).
  assert (HQ : 0 < Q) by (apply Z.pow_pos_nonneg; lia).
  assert (HPQ : P <= Q) by (unfold grid; apply Z.pow_le_mono_r; lia).
  assert (HX : X <= (2 ^ 53 - 1) * Q).
  { unfold on_grid.
    assert (2 ^ (ex + 1074) <= Q) by (apply Z.pow_le_mono_r; lia).
    assert (0 < 2 ^ (ex + 1074)) by (apply Z.pow_pos_nonneg; lia).
    apply Z.le_trans with ((2 ^ 53 - 1) * 2 ^ (ex + 1074)).
    - apply Z.mul_le_mono_nonneg_r; lia.
    - apply Z.mul_le_mono_nonneg_l; lia. }
  assert (HY : 2 ^ 53 * Q * 1000 <= m * B).
  { unfold picked_step. rewrite (Z.mul_comm 1000), Z.mul_assoc.
    apply Z.mul_le_mono_nonneg_r; [lia |].
    destruct Hcase as [[_ He'] | [Hm53 [_ He']]].
    - assert (HQe : 2 * Q <= 2 ^ (e + 1074)).
      { replace (2 * Q) with (2 ^ (972 + 1074)).
        - apply Z.pow_le_mono_r; lia.
        - unfold Q. replace (972 + 1074) with (Z.succ (971 + 1074)) by lia.
          rewrite Z.pow_succ_r by lia. reflexivity. }
      apply Z.le_trans with (2 ^ 52 * (2 * Q)).
      + change (2 ^ 53) with (2 ^ 52 * 2). lia.
      + apply Z.le_trans with (2 ^ 52 * 2 ^ (e + 1074)).
        * apply Z.mul_le_mono_nonneg_l; lia.
        * apply Z.mul_le_mono_nonneg_r; [apply Z.pow_nonneg |]; lia.
    - rewrite Hm53. apply Z.mul_le_mono_nonneg_l; [lia |].
      apply Z.pow_le_mono_r; lia. }
  destruct N_rounds_X as [H1 | [H1 _]]; lia.
Qed.

Lemma format_round_b64_pos :
  Py.format_3f (Py.round_b64 s N 1000)
  = (Py.sign_text s ++ Py.fixed3 N)%string.
Proof.
  pose proof N_pos as HN. pose proof m_pos as Hm0. pose proof e_low as He.
  pose proof P_pos as HP. pose proof B_pos as HB.
  unfold Py.round_b64. destruct (Z.eqb_spec N 0) as [| _]; [lia |].
  fold e. cbv zeta. fold m.
  set (m' := if m =? 2 ^ 53 then 2 ^ 52 else m).
  set (e' := if m =? 2 ^ 53 then e + 1 else e).
  assert (Hcase : (m' = m /\ e' = e) \/ (m = 2 ^ 53 /\ m' = 2 ^ 52 /\ e' = e + 1)).
  { unfold m', e'. destruct (Z.eqb_spec m (2 ^ 53)); [right | left]; auto. }
  assert (Hm' : 0 < m') by (destruct Hcase as [[-> _] | [_ [-> _]]]; lia).
  assert (He' : -1074 <= e') by (destruct Hcase as [[_ ->] | [_ [_ ->]]]; lia).
  assert (HY : m' * 2 ^ (e' + 1074) * 1000 = m * B).
  { unfold picked_step. destruct Hcase as [[-> ->] | [-> [-> ->]]]; [ring |].
    replace (e + 1 + 1074) with (Z.succ (e + 1074)) by lia.
    rewrite Z.pow_succ_r by lia. change (2 ^ 53) with (2 ^ 52 * 2). ring. }
  pose proof (no_overflow m' e' Hcase) as Hov.
  destruct (Z.eqb_spec m' 0) as [| _]; [lia |].
  destruct (Z.ltb_spec 971 e') as [| _]; [lia |].
  cbn [Py.format_3f]. f_equal. f_equal.
  rewrite (thousandths_scaled _ _ He'), Z2Pos.id by exact Hm'.
  apply div_rne_unique; [exact HP |].
  fold P. pose proof m_near as Hn.
  replace (1000 * (m' * 2 ^ (e' + 1074))) with (m * B) by lia.
  destruct N_rounds_X as [H1 | [H1 Hev]]; [left; lia |].
  destruct (Z.eq_dec (2 * Z.abs (N * P - m * B)) P) as [Heq | Hne].
  - right. split; [exact Heq | exact Hev].
  - left. lia.
Qed.

Local Lemma m_nearest (mz : positive) (ez : Z) :
  Zpos mz < 2 ^ 53 -> -1074 <= ez ->
  Z.abs (m * B - N * P) <= Z.abs (1000 * on_grid mz ez - N * P).
Proof.
  intros Hm Hlo. pose proof e_low as He. pose proof B_pos as HB.
  rewrite m_scaled.
  destruct (Z_le_gt_dec e ez) as [Hle | Hgt].
  - replace (1000 * on_grid mz ez) with (Zpos mz * 2 ^ (ez - e) * B).
    + apply div_rne_nearest. exact HB.
    + unfold on_grid, picked_step.
      replace (ez + 1074) with ((ez - e) + (e + 1074)) by ring.
      rewrite (pow2_split (ez - e) (e + 1074)) by lia. ring.
  - destruct (ulp_exponent_lower N 1000 N_pos ltac:(lia)) as [_ Hk].
    fold e in Hk. specialize (Hk ltac:(lia)).
    assert (HkB : 2 ^ 52 * B <= N * P).
    { unfold picked_step, grid.
      replace (e + 52 + 1074) with (52 + (e + 1074)) in Hk by ring.
      rewrite pow2_split in Hk by lia. lia. }
    assert (HX : 1000 * on_grid mz ez < 2 ^ 52 * B).
    { unfold on_grid, picked_step.
      assert (Hp : 2 * 2 ^ (ez + 1074) <= 2 ^ (e + 1074)).
      { replace (e + 1074) with (Z.succ (e - 1 + 1074)) by lia.
        rewrite Z.pow_succ_r by lia.
        assert (2 ^ (ez + 1074) <= 2 ^ (e - 1 + 1074))
          by (apply Z.pow_le_mono_r; lia). lia. }
      assert (0 < 2 ^ (ez + 1074)) by (apply Z.pow_pos_nonneg; lia).
      set (u := 2 ^ (ez + 1074)) in *. set (v := 2 ^ (e + 1074)) in *.
      change (2 ^ 52) with 4503599627370496.
      change (2 ^ 53) with 9007199254740992 in Hm. nia. }
    pose proof (div_rne_nearest (N * P) B (2 ^ 52) HB) as Hn. lia.
Qed.

Local Lemma m_below_origin : Z.abs (m * B - N * P) <= N * P.
Proof.
  pose proof (div_rne_nearest (N * P) B 0 B_pos) as H.
  rewrite <- m_scaled in H. pose proof N_pos. pose proof P_pos.
  assert (0 <= N * P) by nia. lia.
Qed.

Local Lemma m_upper : m <= 2 ^ 53.
Proof.
  pose proof B_pos as HB. pose proof e_low as He.
  assert (Hlog : -1074 <= Z.log2 N - Z.log2 1000).
  { pose proof (Z.log2_nonneg N). change (Z.log2 1000) with 9. lia. }
  pose proof (ulp_exponent_upper N 1000 N_pos ltac:(lia) Hlog) as Hu.
  fold e in Hu.
  assert (HNB : N * P < 2 ^ 53 * B).
  { unfold picked_step, grid.
    replace (e + 53 + 1074) with (53 + (e + 1074)) in Hu by ring.
    rewrite pow2_split in Hu by lia. lia. }
  pose proof (div_rne_nearest (N * P) B (2 ^ 53) HB) as Hn.
  rewrite <- m_scaled in Hn.
  destruct (Z_le_gt_dec m (2 ^ 53)) as [H | H]; [exact H | exfalso].
  assert (Hm : (2 ^ 53 + 1) * B <= m * B)
    by (apply Z.mul_le_mono_nonneg_r; lia).
  rewrite Z.mul_add_distr_r in Hm. lia.
Qed.

(** What [round_b64] settles on for [N / 1000]: a finite binary64 whose
    value is [m] steps. *)
Lemma round_b64_picks :
  exists (m' : positive) (e' : Z),
    Py.round_b64 s N 1000 = S754_finite s m' e'
    /\ Py.is_binary64 (S754_finite s m' e')
    /\ 1000 * on_grid m' e' = m * B.
Proof.
  pose proof N_pos as HN. pose proof m_pos as Hm0. pose proof e_low as He.
  pose proof m_upper as Hup.
  unfold Py.round_b64. destruct (Z.eqb_spec N 0) as [| _]; [lia |].
  fold e. cbv zeta. fold m.
  set (m' := if m =? 2 ^ 53 then 2 ^ 52 else m).
  set (e' := if m =? 2 ^ 53 then e + 1 else e).
  assert (Hcase : (m' = m /\ e' = e /\ m < 2 ^ 53)
                  \/ (m = 2 ^ 53 /\ m' = 2 ^ 52 /\ e' = e + 1)).
  { unfold m', e'. destruct (Z.eqb_spec m (2 ^ 53)); [right | left];
      repeat split; lia. }
  assert (Hm' : 0 < m') by (destruct Hcase as [[-> _] | [_ [-> _]]]; lia).
  assert (He' : -1074 <= e') by (destruct Hcase as [[_ [-> _]] | [_ [_ ->]]]; lia).
  assert (Hov : e' <= 971).
  { apply (no_overflow m' e').
    destruct Hcase as [[H1 [H2 _]] | H]; [left | right]; auto. }
  destruct (Z.eqb_spec m' 0) as [| _]; [lia |].
  destruct (Z.ltb_spec 971 e') as [| _]; [lia |].
  exists (Z.to_pos m'), e'. split; [reflexivity |]. split.
  - apply binary64_of_bounds; rewrite ?Z2Pos.id by exact Hm'.
    + destruct Hcase as [[-> [_ H]] | [_ [-> _]]]; [exact H | reflexivity].
    + lia.
    + intros Hlow. destruct Hcase as [[-> [-> _]] | [_ [-> _]]]; [| lia].
      apply m_normal. exact Hlow.
  - unfold on_grid, picked_step. rewrite Z2Pos.id by exact Hm'.
    destruct Hcase as [[-> [-> _]] | [-> [-> ->]]]; [ring |].
    replace (e + 1 + 1074) with (Z.succ (e + 1074)) by lia.
    rewrite Z.pow_succ_r by lia. change (2 ^ 53) with (2 ^ 52 * 2). ring.
Qed.

End RoundTrip.

Lemma format_round3 (x : Py.float) :
  Py.is_binary64 x -> Py.format_3f (round3 x) = Py.format_3f x.
Proof.
  intros Hx. destruct x as [sg | sg | | sg mx ex]; try reflexivity.
  cbn [round3 Py.format_3f].
  pose proof (thousandths_nonneg mx ex) as H0.
  destruct (Z.eq_dec (Py.thousandths mx ex) 0) as [Hz | Hnz].
  - rewrite Hz. reflexivity.
  - apply format_round_b64_pos; [exact Hx | lia].
Qed.

(** ** Text of numbers *)

Lemma all_chars_app (p : ascii -> bool) (a b : string) :
  all_chars p (a ++ b) = all_chars p a && all_chars p b.
Proof.
  induction a as [| c a IH]; [reflexivity |].
  cbn. rewrite IH, andb_assoc. reflexivity.
Qed.

Lemma all_chars_weaken (p q : ascii -> bool) (s : string) :
  (forall c, p c = true -> q c = true) ->
  all_chars p s = true -> all_chars q s = true.
Proof.
  intros Hpq. induction s as [| c s IH]; [reflexivity |].
  cbn. intros H. apply andb_true_iff in H. destruct H as [Hc Hs].
  rewrite (Hpq c Hc), (IH Hs). reflexivity.
Qed.

Lemma is_digit_range (c : ascii) :
  Py.is_digit c = true <-> (48 <= N_of_ascii c <= 57)%N.
Proof.
  unfold Py.is_digit. rewrite andb_true_iff, !N.leb_le. tauto.
Qed.

Lemma plain_char_range (c : ascii) :
  plain_char c = true ->
  (48 <= N_of_ascii c <= 57)%N \/ N_of_ascii c = 46%N \/ N_of_ascii c = 45%N.
Proof.
  unfold plain_char, fixed_char. rewrite !orb_true_iff, is_digit_range.
  intros [[H | H] | H]; [left; exact H | right; left | right; right];
    apply Ascii.eqb_eq in H; subst c; reflexivity.
Qed.

Lemma ascii_neq_code (c k : ascii) :
  N_of_ascii c <> N_of_ascii k -> Ascii.eqb c k = false.
Proof.
  intros H. destruct (Ascii.eqb_spec c k) as [-> | _]; [contradiction | reflexivity].
Qed.

Lemma digit_char_code (d : N) :
  (d < 10)%N -> N_of_ascii (Py.digit_char d) = (48 + d)%N.
Proof.
  intros H. unfold Py.digit_char. apply N_ascii_embedding. lia.
Qed.

Lemma digit_char_is_digit (d : N) :
  (d < 10)%N -> Py.is_digit (Py.digit_char d) = true.
Proof.
  intros H. apply is_digit_range. rewrite digit_char_code by exact H. lia.
Qed.

Lemma digit_char_val (d : N) :
  (d < 10)%N -> Py.digit_val (Py.digit_char d) = d.
Proof.
  intros H. unfold Py.digit_val. rewrite digit_char_code by exact H. lia.
Qed.

(** *** [str_of_N] writes the digits of its argument *)

Lemma digits_aux_chars (fuel : nat) (n : N) (acc : string) :
  all_chars Py.is_digit acc = true ->
  all_chars Py.is_digit (Py.digits_aux fuel n acc) = true.
Proof.
  revert n acc. induction fuel as [| f IH]; intros n acc Hacc; [exact Hacc |].
  cbn [Py.digits_aux].
  assert (Hd : all_chars Py.is_digit (String (Py.digit_char (n mod 10)) acc) = true).
  { cbn. rewrite digit_char_is_digit, Hacc; [reflexivity |].
    apply N.mod_lt. discriminate. }
  destruct (n <? 10)%N; [exact Hd | apply IH; exact Hd].
Qed.

Lemma digits_aux_nonempty (fuel : nat) (n : N) (acc : string) :
  Py.digits_aux (S fuel) n acc <> EmptyString.
Proof.
  revert n acc. induction fuel as [| f IH]; intros n acc.
  - cbn. destruct (n <? 10)%N; discriminate.
  - change (Py.digits_aux (S (S f)) n acc)
      with (if (n <? 10)%N
            then String (Py.digit_char (n mod 10)) acc
            else Py.digits_aux (S f) (n / 10)
                   (String (Py.digit_char (n mod 10)) acc)).
    destruct (n <? 10)%N; [discriminate | apply IH].
Qed.

Lemma digits_aux_value (fuel : nat) (n : N) (acc : string) :
  (n < 10 ^ N.of_nat (S fuel))%N ->
  digits_value (Py.digits_aux (S fuel) n acc)
  = (n * 10 ^ N.of_nat (String.length acc) + digits_value acc)%N.
Proof.
  revert n acc. induction fuel as [| f IH]; intros n acc Hn.
  - change (10 ^ N.of_nat 1)%N with 10%N in Hn.
    cbn [Py.digits_aux]. apply N.ltb_lt in Hn. rewrite Hn.
    apply N.ltb_lt in Hn. cbn [digits_value].
    rewrite digit_char_val, N.mod_small by (try apply N.mod_lt; lia).
    reflexivity.
  - change (Py.digits_aux (S (S f)) n acc)
      with (if (n <? 10)%N
            then String (Py.digit_char (n mod 10)) acc
            else Py.digits_aux (S f) (n / 10)
                   (String (Py.digit_char (n mod 10)) acc)).
    destruct (N.ltb_spec n 10) as [Hlt | Hge].
    + cbn [digits_value].
      rewrite digit_char_val, N.mod_small by (try apply N.mod_lt; lia).
      reflexivity.
    + rewrite IH.
      * cbn [digits_value String.length].
        rewrite digit_char_val by (apply N.mod_lt; discriminate).
        rewrite Nat2N.inj_succ, N.pow_succ_r by lia.
        pose proof (N.div_mod n 10 ltac:(discriminate)) as Hdm.
        set (q := (n / 10)%N) in *. set (r := (n mod 10)%N) in *.
        set (p := (10 ^ N.of_nat (String.length acc))%N).
        rewrite Hdm. ring.
      * rewrite Nat2N.inj_succ, N.pow_succ_r in Hn by lia.
        apply N.Div0.div_lt_upper_bound. exact Hn.
Qed.

Lemma str_of_N_chars (n : N) : all_chars Py.is_digit (Py.str_of_N n) = true.
Proof. apply digits_aux_chars. reflexivity. Qed.

Lemma str_of_N_nonempty (n : N) : Py.str_of_N n <> EmptyString.
Proof. apply digits_aux_nonempty. Qed.

Lemma str_of_N_value (n : N) : digits_value (Py.str_of_N n) = n.
Proof.
  unfold Py.str_of_N. rewrite digits_aux_value.
  - cbn. lia.
  - rewrite Nat2N.inj_succ, N2Nat.id.
    destruct (N.eq_dec n 0) as [-> | Hn]; [reflexivity |].
    apply N.lt_le_trans with (2 ^ N.succ (N.log2 n))%N.
    + apply N.log2_spec. lia.
    + apply N.pow_le_mono_l. lia.
Qed.

Lemma pad3_chars (r : Z) :
  0 <= r < 1000 -> all_chars Py.is_digit (Py.pad3 r) = true.
Proof.
  intros Hr. unfold Py.pad3. cbn [all_chars].
  assert (Hn : (Z.to_N r < 1000)%N) by lia.
  rewrite !digit_char_is_digit; [reflexivity | | |].
  - apply N.mod_lt. discriminate.
  - apply N.mod_lt. discriminate.
  - apply N.Div0.div_lt_upper_bound. exact Hn.
Qed.

Lemma pad3_value (r : Z) :
  0 <= r < 1000 -> digits_value (Py.pad3 r) = Z.to_N r.
Proof.
  intros Hr. unfold Py.pad3. cbn [digits_value String.length].
  assert (Hn : (Z.to_N r < 1000)%N) by lia. set (n := Z.to_N r) in *.
  rewrite !digit_char_val.
  - change (10 ^ N.of_nat 2)%N with 100%N. change (10 ^ N.of_nat 1)%N with 10%N.
    change (10 ^ N.of_nat 0)%N with 1%N.
    pose proof (N.div_mod n 10 ltac:(discriminate)) as H1.
    pose proof (N.div_mod (n / 10) 10 ltac:(discriminate)) as H2.
    replace (n / 100)%N with (n / 10 / 10)%N
      by (rewrite N.Div0.div_div; reflexivity).
    assert (H3 : ((n / 10 / 10) mod 10 = n / 10 / 10)%N).
    { apply N.mod_small. apply N.Div0.div_lt_upper_bound.
      apply N.Div0.div_lt_upper_bound. exact Hn. }
    lia.
  - apply N.mod_lt. discriminate.
  - apply N.mod_lt. discriminate.
  - apply N.Div0.div_lt_upper_bound. exact Hn.
Qed.

Lemma pad3_length (r : Z) : String.length (Py.pad3 r) = 3%nat.
Proof. reflexivity. Qed.

(** *** Reading digits back *)

Lemma digits_from_value (s : string) (acc : N) (cnt : nat) :
  all_chars Py.is_digit s = true ->
  Py.digits_from s acc cnt
  = Some ((acc * 10 ^ N.of_nat (String.length s) + digits_value s)%N,
          (cnt + String.length s)%nat).
Proof.
  revert acc cnt. induction s as [| c s IH]; intros acc cnt Hs.
  - cbn. f_equal. f_equal; lia.
  - cbn [all_chars] in Hs. apply andb_true_iff in Hs. destruct Hs as [Hc Hs].
    cbn [Py.digits_from]. rewrite Hc, (IH _ _ Hs).
    cbn [digits_value String.length].
    rewrite Nat2N.inj_succ, N.pow_succ_r by lia.
    f_equal. f_equal; [ring | lia].
Qed.

Lemma digit_run_value (s : string) :
  all_chars Py.is_digit s = true ->
  Py.digit_run s = Some (digits_value s, String.length s).
Proof.
  intros Hs. destruct s as [| c s]; [reflexivity |].
  unfold Py.digit_run. pose proof Hs as Hs'. cbn [all_chars] in Hs'.
  apply andb_true_iff in Hs'. destruct Hs' as [Hc _]. rewrite Hc.
  rewrite digits_from_value by exact Hs. reflexivity.
Qed.

(** *** The digit limit *)

Lemma digit_val_bound (c : ascii) : Py.is_digit c = true -> (Py.digit_val c < 10)%N.
Proof. intros H. apply is_digit_range in H. unfold Py.digit_val. lia. Qed.

Lemma digits_value_bound (s : string) :
  all_chars Py.is_digit s = true ->
  (digits_value s < 10 ^ N.of_nat (String.length s))%N.
Proof.
  induction s as [| c s IH]; intros Hs; [cbn; lia |].
  cbn [all_chars] in Hs. apply andb_true_iff in Hs. destruct Hs as [Hc Hs].
  specialize (IH Hs). apply digit_val_bound in Hc.
  cbn [digits_value String.length].
  rewrite Nat2N.inj_succ, N.pow_succ_r by lia.
  set (p := (10 ^ N.of_nat (String.length s))%N) in *. nia.
Qed.

Lemma digits_aux_length (fuel : nat) (n : N) (acc : string) (k : nat) :
  (n < 10 ^ N.of_nat (S k))%N ->
  (String.length (Py.digits_aux fuel n acc) <= S k + String.length acc)%nat.
Proof.
  revert n acc k. induction fuel as [| f IH]; intros n acc k Hn; [cbn; lia |].
  cbn [Py.digits_aux].
  destruct (N.ltb_spec n 10) as [Hlt | Hge]; [cbn [String.length]; lia |].
  destruct k as [| k].
  - change (10 ^ N.of_nat 1)%N with 10%N in Hn. lia.
  - specialize (IH (n / 10)%N (String (Py.digit_char (n mod 10)) acc) k).
    cbn [String.length] in IH. etransitivity; [apply IH | lia].
    rewrite (Nat2N.inj_succ (S k)), N.pow_succ_r in Hn by lia.
    apply N.Div0.div_lt_upper_bound. exact Hn.
Qed.

(** [str_of_N] writes no digit more than the number has. *)
Lemma str_of_N_length (n : N) (k : nat) :
  (n < 10 ^ N.of_nat (S k))%N -> (String.length (Py.str_of_N n) <= S k)%nat.
Proof.
  intros Hn. unfold Py.str_of_N.
  pose proof (digits_aux_length (S (N.to_nat (N.log2 n))) n "" k Hn) as H.
  cbn [String.length] in H. lia.
Qed.

Lemma str_of_N_long (n : N) (k : nat) :
  (10 ^ N.of_nat k <= n)%N -> (k < String.length (Py.str_of_N n))%nat.
Proof.
  intros Hn. pose proof (digits_value_bound _ (str_of_N_chars n)) as Hb.
  rewrite str_of_N_value in Hb.
  destruct (Nat.lt_ge_cases k (String.length (Py.str_of_N n))) as [H | H];
    [exact H | exfalso].
  assert (10 ^ N.of_nat (String.length (Py.str_of_N n)) <= 10 ^ N.of_nat k)%N
    by (apply N.pow_le_mono_r; lia).
  lia.
Qed.

Lemma abs_N_below (z : Z) (k : nat) :
  Z.abs z < 10 ^ Z.of_nat k <-> (Z.abs_N z < 10 ^ N.of_nat k)%N.
Proof.
  rewrite <- N2Z.inj_abs_N, <- nat_N_Z.
  change 10 with (Z.of_N 10) at 1. rewrite <- N2Z.inj_pow. lia.
Qed.

(** [str] gives the decimal text exactly for the integers below
    [10^4300] in absolute value. *)
Lemma str_small (z : Z) :
  Z.abs z < 10 ^ Z.of_nat Py.int_max_str_digits ->
  Py.str z = Return (Py.str_of_int z).
Proof.
  intros Hz. apply abs_N_below in Hz. unfold Py.str.
  apply (str_of_N_length _ 4299) in Hz. apply Nat.leb_le in Hz.
  unfold Py.int_max_str_digits. rewrite Hz. reflexivity.
Qed.

Lemma str_large (z : Z) :
  10 ^ Z.of_nat Py.int_max_str_digits <= Z.abs z ->
  Py.str z = Raise Py.str_limit_error.
Proof.
  intros Hz. unfold Py.str.
  assert (H : (Py.int_max_str_digits < String.length (Py.str_of_N (Z.abs_N z)))%nat).
  { apply str_of_N_long. pose proof (abs_N_below z Py.int_max_str_digits). lia. }
  apply Nat.leb_gt in H. rewrite H. reflexivity.
Qed.

Lemma digits_from_bound (s : string) (acc : N) (cnt : nat) (n : N) (k : nat) :
  Py.digits_from s acc cnt = Some (n, k) ->
  (cnt <= k)%nat /\ (n < (acc + 1) * 10 ^ N.of_nat (k - cnt))%N.
Proof.
  revert acc cnt. induction s as [| c s IH]; intros acc cnt H.
  - cbn in H. injection H as <- <-. rewrite Nat.sub_diag. cbn. lia.
  - cbn [Py.digits_from] in H. destruct (Py.is_digit c) eqn:Hc.
    + apply IH in H. destruct H as [Hk Hn]. split; [lia |].
      apply digit_val_bound in Hc.
      replace (k - cnt)%nat with (S (k - S cnt)) by lia.
      rewrite Nat2N.inj_succ, N.pow_succ_r by lia.
      set (p := (10 ^ N.of_nat (k - S cnt))%N) in *. nia.
    + destruct (Ascii.eqb c "_"); [| discriminate].
      destruct s as [| c' s']; [discriminate |].
      destruct (Py.is_digit c'); [| discriminate].
      apply IH, H.
Qed.

Lemma digit_run_bound (s : string) (n : N) (k : nat) :
  Py.digit_run s = Some (n, k) -> (n < 10 ^ N.of_nat k)%N.
Proof.
  unfold Py.digit_run. destruct s as [| c s].
  - intros H. injection H as <- <-. cbn. lia.
  - destruct (Py.is_digit c); [| discriminate]. intros H.
    apply digits_from_bound in H. destruct H as [_ H].
    rewrite Nat.sub_0_r in H. lia.
Qed.

(** What [int] returns, [str] can write. *)
Lemma int_of_str_small (s : string) (b : Z) :
  Py.int_of_str s = Return b -> Py.str b = Return (Py.str_of_int b).
Proof.
  unfold Py.int_of_str. destruct (Py.split_sign (Py.strip s)) as [neg body].
  destruct (Py.digit_run body) as [[n [| cnt]] |] eqn:Hrun; try discriminate.
  destruct (Nat.leb (S cnt) Py.int_max_str_digits) eqn:Hlim; [| discriminate].
  intros H. injection H as <-. apply Nat.leb_le in Hlim.
  apply digit_run_bound in Hrun. unfold Py.str.
  assert (Hn : Z.abs_N (if neg then - Z.of_N n else Z.of_N n) = n)
    by (destruct neg; lia).
  rewrite Hn. apply str_of_N_length in Hrun.
  assert (Hle : (String.length (Py.str_of_N n) <= Py.int_max_str_digits)%nat) by lia.
  apply Nat.leb_le in Hle. rewrite Hle. reflexivity.
Qed.

(** *** Cutting at a separator *)

Lemma split1_at (sep : ascii) (a b : string) :
  all_chars (fun c => negb (Ascii.eqb c sep)) a = true ->
  Py.split1 sep (a ++ String sep b) = [a; b].
Proof.
  induction a as [| c a IH]; intros Ha.
  - cbn. rewrite Ascii.eqb_refl. reflexivity.
  - cbn [all_chars] in Ha. apply andb_true_iff in Ha. destruct Ha as [Hc Ha].
    apply negb_true_iff in Hc. cbn. rewrite Hc, (IH Ha). reflexivity.
Qed.

Lemma split_at (sep : ascii) (a b : string) :
  all_chars (fun c => negb (Ascii.eqb c sep)) a = true ->
  Py.split sep (a ++ String sep b) = a :: Py.split sep b.
Proof.
  induction a as [| c a IH]; intros Ha.
  - cbn. rewrite Ascii.eqb_refl. reflexivity.
  - cbn [all_chars] in Ha. apply andb_true_iff in Ha. destruct Ha as [Hc Ha].
    apply negb_true_iff in Hc. cbn. rewrite Hc, (IH Ha). reflexivity.
Qed.

Lemma split_whole (sep : ascii) (a : string) :
  all_chars (fun c => negb (Ascii.eqb c sep)) a = true ->
  Py.split sep a = [a].
Proof.
  induction a as [| c a IH]; intros Ha; [reflexivity |].
  cbn [all_chars] in Ha. apply andb_true_iff in Ha. destruct Ha as [Hc Ha].
  apply negb_true_iff in Hc. cbn. rewrite Hc, (IH Ha). reflexivity.
Qed.

(** *** What plain characters are not *)

Lemma plain_not (k : ascii) (c : ascii) :
  (N_of_ascii k < 45 \/ N_of_ascii k = 47 \/ 57 < N_of_ascii k)%N ->
  plain_char c = true -> negb (Ascii.eqb c k) = true.
Proof.
  intros Hk Hc. apply negb_true_iff, ascii_neq_code.
  apply plain_char_range in Hc. lia.
Qed.

Lemma plain_not_space (c : ascii) :
  plain_char c = true -> Py.is_space c = false.
Proof.
  intros Hc. apply plain_char_range in Hc. unfold Py.is_space.
  destruct (N.eqb_spec (N_of_ascii c) 32); [lia |].
  destruct (N.eqb_spec (N_of_ascii c) 133); [lia |].
  destruct (N.eqb_spec (N_of_ascii c) 160); [lia |].
  destruct (N.leb_spec (N_of_ascii c) 13); [lia |].
  rewrite !andb_false_r. reflexivity.
Qed.

Lemma plain_lower (c : ascii) : plain_char c = true -> Py.lower_char c = c.
Proof.
  intros Hc. apply plain_char_range in Hc. unfold Py.lower_char.
  destruct (N.leb_spec 65 (N_of_ascii c)) as [H | H]; [lia | reflexivity].
Qed.

Lemma lstrip_plain (s : string) :
  all_chars plain_char s = true -> Py.lstrip s = s.
Proof.
  destruct s as [| c s]; [reflexivity |]. cbn [all_chars]. intros H.
  apply andb_true_iff in H. destruct H as [Hc _].
  cbn [Py.lstrip]. rewrite (plain_not_space c Hc). reflexivity.
Qed.

Lemma rstrip_plain (s : string) :
  all_chars plain_char s = true -> Py.rstrip s = s.
Proof.
  induction s as [| c s IH]; [reflexivity |]. cbn [all_chars]. intros H.
  apply andb_true_iff in H. destruct H as [Hc Hs].
  cbn [Py.rstrip]. rewrite (IH Hs), (plain_not_space c Hc).
  destruct s; reflexivity.
Qed.

Lemma strip_plain (s : string) :
  all_chars plain_char s = true -> Py.strip s = s.
Proof.
  intros H. unfold Py.strip. rewrite (lstrip_plain s H). apply rstrip_plain, H.
Qed.

Lemma split_exponent_plain (s : string) :
  all_chars plain_char s = true -> Py.split_exponent s = (s, None).
Proof.
  induction s as [| c s IH]; [reflexivity |]. cbn [all_chars]. intros H.
  apply andb_true_iff in H. destruct H as [Hc Hs].
  cbn [Py.split_exponent]. rewrite (plain_lower c Hc), (IH Hs).
  pose proof (plain_not "e" c ltac:(cbn; lia) Hc) as He.
  apply negb_true_iff in He. rewrite He. reflexivity.
Qed.

Lemma split_sign_digit (c : ascii) (s : string) :
  Py.is_digit c = true -> Py.split_sign (String c s) = (false, String c s).
Proof.
  intros Hc. apply is_digit_range in Hc.
  destruct c as [[] [] [] [] [] [] [] []]; cbn in Hc; try lia; reflexivity.
Qed.

Lemma lower_head_digit (c : ascii) (s : string) :
  Py.is_digit c = true ->
  exists t, Py.lower (String c s) = String c t.
Proof.
  intros Hc. exists (Py.lower s). cbn [Py.lower]. f_equal.
  apply plain_lower. unfold plain_char, fixed_char. rewrite Hc. reflexivity.
Qed.

(** *** [float] reads back what [format] wrote *)

Lemma fixed3_parts (n : Z) :
  0 <= n ->
  exists c i' f,
    Py.fixed3 n = (String c i' ++ String "." f)%string
    /\ Py.is_digit c = true
    /\ all_chars Py.is_digit (String c i') = true
    /\ all_chars Py.is_digit f = true
    /\ String.length f = 3%nat
    /\ (digits_value (String c i') * 1000 + digits_value f)%N = Z.to_N n.
Proof.
  intros Hn. unfold Py.fixed3.
  pose proof (str_of_N_chars (Z.to_N (n / 1000))) as Hi.
  pose proof (str_of_N_nonempty (Z.to_N (n / 1000))) as Hne.
  pose proof (str_of_N_value (Z.to_N (n / 1000))) as Hv.
  destruct (Py.str_of_N (Z.to_N (n / 1000))) as [| c i']; [contradiction |].
  pose proof (Z.mod_pos_bound n 1000 ltac:(lia)) as Hr.
  exists c, i', (Py.pad3 (n mod 1000)). repeat split.
  - cbn [all_chars] in Hi. apply andb_true_iff in Hi. apply Hi.
  - exact Hi.
  - apply pad3_chars, Hr.
  - rewrite Hv, pad3_value by exact Hr.
    pose proof (Z.div_mod n 1000 ltac:(lia)) as Hdm.
    assert (0 <= n / 1000) by (apply Z.div_pos; lia). lia.
Qed.

Lemma digit_is_plain (c : ascii) : Py.is_digit c = true -> plain_char c = true.
Proof. intros H. unfold plain_char, fixed_char. rewrite H. reflexivity. Qed.

Lemma digit_not (k c : ascii) :
  (N_of_ascii k < 48 \/ 57 < N_of_ascii k)%N ->
  Py.is_digit c = true -> negb (Ascii.eqb c k) = true.
Proof.
  intros Hk Hc. apply negb_true_iff, ascii_neq_code.
  apply is_digit_range in Hc. lia.
Qed.

Lemma mantissa_of_fixed (i f : string) :
  i <> EmptyString ->
  all_chars Py.is_digit i = true -> all_chars Py.is_digit f = true ->
  String.length f = 3%nat ->
  Py.mantissa_value (i ++ String "." f)
  = Some ((digits_value i * 1000 + digits_value f)%N, 3%nat).
Proof.
  intros Hne Hi Hf Hlen. unfold Py.mantissa_value.
  rewrite split1_at.
  2:{ apply all_chars_weaken with (2 := Hi). intros c Hc.
      apply (digit_not "." c); [cbn; lia | exact Hc]. }
  rewrite (digit_run_value i Hi), (digit_run_value f Hf), Hlen.
  destruct i as [| c i']; [contradiction |].
  cbn [String.length Nat.add]. reflexivity.
Qed.

Lemma float_of_fixed3 (sg : bool) (n : Z) :
  0 <= n ->
  Py.float_of_str (Py.sign_text sg ++ Py.fixed3 n)
  = Return (Py.round_b64 sg n 1000).
Proof.
  intros Hn.
  destruct (fixed3_parts n Hn) as (c & i' & f & Hfix & Hc & Hi & Hf & Hlen & Hval).
  rewrite Hfix.
  assert (Hbody : all_chars plain_char (String c i' ++ String "." f) = true).
  { rewrite all_chars_app. apply andb_true_iff. split.
    - apply all_chars_weaken with (2 := Hi). exact digit_is_plain.
    - cbn [all_chars]. apply andb_true_iff. split; [reflexivity |].
      apply all_chars_weaken with (2 := Hf). exact digit_is_plain. }
  assert (Hall : all_chars plain_char
                   (Py.sign_text sg ++ (String c i' ++ String "." f)) = true).
  { rewrite all_chars_app, Hbody. destruct sg; reflexivity. }
  unfold Py.float_of_str. rewrite (strip_plain _ Hall).
  assert (Hsign : Py.split_sign
                    (Py.sign_text sg ++ (String c i' ++ String "." f))
                  = (sg, (String c i' ++ String "." f)%string)).
  { destruct sg; [reflexivity |]. apply (split_sign_digit c _ Hc). }
  rewrite Hsign.
  destruct (lower_head_digit c (i' ++ String "." f) Hc) as [t Ht].
  change (String c i' ++ String "." f)%string
    with (String c (i' ++ String "." f)) at 1 2 3.
  rewrite Ht.
  assert (Hci : Ascii.eqb c "i" = false)
    by (apply negb_true_iff, (digit_not "i" c); [cbn; lia | exact Hc]).
  assert (Hcn : Ascii.eqb c "n" = false)
    by (apply negb_true_iff, (digit_not "n" c); [cbn; lia | exact Hc]).
  cbn [String.eqb]. rewrite Hci, Hcn. cbn [orb].
  change (String c (i' ++ String "." f)) with (String c i' ++ String "." f)%string.
  rewrite (split_exponent_plain _ Hbody).
  rewrite (mantissa_of_fixed (String c i') f ltac:(discriminate) Hi Hf Hlen).
  cbn [Py.exponent_value]. rewrite Hval.
  change (0 - Z.of_nat 3) with (-3). change (Z.max (-3) 0) with 0.
  change (Z.max (- -3) 0) with 3. change (10 ^ 3) with 1000.
  rewrite Z.pow_0_r, Z.mul_1_r, Z2N.id by exact Hn. reflexivity.
Qed.

Lemma float_of_format (x : Py.float) :
  Py.float_of_str (Py.format_3f x) = Return (round3 x).
Proof.
  destruct x as [sg | sg | | sg m e].
  - destruct sg; reflexivity.
  - destruct sg; reflexivity.
  - reflexivity.
  - cbn [Py.format_3f round3]. apply float_of_fixed3, thousandths_nonneg.
Qed.

(** *** Shape of the text on the wire *)

Lemma fixed3_three_decimals (sg : bool) (n : Z) :
  0 <= n -> three_decimals (Py.sign_text sg ++ Py.fixed3 n) = true.
Proof.
  intros Hn.
  destruct (fixed3_parts n Hn) as (c & i' & f & Hfix & Hc & Hi & Hf & Hlen & _).
  rewrite Hfix. unfold three_decimals.
  assert (Hd : drop_minus (Py.sign_text sg ++ (String c i' ++ String "." f))
               = (String c i' ++ String "." f)%string).
  { destruct sg; [reflexivity |]. cbn.
    pose proof (digit_not "-" c ltac:(cbn; lia) Hc) as Hm.
    apply negb_true_iff in Hm. rewrite Hm. reflexivity. }
  rewrite Hd, split1_at.
  - rewrite Hi, Hf, Hlen. reflexivity.
  - apply all_chars_weaken with (2 := Hi). intros k Hk.
    apply (digit_not "." k); [cbn; lia | exact Hk].
Qed.

Lemma format_three_decimals (x : Py.float) :
  Py.is_finite x = true -> three_decimals (Py.format_3f x) = true.
Proof.
  destruct x as [sg | sg | | sg m e]; try discriminate; intros _.
  - destruct sg; reflexivity.
  - apply fixed3_three_decimals, thousandths_nonneg.
Qed.

Lemma format_no_comma (x : Py.float) :
  all_chars (fun c => negb (Ascii.eqb c ",")) (Py.format_3f x) = true.
Proof.
  destruct x as [sg | sg | | sg m e]; try (destruct sg; reflexivity);
    [reflexivity |].
  cbn [Py.format_3f].
  destruct (fixed3_parts _ (thousandths_nonneg m e))
    as (c & i' & f & Hfix & _ & Hi & Hf & _).
  rewrite Hfix, !all_chars_app. cbn [all_chars].
  assert (Hdig : forall t, all_chars Py.is_digit t = true ->
                 all_chars (fun c => negb (Ascii.eqb c ",")) t = true).
  { intros t Ht. apply all_chars_weaken with (2 := Ht). intros k Hk.
    apply (digit_not "," k); [cbn; lia | exact Hk]. }
  change (all_chars Py.is_digit (String c i') = true) in Hi.
  pose proof (Hdig _ Hi) as Hi'. cbn [all_chars] in Hi'.
  rewrite Hi', (Hdig _ Hf). destruct sg; reflexivity.
Qed.

(** *** The text names the set-point, the value read back the text *)

Lemma text_thousandths_fixed3 (sg : bool) (n : Z) :
  0 <= n ->
  text_thousandths (Py.sign_text sg ++ Py.fixed3 n) = sign_factor sg * n.
Proof.
  intros Hn.
  destruct (fixed3_parts n Hn) as (c & i' & f & Hfix & Hc & Hi & Hf & Hlen & Hval).
  rewrite Hfix. unfold text_thousandths.
  pose proof (digit_not "-" c ltac:(cbn; lia) Hc) as Hm.
  apply negb_true_iff in Hm.
  assert (Hd : drop_minus (Py.sign_text sg ++ (String c i' ++ String "." f))
               = (String c i' ++ String "." f)%string).
  { destruct sg; [reflexivity |]. cbn. rewrite Hm. reflexivity. }
  assert (Hs : has_minus (Py.sign_text sg ++ (String c i' ++ String "." f)) = sg).
  { destruct sg; [reflexivity |]. cbn. exact Hm. }
  rewrite Hd, Hs, split1_at.
  - rewrite Hval, Z2N.id by exact Hn. reflexivity.
  - apply all_chars_weaken with (2 := Hi). intros k Hk.
    apply (digit_not "." k); [cbn; lia | exact Hk].
Qed.

Lemma text_of_format (s : bool) (m : positive) (e : Z) :
  text_thousandths (Py.format_3f (S754_finite s m e))
  = sign_factor s * Py.thousandths m e.
Proof. apply text_thousandths_fixed3, thousandths_nonneg. Qed.

Lemma text_of_zero (s : bool) :
  text_thousandths (Py.format_3f (S754_zero s)) = 0.
Proof. destruct s; reflexivity. Qed.

Lemma on_grid_nonneg (m : positive) (e : Z) : 0 <= on_grid m e.
Proof.
  unfold on_grid. apply Z.mul_nonneg_nonneg; [lia | apply Z.pow_nonneg; lia].
Qed.

(** The text [format] writes is the value to the nearest thousandth. *)
Lemma format_names (x : Py.float) :
  Py.is_binary64 x -> Py.is_finite x = true ->
  names_to_thousandth (Py.format_3f x) x.
Proof.
  intros Hx Hf. unfold names_to_thousandth.
  pose proof (Z.pow_pos_nonneg 2 1074 ltac:(lia) ltac:(lia)) as HP.
  fold grid in HP.
  destruct x as [sg | sg | | sg m e]; try discriminate.
  - rewrite text_of_zero. cbn [scaled]. lia.
  - rewrite text_of_format. cbn [scaled].
    pose proof (N_rounds_X sg m e Hx) as H.
    set (NP := Py.thousandths m e * grid) in *.
    replace (sign_factor sg * Py.thousandths m e * grid
             - 1000 * (sign_factor sg * on_grid m e))
      with (sign_factor sg * (NP - 1000 * on_grid m e)) by (unfold NP; ring).
    destruct sg; unfold sign_factor; lia.
Qed.

(** The value [float] reads from that text is a binary64 nearest to it. *)
Lemma round3_nearest (x : Py.float) :
  Py.is_binary64 x -> Py.is_finite x = true ->
  nearest_binary64 (round3 x) (Py.format_3f x).
Proof.
  intros Hx Hf. unfold nearest_binary64.
  destruct x as [sg | sg | | sg m e]; try discriminate.
  - cbn [round3]. split; [exact Hx |]. split; [reflexivity |].
    intros z _ _. rewrite text_of_zero. cbn [scaled]. lia.
  - pose proof (thousandths_nonneg m e) as H0.
    rewrite text_of_format. cbn [round3].
    destruct (Z.eq_dec (Py.thousandths m e) 0) as [Hz | Hnz].
    + rewrite Hz. split; [reflexivity |]. split; [reflexivity |].
      intros z _ _. cbn [Py.round_b64 Z.eqb scaled]. lia.
    + assert (Hpos : 0 < Py.thousandths m e) by lia.
      destruct (round_b64_picks sg m e Hx Hpos) as (m' & e' & Heq & Hval & Hsc).
      rewrite Heq. split; [exact Hval |]. split; [reflexivity |].
      intros z Hz Hzf. cbn [scaled].
      pose proof (m_below_origin m e Hpos) as Horigin.
      set (NP := Py.thousandths m e * grid) in *.
      set (MB := picked_mantissa (Py.thousandths m e)
                 * picked_step (Py.thousandths m e)) in *.
      replace (1000 * (sign_factor sg * on_grid m' e')
               - sign_factor sg * Py.thousandths m e * grid)
        with (sign_factor sg * (MB - NP)) by (unfold NP; rewrite <- Hsc; ring).
      replace (sign_factor sg * Py.thousandths m e * grid)
        with (sign_factor sg * NP) by (unfold NP; ring).
      assert (HNP : 0 <= NP).
      { unfold NP. apply Z.mul_nonneg_nonneg; [lia |].
        unfold grid. apply Z.pow_nonneg. lia. }
      destruct z as [sz | sz | | sz mz ez]; try discriminate; cbn [scaled].
      * destruct sg; unfold sign_factor; lia.
      * destruct (valid_finite_bounds sz mz ez Hz) as [Hm [Hlo _]].
        pose proof (m_nearest m e Hpos mz ez Hm Hlo) as Hnear.
        fold NP MB in Hnear. pose proof (on_grid_nonneg mz ez) as Hg.
        set (Zg := on_grid mz ez) in *.
        destruct sg, sz; unfold sign_factor; lia.
Qed.

(** Hence the value read back is within one thousandth of the value
    written. *)
Lemma round3_near (x : Py.float) :
  Py.is_binary64 x -> Py.is_finite x = true ->
  1000 * Z.abs (scaled (round3 x) - scaled x) <= grid.
Proof.
  intros Hx Hf. pose proof (format_names x Hx Hf) as Hn.
  destruct (round3_nearest x Hx Hf) as (_ & _ & Hy).
  specialize (Hy x Hx Hf). unfold names_to_thousandth in Hn.
  set (t := text_thousandths (Py.format_3f x) * grid) in *. lia.
Qed.

Section C8.
Context {T : Type} {client : SCPIClient T}.

(** C8.  For finite binary64 set-points the texts written by [set_output]
    and by the protection [level] setter have exactly three digits after
    the point, and each text is its set-point to the nearest thousandth.
    Against a client that echoes the written texts in its [:APPL?] reply,
    [get_output] after [set_output] returns both values rounded to three
    places: each value returned is a binary64 nearest to the decimal
    written, hence within one thousandth of the set-point.  Rounding again
    changes neither the text nor the value. *)
Theorem set_output_round_trip
  (self : Channel.t) (prot : OverProtectiveParent.t)
  (v c level : Py.float) (w : World T)
  (a name mode : string) (d1 d2 : T) :
  Py.is_binary64 v -> Py.is_finite v = true ->
  Py.is_binary64 c -> Py.is_finite c = true ->
  Py.is_binary64 level -> Py.is_finite level = true ->
  client_send (":APPL " ++ Channel.ch self ++ ","
               ++ Py.format_3f v ++ "," ++ Py.format_3f c) (device w)
    = (Return a, d1) ->
  client_query (":APPL? " ++ Channel.ch self) d1
    = (Return (name ++ ":" ++ mode ++ ","
               ++ Py.format_3f v ++ "," ++ Py.format_3f c), d2) ->
  all_chars (fun k => negb (Ascii.eqb k ":")) name = true ->
  all_chars (fun k => negb (Ascii.eqb k ",")) mode = true ->
  (three_decimals (Py.format_3f v) = true
   /\ three_decimals (Py.format_3f c) = true
   /\ three_decimals (Py.format_3f level) = true)
  /\ (names_to_thousandth (Py.format_3f v) v
      /\ names_to_thousandth (Py.format_3f c) c
      /\ names_to_thousandth (Py.format_3f level) level)
  /\ wire (snd (Channel.set_output self (mkOutput v c) w))
     = (wire w ++ [(":APPL " ++ Channel.ch self ++ ","
                    ++ Py.format_3f v ++ "," ++ Py.format_3f c)%string])%list
  /\ wire (snd (OverProtectiveParent.set_level prot level w))
     = (wire w ++ [(OverProtectiveParent.prefix prot ++ ":PROT "
                    ++ Py.format_3f level)%string])%list
  /\ fst ((Channel.set_output self (mkOutput v c) ;; Channel.get_output self) w)
     = Return (mkOutput (round3 v) (round3 c))
  /\ (nearest_binary64 (round3 v) (Py.format_3f v)
      /\ nearest_binary64 (round3 c) (Py.format_3f c))
  /\ (1000 * Z.abs (scaled (round3 v) - scaled v) <= grid
      /\ 1000 * Z.abs (scaled (round3 c) - scaled c) <= grid)
  /\ (Py.format_3f (round3 v) = Py.format_3f v
      /\ Py.format_3f (round3 c) = Py.format_3f c)
  /\ (round3 (round3 v) = round3 v /\ round3 (round3 c) = round3 c).
Proof.
  intros Hv Hvf Hc Hcf Hl Hlf Hsend Hquery Hname Hmode.
  assert (Hidem : forall x, Py.is_binary64 x -> round3 (round3 x) = round3 x).
  { intros x Hx. pose proof (float_of_format (round3 x)) as H.
    rewrite (format_round3 x Hx), float_of_format in H. congruence. }
  split; [| split; [| split; [| split; [| split; [| split; [| split; [| split]]]]]]].
  - auto using format_three_decimals.
  - auto using format_names.
  - unfold Channel.set_output. rewrite bind_ret_tt, scpi_send_run. reflexivity.
  - unfold OverProtectiveParent.set_level.
    rewrite bind_ret_tt, scpi_send_run. reflexivity.
  - unfold Channel.set_output, Channel.get_output. cbn [voltage current].
    unfold bind at 1 2. rewrite scpi_send_run, Hsend. cbn [fst snd].
    unfold ret at 1. unfold bind at 1. rewrite scpi_query_run.
    cbn [device]. rewrite Hquery. cbn [fst snd].
    change (name ++ ":" ++ mode ++ "," ++ Py.format_3f v ++ ","
            ++ Py.format_3f c)%string
      with (name ++ String ":" (mode ++ String ","
              (Py.format_3f v ++ String "," (Py.format_3f c))))%string.
    rewrite (split1_at ":" name _ Hname). cbn [unpack2].
    unfold bind at 1. unfold ret at 1. cbn [snd].
    rewrite (split_at "," mode _ Hmode),
      (split_at "," _ _ (format_no_comma v)),
      (split_whole "," _ (format_no_comma c)).
    cbn [unpack3]. unfold bind at 1. unfold ret at 1.
    unfold bind, lift, ret. rewrite !float_of_format. reflexivity.
  - split; apply round3_nearest; assumption.
  - split; apply round3_near; assumption.
  - split; apply format_round3; assumption.
  - split; apply Hidem; assumption.
Qed.
End C8.

(** C8 on the simulated device, for 3.14159 V and 0.1 A. *)
Lemma set_output_round_trip_witness :
  let v := float_lit "3.14159" in
  let c := float_lit "0.1" in
  let level := float_lit "2.5" in
  (Py.is_binary64 v /\ Py.is_finite v = true)
  /\ (Py.is_binary64 c /\ Py.is_finite c = true)
  /\ (Py.is_binary64 level /\ Py.is_finite level = true)
  /\ wire (snd (Channel.set_output ch1 (mkOutput v c) (Sim.start Sim.initial)))
     = [":APPL CH1,3.142,0.100"]
  /\ wire (snd (OverProtectiveParent.set_level ocp1 level (Sim.start Sim.initial)))
     = [":SOURCe[1]:CURRent:PROT 2.500"]
  /\ fst ((Channel.set_output ch1 (mkOutput v c) ;; Channel.get_output ch1)
            (Sim.start Sim.initial))
     = Return (mkOutput (float_lit "3.142") (float_lit "0.1"))
  /\ Py.format_3f (round3 v) = "3.142"
  /\ text_thousandths (Py.format_3f v) = 3142
  /\ names_to_thousandth "3.142" v
  /\ nearest_binary64 (float_lit "3.142") "3.142".
Proof.
  intros v c level.
  pose proof (set_output_round_trip ch1 ocp1 v c level (Sim.start Sim.initial)
                "" "CH1" "30V/3A"
                (Sim.mk false false [("CH1", "3.142,0.100")] 50 true)
                (Sim.mk false false [("CH1", "3.142,0.100")] 50 true)
                eq_refl eq_refl eq_refl eq_refl eq_refl eq_refl
                eq_refl eq_refl eq_refl eq_refl)
    as (_ & (Hn & _) & Hw & Hl & Hrt & (Hy & _) & _ & (Hf & _) & _).
  split; [split; reflexivity |].
  split; [split; reflexivity |].
  split; [split; reflexivity |].
  split; [exact Hw |]. split; [exact Hl |]. split; [exact Hrt |].
  split; [exact Hf |]. split; [reflexivity |].
  split; [exact Hn | exact Hy].
Defined.

Section Emitting.
Context {T : Type} {client : SCPIClient T}.

Lemma emits_bind (c1 c2 : M T unit) (l1 l2 : list string) :
  emits c1 l1 -> emits c2 l2 -> emits (c1 ;; c2) (l1 ++ l2).
Proof.
  intros H1 H2 w. unfold bind. destruct (H1 w) as [Hr Hw].
  destruct (c1 w) as [r w1]. cbn [fst snd] in *. subst r.
  destruct (H2 w1) as [Hr2 Hw2]. rewrite Hr2, Hw2, Hw, app_assoc.
  split; reflexivity.
Qed.

Lemma emits_sleep (ms : N) : emits (time_sleep (T := T) ms) [].
Proof. intros w. cbn. rewrite app_nil_r. split; reflexivity. Qed.

Hypothesis sends_succeed :
  forall cmd d, exists a, fst (client_send cmd d) = Return a.

Lemma emits_send (cmd : string) : emits (scpi_send cmd ;; ret tt) [cmd].
Proof.
  intros w. rewrite bind_ret_tt, scpi_send_run. cbn [fst snd wire].
  destruct (sends_succeed cmd (device w)) as [a Ha]. rewrite Ha.
  split; reflexivity.
Qed.

Lemma emits_blink : emits RigolDP932A.blink [":SYST:BRIG 100"; ":SYST:BRIG 10"].
Proof.
  unfold RigolDP932A.blink.
  apply (emits_bind _ _ [_] [_]); [apply emits_send |].
  apply (emits_bind _ _ [] [_]); [apply emits_sleep |].
  apply (emits_bind _ _ [_] []); [apply emits_send | apply emits_sleep].
Qed.

Lemma emits_round :
  emits (RigolDP932A.blink ;; RigolDP932A.beep ;; RigolDP932A.blink) blink_round.
Proof.
  apply (emits_bind _ _ [_; _] [_; _; _]); [apply emits_blink |].
  apply (emits_bind _ _ [_] [_; _]); [apply emits_send | apply emits_blink].
Qed.
End Emitting.

Section C9.
Context {T : Type} {client : SCPIClient T}.

Lemma stops_bind (c1 c2 : M T unit) (l1 l2 : list string) :
  stops_within c1 l1 -> stops_within c2 l2 -> stops_within (c1 ;; c2) (l1 ++ l2).
Proof.
  intros H1 H2 w. unfold bind.
  destruct (H1 w) as [[Hr Hw] | (e & n & d & Hr & Hn & Hw & Hd)];
    destruct (c1 w) as [r w1]; cbn [fst snd] in *; subst r.
  - destruct (H2 w1) as [[Hr2 Hw2] | (e & n & d & Hr2 & Hn2 & Hw2 & Hd2)].
    + left. rewrite Hr2, Hw2, Hw, app_assoc. split; reflexivity.
    + right. exists e, (List.length l1 + n)%nat, d.
      split; [exact Hr2 |]. split; [rewrite length_app; lia |]. split.
      * rewrite Hw2, Hw, <- app_assoc. f_equal.
        replace (S (List.length l1 + n)) with (List.length l1 + S n)%nat by lia.
        rewrite firstn_app_2. reflexivity.
      * rewrite app_nth2_plus. exact Hd2.
  - right. exists e, n, d. cbn [fst snd].
    split; [reflexivity |]. split; [rewrite length_app; lia |]. split.
    + rewrite Hw, firstn_app.
      replace (S n - List.length l1)%nat with 0%nat by lia.
      cbn [firstn]. rewrite app_nil_r. reflexivity.
    + rewrite app_nth1 by exact Hn. exact Hd.
Qed.

Lemma stops_sleep (ms : N) : stops_within (time_sleep (T := T) ms) [].
Proof. intros w. left. cbn. rewrite app_nil_r. split; reflexivity. Qed.

Lemma stops_ret : stops_within (T := T) (ret tt) [].
Proof. intros w. left. cbn. rewrite app_nil_r. split; reflexivity. Qed.

Lemma stops_send (cmd : string) : stops_within (scpi_send cmd ;; ret tt) [cmd].
Proof.
  intros w. rewrite bind_ret_tt, scpi_send_run. cbn [fst snd wire].
  destruct (client_send cmd (device w)) as [[a | e] d'] eqn:Hs; cbn [fst snd].
  - left. split; reflexivity.
  - right. exists e, 0%nat, (device w). cbn [List.length firstn nth].
    rewrite Hs. repeat split. lia.
Qed.

Lemma stops_brightness (z : Z) :
  Py.str z = Return (Py.str_of_int z) ->
  stops_within (RigolDP932A.set_display_brightness z)
    [(":SYST:BRIG " ++ Py.str_of_int z)%string].
Proof.
  intros Hz. unfold RigolDP932A.set_display_brightness.
  intros w. unfold bind at 1, lift at 1. rewrite Hz. apply stops_send.
Qed.

Lemma stops_blink :
  stops_within RigolDP932A.blink [":SYST:BRIG 100"; ":SYST:BRIG 10"].
Proof.
  unfold RigolDP932A.blink.
  apply (stops_bind _ _ [_] [_]); [apply (stops_brightness 100); reflexivity |].
  apply (stops_bind _ _ [] [_]); [apply stops_sleep |].
  apply (stops_bind _ _ [_] []);
    [apply (stops_brightness 10); reflexivity | apply stops_sleep].
Qed.

Lemma stops_round :
  stops_within (RigolDP932A.blink ;; RigolDP932A.beep ;; RigolDP932A.blink)
    blink_round.
Proof.
  apply (stops_bind _ _ [_; _] [_; _; _]); [apply stops_blink |].
  apply (stops_bind _ _ [_] [_; _]); [apply stops_send | apply stops_blink].
Qed.

(** C9, amended.  Once brightness and beeper have been read, [look_at_me]
    hands the client the three blink/beep/blink rounds and then the two
    commands that put the brightness and the beeper state back as read,
    and it stops at the first command that raises.  So the state is put
    back when no command raises, and whenever [look_at_me] returns; when a
    command raises, that command is the last one sent and its error is the
    outcome: an error before the end leaves the restoring commands
    unsent. *)
Theorem look_at_me_restores_on_success
  (w : World T) (s t : string) (b : Z) (d1 d2 : T) :
  client_query ":SYST:BRIG?" (device w) = (Return s, d1) ->
  Py.int_of_str s = Return b ->
  client_query ":SYST:BEEP?" d1 = (Return t, d2) ->
  let sequence :=
    (blink_round ++ blink_round ++ blink_round
     ++ [(":SYST:BRIG " ++ Py.str_of_int b)%string;
         (":SYST:BEEP " ++ on_off (String.eqb t "1"))%string])%list in
  let r := RigolDP932A.look_at_me w in
  (sends_never_raise ->
   fst r = Return tt
   /\ wire (snd r)
      = (wire w ++ [":SYST:BRIG?"; ":SYST:BEEP?"] ++ sequence)%list)
  /\ (fst r = Return tt ->
      wire (snd r)
      = (wire w ++ [":SYST:BRIG?"; ":SYST:BEEP?"] ++ sequence)%list)
  /\ (forall e, fst r = Raise e ->
      exists n d,
        (n < List.length sequence)%nat
        /\ wire (snd r)
           = (wire w ++ [":SYST:BRIG?"; ":SYST:BEEP?"]
              ++ firstn (S n) sequence)%list
        /\ fst (client_send (nth n sequence "") d) = Raise e).
Proof.
  intros Hq1 Hb Hq2 sequence r.
  set (rest := (for_each [0; 1; 2]
                  (fun _ : Z =>
                     RigolDP932A.blink ;; RigolDP932A.beep ;; RigolDP932A.blink) ;;
                RigolDP932A.set_display_brightness b ;;
                RigolDP932A.set_beeper (String.eqb t "1"))).
  set (w2 := mkWorld d2 ((wire w ++ [":SYST:BRIG?"]) ++ [":SYST:BEEP?"])
                     (slept_ms w)).
  assert (Hrun : r = rest w2).
  { unfold r, RigolDP932A.look_at_me.
    unfold RigolDP932A.get_display_brightness, RigolDP932A.get_beeper.
    unfold bind at 1 2. rewrite scpi_query_run, Hq1. cbn [fst snd].
    unfold lift at 1. rewrite Hb.
    unfold bind at 1 2. rewrite scpi_query_run. cbn [device]. rewrite Hq2.
    reflexivity. }
  assert (E : stops_within rest sequence).
  { unfold rest, sequence. rewrite !app_assoc.
    apply (stops_bind _ _ _ [_; _]).
    - cbn [for_each]. rewrite <- !app_assoc.
      apply stops_bind; [apply stops_round |].
      apply stops_bind; [apply stops_round |].
      rewrite <- (app_nil_r blink_round) at 1.
      apply stops_bind; [apply stops_round | apply stops_ret].
    - apply (stops_bind _ _ [_] [_]);
        [apply stops_brightness, (int_of_str_small s), Hb | apply stops_send]. }
  assert (Hpre : forall l : list string,
             (wire w2 ++ l = wire w ++ [":SYST:BRIG?"; ":SYST:BEEP?"] ++ l)%list).
  { intros l. unfold w2. cbn [wire]. rewrite <- !app_assoc. reflexivity. }
  clearbody r. subst r. clearbody rest.
  destruct (E w2) as [[Hr Hw] | (e & n & d & Hr & Hn & Hw & Hd)].
  - rewrite Hw, Hpre. split; [intros _; split; [exact Hr | reflexivity] |].
    split; [intros _; reflexivity |].
    intros e He. rewrite Hr in He. discriminate He.
  - split; [| split].
    + intros Hrel. destruct (Hrel (nth n sequence "") d) as [a Ha].
      rewrite Ha in Hd. discriminate Hd.
    + intros Hret. rewrite Hr in Hret. discriminate Hret.
    + intros e' He'. rewrite Hr in He'. injection He' as <-.
      exists n, d. rewrite Hw, Hpre. repeat split; assumption.
Qed.
End C9.

Lemma sim_sends_succeed (cmd : string) (d : Sim.t) :
  exists a, fst (client_send cmd d) = Return a.
Proof.
  exists "". cbn [client_send Sim.client]. unfold Sim.send.
  repeat match goal with
  | |- context [if ?b then _ else _] => destruct b
  | |- context [match ?x with _ => _ end] => destruct x
  end; reflexivity.
Qed.

(** C9, amended, on the simulated device. *)
Lemma look_at_me_restores_on_success_witness :
  client_query ":SYST:BRIG?" (device (Sim.start Sim.initial))
  = (Return "50", Sim.initial)
  /\ Py.int_of_str "50" = Return 50
  /\ client_query ":SYST:BEEP?" Sim.initial = (Return "1", Sim.initial)
  /\ sends_never_raise (T := Sim.t)
  /\ fst (RigolDP932A.look_at_me (Sim.start Sim.initial)) = Return tt
  /\ wire (snd (RigolDP932A.look_at_me (Sim.start Sim.initial)))
     = ([":SYST:BRIG?"; ":SYST:BEEP?"]
        ++ blink_round ++ blink_round ++ blink_round
        ++ [":SYST:BRIG 50"; ":SYST:BEEP ON"])%list.
Proof.
  do 3 (split; [reflexivity |]).
  split; [exact sim_sends_succeed |].
  exact (proj1 (look_at_me_restores_on_success
                  (Sim.start Sim.initial) "50" "1" 50 Sim.initial Sim.initial
                  eq_refl eq_refl eq_refl)
           sim_sends_succeed).
Defined.

(** C9 as stated fails: a transport error in the middle of a blink ends
    [look_at_me] at once, with the brightness changed and no restoring
    command sent. *)
Lemma look_at_me_skips_restore_on_error :
  let w0 := Scripted.start
              [Return "50"; Return "1"; Return ""; Raise (SCPIError "timeout")] in
  let r := RigolDP932A.look_at_me w0 in
  fst r = Raise (SCPIError "timeout")
  /\ wire (snd r)
     = [":SYST:BRIG?"; ":SYST:BEEP?"; ":SYST:BRIG 100"; ":SYST:BRIG 10"]
  /\ ~ In ":SYST:BRIG 50" (wire (snd r))
  /\ ~ In ":SYST:BEEP ON" (wire (snd r)).
Proof.
  cbv zeta.
  assert (Hw : wire (snd (RigolDP932A.look_at_me
                            (Scripted.start
                               [Return "50"; Return "1"; Return "";
                                Raise (SCPIError "timeout")])))
               = [":SYST:BRIG?"; ":SYST:BEEP?"; ":SYST:BRIG 100"; ":SYST:BRIG 10"])
    by reflexivity.
  split; [reflexivity | split; [exact Hw |]].
  rewrite Hw. split; cbn [In]; intuition discriminate.
Qed.

(** * Further properties *)

(** ** Channel and protection sessions *)

Section Sessions.
Context {T : Type} {client : SCPIClient T}.

(** X1.  A channel session, for every channel, set-points and body: the
    disable command is its last command on every exit path.  Once the
    client has acknowledged the set-point and the enable command, the body
    runs in the world they left, the disable command follows it, and the
    session ends the way the body did unless the disable command itself
    raises. *)
Theorem channel_session_always_disables
  {A} (self : Channel.t) (output : Output) (body : M T A) (w : World T) :
  (exists pre,
      wire (snd (Channel.__call__ self output body w))
      = (pre ++ [disable_cmd self])%list)
  /\ forall (a1 a2 : string) (d1 d2 : T),
      client_send (apply_cmd self output) (device w) = (Return a1, d1) ->
      client_send (enable_cmd self) d1 = (Return a2, d2) ->
      let w2 := mkWorld d2
                  (wire w ++ [apply_cmd self output; enable_cmd self])
                  (slept_ms w) in
      let rb := fst (body w2) in
      let wb := snd (body w2) in
      let rd := fst (client_send (disable_cmd self) (device wb)) in
      let dd := snd (client_send (disable_cmd self) (device wb)) in
      Channel.__call__ self output body w
      = (match rd with Return _ => rb | Raise e => Raise e end,
         mkWorld dd (wire wb ++ [disable_cmd self]) (slept_ms wb)).
Proof.
  split.
  { unfold Channel.__call__, Channel.disable, Channel.set_enabled.
    apply finally_send_is_last. }
  intros a1 a2 d1 d2 H1 H2 w2 rb wb rd dd.
  unfold Channel.__call__, try_finally.
  unfold Channel.set_output, Channel.enable, Channel.disable,
    Channel.set_enabled.
  fold (apply_cmd self output).
  change (":OUTP " ++ Channel.ch self ++ "," ++ on_off true)
    with (enable_cmd self).
  change (":OUTP " ++ Channel.ch self ++ "," ++ on_off false)
    with (disable_cmd self).
  unfold bind at 1 2. rewrite scpi_send_run, H1. cbn [fst snd]. unfold ret at 1.
  unfold bind at 1 2. rewrite scpi_send_run. cbn [device]. rewrite H2.
  cbn [fst snd wire slept_ms]. unfold ret at 1.
  rewrite <- !app_assoc. cbn [app]. fold w2.
  rewrite (surjective_pairing (body w2)). fold rb wb.
  rewrite bind_ret_tt, scpi_send_run. cbn [fst snd]. fold rd dd.
  destruct rd; reflexivity.
Qed.

(** X2.  When the set-point command of a channel session raises, the
    channel is not enabled and the body does not run, yet the disable
    command is still sent; the error of the set-point command reaches the
    caller unless the disable command raises too. *)
Theorem channel_session_setup_failure
  {A} (self : Channel.t) (output : Output) (body : M T A) (w : World T)
  (e : exn) (d1 : T) :
  client_send (apply_cmd self output) (device w) = (Raise e, d1) ->
  Channel.__call__ self output body w
  = (match fst (client_send (disable_cmd self) d1) with
     | Return _ => Raise e
     | Raise e' => Raise e'
     end,
     mkWorld (snd (client_send (disable_cmd self) d1))
             (wire w ++ [apply_cmd self output; disable_cmd self])
             (slept_ms w)).
Proof.
  intros H1. unfold Channel.__call__, try_finally.
  unfold Channel.set_output, Channel.disable, Channel.set_enabled.
  fold (apply_cmd self output).
  change (":OUTP " ++ Channel.ch self ++ "," ++ on_off false)
    with (disable_cmd self).
  unfold bind at 1 2. rewrite scpi_send_run, H1. cbn [fst snd].
  rewrite bind_ret_tt, scpi_send_run. cbn [fst snd device wire slept_ms].
  rewrite <- app_assoc. cbn [app].
  destruct (fst (client_send (disable_cmd self) d1)); reflexivity.
Qed.

(** X3.  When the clear command of a protection session raises, neither
    the threshold nor the arm command is sent and the body does not run;
    when the threshold command raises, protection is not armed and the body
    does not run.  In both cases the disarm command is still sent, and the
    first error reaches the caller unless the disarm command raises. *)
Theorem protection_session_setup_failure
  {A} (self : OverProtectiveParent.t) (level : Py.float) (body : M T A)
  (w : World T) :
  (forall e d1,
      client_send (clear_cmd self) (device w) = (Raise e, d1) ->
      OverProtectiveParent.__call__ self level body w
      = (match fst (client_send (disarm_cmd self) d1) with
         | Return _ => Raise e
         | Raise e' => Raise e'
         end,
         mkWorld (snd (client_send (disarm_cmd self) d1))
                 (wire w ++ [clear_cmd self; disarm_cmd self])
                 (slept_ms w)))
  /\ (forall a1 d1 e d2,
      client_send (clear_cmd self) (device w) = (Return a1, d1) ->
      client_send (level_cmd self level) d1 = (Raise e, d2) ->
      OverProtectiveParent.__call__ self level body w
      = (match fst (client_send (disarm_cmd self) d2) with
         | Return _ => Raise e
         | Raise e' => Raise e'
         end,
         mkWorld (snd (client_send (disarm_cmd self) d2))
                 (wire w ++ [clear_cmd self; level_cmd self level;
                             disarm_cmd self])
                 (slept_ms w))).
Proof.
  split.
  - intros e d1 H1. unfold OverProtectiveParent.__call__, try_finally.
    unfold OverProtectiveParent.clear, OverProtectiveParent.set_state.
    fold (clear_cmd self).
    change (OverProtectiveParent.prefix self ++ ":PROT:STAT " ++ on_off false)
      with (disarm_cmd self).
    unfold bind at 1 2. rewrite scpi_send_run, H1. cbn [fst snd].
    rewrite bind_ret_tt, scpi_send_run. cbn [fst snd device wire slept_ms].
    rewrite <- app_assoc. cbn [app].
    destruct (fst (client_send (disarm_cmd self) d1)); reflexivity.
  - intros a1 d1 e d2 H1 H2. unfold OverProtectiveParent.__call__, try_finally.
    unfold OverProtectiveParent.clear, OverProtectiveParent.set_level,
      OverProtectiveParent.set_state.
    fold (clear_cmd self). fold (level_cmd self level).
    change (OverProtectiveParent.prefix self ++ ":PROT:STAT " ++ on_off false)
      with (disarm_cmd self).
    unfold bind at 1 2. rewrite scpi_send_run, H1. cbn [fst snd]. unfold ret at 1.
    unfold bind at 1 2. rewrite scpi_send_run. cbn [device]. rewrite H2.
    cbn [fst snd].
    rewrite bind_ret_tt, scpi_send_run. cbn [fst snd device wire slept_ms].
    rewrite <- !app_assoc. cbn [app].
    destruct (fst (client_send (disarm_cmd self) d2)); reflexivity.
Qed.

End Sessions.

(** X1 at channel 2 with a body that fails. *)
Lemma channel_session_always_disables_witness :
  let self := Channel.__init__ 2 in
  let output := mkOutput (float_lit "12") (float_lit "0.5") in
  client_send (apply_cmd self output) (device (Scripted.start []))
    = (Return "", [])
  /\ client_send (enable_cmd self) [] = (Return "", [])
  /\ Channel.__call__ self output (raise (A := unit) (ValueError "boom"))
       (Scripted.start [])
     = (Raise (ValueError "boom"),
        mkWorld [] [":APPL CH2,12.000,0.500"; ":OUTP CH2,ON"; ":OUTP CH2,OFF"] 0).
Proof.
  intros self output. do 2 (split; [reflexivity |]).
  exact (proj2 (channel_session_always_disables self output
                  (raise (ValueError "boom")) (Scripted.start []))
           "" "" [] [] eq_refl eq_refl).
Defined.

(** X2 at a client that rejects the set-points. *)
Lemma channel_session_setup_failure_witness :
  let self := Channel.__init__ 3 in
  let output := mkOutput (float_lit "40") (float_lit "1") in
  let w := Scripted.start [Raise (SCPIError "-222,Data out of range")] in
  client_send (apply_cmd self output) (device w)
    = (Raise (SCPIError "-222,Data out of range"), [])
  /\ Channel.__call__ self output (Channel.probe self) w
     = (Raise (SCPIError "-222,Data out of range"),
        mkWorld [] [":APPL CH3,40.000,1.000"; ":OUTP CH3,OFF"] 0).
Proof.
  intros self output w. split; [reflexivity |].
  exact (channel_session_setup_failure self output (Channel.probe self) w
           (SCPIError "-222,Data out of range") [] eq_refl).
Defined.

(** X3 at a client that fails on the first, resp. second command. *)
Lemma protection_session_setup_failure_witness :
  let self := OverVoltageProtection 2 in
  let level := float_lit "33" in
  let w1 := Scripted.start [Raise (SCPIError "timeout")] in
  let w2 := Scripted.start [Return ""; Raise (SCPIError "timeout")] in
  client_send (clear_cmd self) (device w1) = (Raise (SCPIError "timeout"), [])
  /\ OverProtectiveParent.__call__ self level (ret tt) w1
     = (Raise (SCPIError "timeout"),
        mkWorld [] [":SOURCe[2]:VOLTage:PROT:CLE";
                    ":SOURCe[2]:VOLTage:PROT:STAT OFF"] 0)
  /\ client_send (clear_cmd self) (device w2)
     = (Return "", [Raise (SCPIError "timeout")])
  /\ client_send (level_cmd self level) [Raise (SCPIError "timeout")]
     = (Raise (SCPIError "timeout"), [])
  /\ OverProtectiveParent.__call__ self level (ret tt) w2
     = (Raise (SCPIError "timeout"),
        mkWorld [] [":SOURCe[2]:VOLTage:PROT:CLE";
                    ":SOURCe[2]:VOLTage:PROT 33.000";
                    ":SOURCe[2]:VOLTage:PROT:STAT OFF"] 0).
Proof.
  intros self level w1 w2.
  split; [reflexivity |]. split.
  { exact (proj1 (protection_session_setup_failure self level (ret tt) w1)
             (SCPIError "timeout") [] eq_refl). }
  split; [reflexivity |]. split; [reflexivity |].
  exact (proj2 (protection_session_setup_failure self level (ret tt) w2)
           "" [Raise (SCPIError "timeout")] (SCPIError "timeout") []
           eq_refl eq_refl).
Defined.

(** ** Analyzer sessions *)

Section AnalyzerSessions.
Context {T : Type} {client : SCPIClient T}.

Lemma emits_then {B} (c : M T unit) (cmds : list string) (k : M T B)
  (w : World T) :
  emits c cmds ->
  bind c (fun _ => k) w = k (snd (c w))
  /\ wire (snd (c w)) = (wire w ++ cmds)%list.
Proof.
  intros Hc. destruct (Hc w) as [Hr Hw]. split; [| exact Hw].
  unfold bind. destruct (c w) as [r w']. cbn [fst snd] in *. subst r.
  reflexivity.
Qed.

Lemma finally_emits {B} (c : M T B) (fin : M T unit) (cmds : list string)
  (w : World T) :
  emits fin cmds ->
  fst (try_finally c fin w) = fst (c w)
  /\ wire (snd (try_finally c fin w)) = (wire (snd (c w)) ++ cmds)%list.
Proof.
  intros Hf. unfold try_finally. destruct (c w) as [r w1].
  destruct (Hf w1) as [Hr Hw]. destruct (fin w1) as [rf w2].
  cbn [fst snd] in *. subst rf. split; [reflexivity | exact Hw].
Qed.

Lemma raise_absorbs {B C} (c : M T unit) (e : exn) (k : B -> M T C)
  (w : World T) :
  bind (bind c (fun _ => raise e)) k w = bind c (fun _ => raise e) w.
Proof.
  unfold bind, raise. destruct (c w) as [[u | e'] w']; reflexivity.
Qed.

Lemma emits_ret : emits (T := T) (ret tt) [].
Proof. intros w. cbn. rewrite app_nil_r. split; reflexivity. Qed.

Lemma sets_logging_log_cmd (v : Py.value) : sets_logging (log_cmd v) = true.
Proof. unfold log_cmd. destruct (Py.truthy v); reflexivity. Qed.

(** X4.  On a device that reports whether the analyzer runs, a session
    leaves the analyzer running exactly if it ran before the session: for
    every configuration, with or without logging, whatever the body does
    to the device and however the session ends. *)
Theorem analyze_restores_active
  (active_of : T -> bool) {A} (cfg : AnalyzerAPI.config) (log : bool)
  (body : M T A) (w : World T) :
  analyzer_device active_of ->
  active_of (device (snd (AnalyzerAPI.analyze cfg log body w)))
  = active_of (device w).
Proof.
  intros (Hq & Hst & Hset & Hlog).
  unfold AnalyzerAPI.analyze, AnalyzerAPI.get_log.
  unfold bind at 1. rewrite scpi_query_run.
  pose proof (Hq ":ANALyzer:SAVE:STATe?" (device w)) as Hd1.
  set (d1 := snd (client_query ":ANALyzer:SAVE:STATe?" (device w))) in *.
  destruct (fst (client_query ":ANALyzer:SAVE:STATe?" (device w))) as [l0 | e];
    [| exact Hd1].
  unfold AnalyzerAPI.get_active. unfold bind at 1 2.
  rewrite scpi_query_run. cbn [device]. rewrite Hst. unfold ret at 1.
  pose proof (Hq ":ANALyzer:STATe?" d1) as Hd2.
  set (d2 := snd (client_query ":ANALyzer:STATe?" d1)) in *.
  assert (Ha : String.eqb (if active_of d1 then "1" else "0") "1"
               = active_of (device w)).
  { rewrite <- Hd1. destruct (active_of d1); reflexivity. }
  rewrite Ha. unfold try_finally.
  match goal with |- context [match ?c ?w2 with pair _ _ => _ end] =>
    destruct (c w2) as [r w3] end.
  unfold AnalyzerAPI.set_active. fold (active_cmd (active_of (device w))).
  unfold bind at 1 2. rewrite scpi_send_run.
  destruct (Hset (active_of (device w)) (device w3)) as [[a Hack] Hb].
  rewrite Hack. unfold ret at 1.
  destruct log.
  - unfold AnalyzerAPI.set_log. fold (log_cmd (Py.VStr l0)).
    rewrite bind_ret_tt, scpi_send_run. cbn [fst snd device].
    pose proof (Hlog (log_cmd (Py.VStr l0))
                  (snd (client_send (active_cmd (active_of (device w)))
                          (device w3)))
                  (sets_logging_log_cmd _)) as Hk.
    destruct (fst (client_send (log_cmd (Py.VStr l0)) _));
      cbn [snd device]; rewrite Hk; exact Hb.
  - cbn [ret snd device]. exact Hb.
Qed.

Hypothesis reliable : sends_never_raise.

Lemma emits_cmd (cmd : string) : emits (scpi_send cmd ;; ret tt) [cmd].
Proof. apply emits_send. exact reliable. Qed.

Lemma emits_configure (cfg : AnalyzerAPI.config) :
  has_channel cfg = true ->
  emits
    match cfg with
    | AnalyzerAPI.OfPulseCurrent c => AnalyzerAPI.set_current_measure c
    | AnalyzerAPI.OfCommon c => AnalyzerAPI.set_common_measure c
    end
    (config_cmds cfg).
Proof.
  intros Hc. destruct cfg as [c | c]; cbn [config_cmds].
  - unfold AnalyzerAPI.set_common_measure, AnalyzerAPI.set_type.
    apply (emits_bind _ _ [_] [_]); apply emits_cmd.
  - unfold AnalyzerAPI.set_current_measure, AnalyzerAPI.set_type.
    apply (emits_bind _ _ [_] [_]); [apply emits_cmd |].
    cbn [has_channel] in Hc. cbn [existsb]. rewrite orb_false_r, Hc.
    apply emits_cmd.
Qed.

Lemma emits_restore (a : bool) (log : bool) (v : Py.value) :
  emits
    (AnalyzerAPI.set_active a ;;
     if log then AnalyzerAPI.set_log v else ret tt)
    ([active_cmd a] ++ if log then [log_cmd v] else []).
Proof.
  apply emits_bind; [apply emits_cmd |].
  destruct log; [apply emits_cmd | apply emits_ret].
Qed.

(** X5.  The command sequence of an analyzer session on a client that
    answers both state queries and acknowledges every command, for a
    configuration that is not rejected: the logging and the active state
    are read, the configuration is applied, logging is switched on if
    requested, the analyzer is started and the body runs; after the body
    the active state is put back first and, if logging was requested, the
    logging command follows, with [1] for every saved reply text except
    the empty one.  The session ends the way the body did. *)
Theorem analyze_command_sequence
  {A} (cfg : AnalyzerAPI.config) (log : bool) (body : M T A) (w : World T)
  (l0 a0 : string) (d1 d2 : T) :
  client_query ":ANALyzer:SAVE:STATe?" (device w) = (Return l0, d1) ->
  client_query ":ANALyzer:STATe?" d1 = (Return a0, d2) ->
  has_channel cfg = true ->
  exists w_in,
    wire w_in
    = (wire w ++ [":ANALyzer:SAVE:STATe?"; ":ANALyzer:STATe?"]
       ++ config_cmds cfg
       ++ (if log then [":ANALyzer:SAVE:STATe 1"] else [])
       ++ [":ANALyzer:STATe 1"])%list
    /\ fst (AnalyzerAPI.analyze cfg log body w) = fst (body w_in)
    /\ wire (snd (AnalyzerAPI.analyze cfg log body w))
       = (wire (snd (body w_in))
          ++ [active_cmd (String.eqb a0 "1")]
          ++ (if log
              then [(":ANALyzer:SAVE:STATe "
                     ++ (if String.eqb l0 "" then "0" else "1"))%string]
              else []))%list.
Proof.
  intros Hq1 Hq2 Hc.
  set (w2 := mkWorld d2 ((wire w ++ [":ANALyzer:SAVE:STATe?"])
                         ++ [":ANALyzer:STATe?"]) (slept_ms w)).
  set (fin := (AnalyzerAPI.set_active (String.eqb a0 "1") ;;
               if log then AnalyzerAPI.set_log (Py.VStr l0) else ret tt)).
  set (after_cfg := ((if log then AnalyzerAPI.set_log (Py.VBool true)
                      else ret tt) ;;
                     AnalyzerAPI.set_active true ;; body)).
  set (configure := match cfg with
                    | AnalyzerAPI.OfPulseCurrent c =>
                        AnalyzerAPI.set_current_measure c
                    | AnalyzerAPI.OfCommon c => AnalyzerAPI.set_common_measure c
                    end).
  assert (Hrun : AnalyzerAPI.analyze cfg log body w
                 = try_finally (configure ;; after_cfg) fin w2).
  { unfold AnalyzerAPI.analyze, AnalyzerAPI.get_log, AnalyzerAPI.get_active.
    unfold bind at 1. rewrite scpi_query_run, Hq1. cbn [fst snd].
    unfold bind at 1 2. rewrite scpi_query_run. cbn [device]. rewrite Hq2.
    reflexivity. }
  rewrite Hrun.
  destruct (finally_emits (configure ;; after_cfg) fin _ w2
              (emits_restore (String.eqb a0 "1") log (Py.VStr l0)))
    as [Hr Hw].
  destruct (emits_then configure _ after_cfg w2 (emits_configure cfg Hc))
    as [E1 W1].
  set (w3 := snd (configure w2)) in *.
  assert (Hlogon : emits (if log then AnalyzerAPI.set_log (Py.VBool true)
                          else ret tt)
                     (if log then [":ANALyzer:SAVE:STATe 1"] else [])).
  { destruct log; [apply emits_cmd | apply emits_ret]. }
  destruct (emits_then _ _ (AnalyzerAPI.set_active true ;; body) w3 Hlogon)
    as [E2 W2].
  set (w4 := snd ((if log then AnalyzerAPI.set_log (Py.VBool true)
                   else ret tt) w3)) in *.
  destruct (emits_then _ _ body w4 (emits_cmd (active_cmd true))) as [E3 W3].
  set (w5 := snd ((scpi_send (active_cmd true) ;; ret tt) w4)) in *.
  assert (Hbody : (configure ;; after_cfg) w2 = body w5).
  { rewrite E1. unfold after_cfg. rewrite E2. exact E3. }
  exists w5. rewrite Hr, Hw, Hbody. split; [| split].
  - rewrite W3, W2, W1. unfold w2. cbn [wire].
    rewrite <- !app_assoc. reflexivity.
  - reflexivity.
  - f_equal. f_equal. destruct log; [| reflexivity].
    unfold log_cmd. cbn [Py.truthy]. destruct (String.eqb l0 ""); reflexivity.
Qed.

(** X6.  A session whose configuration is rejected (pulse-current
    analysis without a channel) raises the configuration error and never
    runs its body; the only command after the type switch is the one that
    puts the active state back, followed by the logging command if logging
    was requested, although the session had not switched logging on. *)
Theorem analyze_rejected_configuration
  {A} (log : bool) (body : M T A) (w : World T)
  (l0 a0 : string) (d1 d2 : T) :
  client_query ":ANALyzer:SAVE:STATe?" (device w) = (Return l0, d1) ->
  client_query ":ANALyzer:STATe?" d1 = (Return a0, d2) ->
  let cfg := AnalyzerAPI.OfPulseCurrent (PulseCurrentAnalysis.mk false false) in
  fst (AnalyzerAPI.analyze cfg log body w) = Raise no_channel_error
  /\ wire (snd (AnalyzerAPI.analyze cfg log body w))
     = (wire w ++ [":ANALyzer:SAVE:STATe?"; ":ANALyzer:STATe?";
                   ":ANALyzer:TYPE CURR"; active_cmd (String.eqb a0 "1")]
        ++ (if log then [log_cmd (Py.VStr l0)] else []))%list
  /\ forall body' : M T A,
       AnalyzerAPI.analyze cfg log body' w = AnalyzerAPI.analyze cfg log body w.
Proof.
  intros Hq1 Hq2 cfg.
  assert (Hrun : forall b : M T A,
             AnalyzerAPI.analyze cfg log b w
             = try_finally
                 (AnalyzerAPI.set_type AnalysisType.PulseCurrent ;;
                  raise (A := A) no_channel_error)
                 (AnalyzerAPI.set_active (String.eqb a0 "1") ;;
                  if log then AnalyzerAPI.set_log (Py.VStr l0) else ret tt)
                 (mkWorld d2 ((wire w ++ [":ANALyzer:SAVE:STATe?"])
                              ++ [":ANALyzer:STATe?"]) (slept_ms w))).
  { intros b.
    unfold AnalyzerAPI.analyze, AnalyzerAPI.get_log, AnalyzerAPI.get_active.
    unfold bind at 1. rewrite scpi_query_run, Hq1. cbn [fst snd].
    unfold bind at 1 2. rewrite scpi_query_run. cbn [device]. rewrite Hq2.
    cbn [fst snd wire slept_ms]. unfold ret at 1.
    unfold cfg, AnalyzerAPI.set_current_measure.
    cbn [PulseCurrentAnalysis.ch1 PulseCurrentAnalysis.ch2 existsb orb negb].
    unfold try_finally. rewrite raise_absorbs. reflexivity. }
  split; [| split].
  - rewrite Hrun.
    destruct (finally_emits
                (AnalyzerAPI.set_type AnalysisType.PulseCurrent ;;
                 raise (A := A) no_channel_error) _ _
                (mkWorld d2 ((wire w ++ [":ANALyzer:SAVE:STATe?"])
                             ++ [":ANALyzer:STATe?"]) (slept_ms w))
                (emits_restore (String.eqb a0 "1") log (Py.VStr l0)))
      as [Hr _].
    rewrite Hr.
    destruct (emits_then _ _ (raise (A := A) no_channel_error)
                (mkWorld d2 ((wire w ++ [":ANALyzer:SAVE:STATe?"])
                             ++ [":ANALyzer:STATe?"]) (slept_ms w))
                (emits_cmd ":ANALyzer:TYPE CURR")) as [E _].
    change (AnalyzerAPI.set_type AnalysisType.PulseCurrent)
      with (scpi_send (T := T) ":ANALyzer:TYPE CURR" ;; ret tt).
    rewrite E. reflexivity.
  - rewrite Hrun.
    destruct (finally_emits
                (AnalyzerAPI.set_type AnalysisType.PulseCurrent ;;
                 raise (A := A) no_channel_error) _ _
                (mkWorld d2 ((wire w ++ [":ANALyzer:SAVE:STATe?"])
                             ++ [":ANALyzer:STATe?"]) (slept_ms w))
                (emits_restore (String.eqb a0 "1") log (Py.VStr l0)))
      as [_ Hw].
    rewrite Hw.
    destruct (emits_then _ _ (raise (A := A) no_channel_error)
                (mkWorld d2 ((wire w ++ [":ANALyzer:SAVE:STATe?"])
                             ++ [":ANALyzer:STATe?"]) (slept_ms w))
                (emits_cmd ":ANALyzer:TYPE CURR")) as [E W].
    change (AnalyzerAPI.set_type AnalysisType.PulseCurrent)
      with (scpi_send (T := T) ":ANALyzer:TYPE CURR" ;; ret tt).
    rewrite E. cbn [raise snd]. rewrite W. cbn [wire].
    rewrite <- !app_assoc. reflexivity.
  - intros body'. rewrite !Hrun. reflexivity.
Qed.

End AnalyzerSessions.

Lemma sim_analyzer_device : analyzer_device Sim.active.
Proof.
  split; [| split; [| split]].
  - intros cmd d. cbn [client_query Sim.client]. unfold Sim.query.
    repeat match goal with |- context [if ?b then _ else _] => destruct b end;
      reflexivity.
  - intros d. reflexivity.
  - intros b d. destruct b; split; try (exists ""); reflexivity.
  - intros cmd d H. unfold sets_logging in H.
    cbn [client_send Sim.client]. unfold Sim.send. rewrite H. reflexivity.
Qed.

(** X4 on the simulated device, the analyzer running, with a body that
    stops it and is then cancelled. *)
Lemma analyze_restores_active_witness :
  let body := (AnalyzerAPI.set_active false ;;
               raise (A := unit) KeyboardInterrupt) in
  let w := Sim.start (Sim.mk true false [] 50 true) in
  analyzer_device Sim.active
  /\ Sim.active (device (snd (body w))) = false
  /\ Sim.active
       (device (snd (AnalyzerAPI.analyze
                       (AnalyzerAPI.OfPulseCurrent PulseCurrentAnalysis.default)
                       true body w)))
     = true.
Proof.
  intros body w. split; [exact sim_analyzer_device |].
  split; [reflexivity |].
  exact (analyze_restores_active Sim.active
           (AnalyzerAPI.OfPulseCurrent PulseCurrentAnalysis.default)
           true body w sim_analyzer_device).
Defined.

(** X5 on the simulated device. *)
Lemma analyze_command_sequence_witness :
  let cfg := AnalyzerAPI.OfCommon
               (CommonAnalysis.mk (Some CommonAnalysisType.Voltage) None
                  (Some CommonAnalysisType.Power)) in
  let w := Sim.start Sim.initial in
  sends_never_raise (T := Sim.t)
  /\ client_query ":ANALyzer:SAVE:STATe?" (device w) = (Return "0", Sim.initial)
  /\ client_query ":ANALyzer:STATe?" Sim.initial = (Return "0", Sim.initial)
  /\ has_channel cfg = true
  /\ exists w_in : World Sim.t,
      wire w_in
      = [":ANALyzer:SAVE:STATe?"; ":ANALyzer:STATe?"; ":ANALyzer:TYPE COM";
         ":ANALyzer:COMMon:MEASure:TYPE CH1_V,CH3_P";
         ":ANALyzer:SAVE:STATe 1"; ":ANALyzer:STATe 1"]
      /\ fst (AnalyzerAPI.analyze cfg true (ret tt) w) = fst (ret tt w_in)
      /\ wire (snd (AnalyzerAPI.analyze cfg true (ret tt) w))
         = (wire (snd (ret tt w_in))
            ++ [":ANALyzer:STATe 0"; ":ANALyzer:SAVE:STATe 1"])%list.
Proof.
  intros cfg w. split; [exact sim_sends_succeed |].
  do 3 (split; [reflexivity |]).
  exact (analyze_command_sequence sim_sends_succeed cfg true (ret tt) w
           "0" "0" Sim.initial Sim.initial eq_refl eq_refl eq_refl).
Defined.

(** X6 on the simulated device, with logging requested. *)
Lemma analyze_rejected_configuration_witness :
  let cfg := AnalyzerAPI.OfPulseCurrent (PulseCurrentAnalysis.mk false false) in
  let w := Sim.start Sim.initial in
  sends_never_raise (T := Sim.t)
  /\ client_query ":ANALyzer:SAVE:STATe?" (device w) = (Return "0", Sim.initial)
  /\ client_query ":ANALyzer:STATe?" Sim.initial = (Return "0", Sim.initial)
  /\ fst (AnalyzerAPI.analyze cfg true (Channel.probe ch1) w)
     = Raise no_channel_error
  /\ wire (snd (AnalyzerAPI.analyze cfg true (Channel.probe ch1) w))
     = [":ANALyzer:SAVE:STATe?"; ":ANALyzer:STATe?"; ":ANALyzer:TYPE CURR";
        ":ANALyzer:STATe 0"; ":ANALyzer:SAVE:STATe 1"].
Proof.
  intros cfg w. split; [exact sim_sends_succeed |].
  do 2 (split; [reflexivity |]).
  destruct (analyze_rejected_configuration sim_sends_succeed true
              (Channel.probe ch1) w "0" "0" Sim.initial Sim.initial
              eq_refl eq_refl) as (Hr & Hw & _).
  split; [exact Hr | exact Hw].
Defined.

(** ** Replies and their parsing *)

Section Replies.
Context {T : Type} {client : SCPIClient T}.

(** X7.  [get_common_measure] reads back what [set_common_measure] wrote:
    from a reply that lists, separated by spaces, the tokens of the
    measure command for a configuration with at least one channel, it
    returns that configuration.  For the configuration without channels
    the token list is empty, and the empty reply is not read back as the
    empty configuration: it raises [ValueError]. *)
Theorem common_measure_read_back
  (cfg : CommonAnalysis.t) (w : World T) (d' : T) :
  client_query ":ANALyzer:COMMon:MEASure:TYPE?" (device w)
    = (Return (Py.join " " (AnalyzerAPI.common_cmd_parts cfg)), d') ->
  (cfg <> CommonAnalysis.default ->
   fst (AnalyzerAPI.get_common_measure w) = Return cfg)
  /\ (cfg = CommonAnalysis.default ->
      fst (AnalyzerAPI.get_common_measure w)
      = Raise (ValueError "not enough values to unpack (expected 2)")).
Proof.
  intros H. unfold AnalyzerAPI.get_common_measure, bind.
  rewrite scpi_query_run, H. cbn [fst snd].
  destruct cfg as [[a |] [b |] [c |]];
    try destruct a; try destruct b; try destruct c;
    (split; intros Hc;
     [ first [ reflexivity | exfalso; apply Hc; reflexivity ]
     | first [ discriminate Hc | reflexivity ] ]).
Qed.

Lemma item_accepted (item : string) (result : CommonAnalysis.t) (w : World T) :
  accepted_item item = true ->
  exists r, AnalyzerAPI.common_measure_item item result w = (Return r, w).
Proof.
  unfold accepted_item, AnalyzerAPI.common_measure_item.
  destruct (Py.split "_" item) as [| tag [| ty [| x l]]]; try discriminate.
  intros H. apply andb_true_iff in H. destruct H as [Htag Hty].
  cbn [unpack2]. unfold bind, ret, raise, CommonAnalysisType.call.
  cbv beta iota.
  destruct (CommonAnalysisType.by_value ty) as [n |]; [| discriminate].
  destruct (String.eqb tag "CH1"); [eexists; reflexivity |].
  destruct (String.eqb tag "CH2"); [eexists; reflexivity |].
  destruct (String.eqb tag "CH3"); [eexists; reflexivity | discriminate].
Qed.

Lemma item_rejected (item : string) (result : CommonAnalysis.t) (w : World T) :
  accepted_item item = false ->
  exists e, AnalyzerAPI.common_measure_item item result w = (Raise e, w).
Proof.
  unfold accepted_item, AnalyzerAPI.common_measure_item.
  destruct (Py.split "_" item) as [| tag [| ty [| x l]]];
    try (intros _; eexists; reflexivity).
  intros H. cbn [unpack2]. unfold bind, ret, raise, CommonAnalysisType.call.
  cbv beta iota.
  destruct (CommonAnalysisType.by_value ty) as [n |].
  - rewrite andb_true_r in H.
    destruct (String.eqb tag "CH1"); [discriminate |].
    destruct (String.eqb tag "CH2"); [discriminate |].
    destruct (String.eqb tag "CH3"); [discriminate |].
    eexists; reflexivity.
  - destruct (String.eqb tag "CH1"); [eexists; reflexivity |].
    destruct (String.eqb tag "CH2"); [eexists; reflexivity |].
    destruct (String.eqb tag "CH3"); eexists; reflexivity.
Qed.

Lemma loop_accepts (items : list string) (result : CommonAnalysis.t)
  (w : World T) :
  if forallb accepted_item items
  then exists r, AnalyzerAPI.common_measure_loop items result w = (Return r, w)
  else exists e, AnalyzerAPI.common_measure_loop items result w = (Raise e, w).
Proof.
  revert result. induction items as [| x rest IH]; intros result.
  - exists result. reflexivity.
  - cbn [forallb AnalyzerAPI.common_measure_loop]. unfold bind.
    destruct (accepted_item x) eqn:Hx.
    + destruct (item_accepted x result w Hx) as [r Hr]. rewrite Hr.
      cbn [andb]. apply IH.
    + destruct (item_rejected x result w Hx) as [e He]. rewrite He.
      exists e. reflexivity.
Qed.

(** X8.  The replies [get_common_measure] accepts are exactly the lists,
    separated by single spaces, of tokens made of a tag [CH1], [CH2] or
    [CH3], one underscore and one of [V], [C], [P]; every other reply,
    the empty one included, makes it raise. *)
Theorem common_measure_accepted_replies (w : World T) (reply : string) (d' : T) :
  client_query ":ANALyzer:COMMon:MEASure:TYPE?" (device w) = (Return reply, d') ->
  (exists cfg, fst (AnalyzerAPI.get_common_measure w) = Return cfg)
  <-> forallb accepted_item (Py.split " " reply) = true.
Proof.
  intros H. unfold AnalyzerAPI.get_common_measure, bind.
  rewrite scpi_query_run, H. cbn [fst snd].
  pose proof (loop_accepts (Py.split " " reply) CommonAnalysis.default
                (mkWorld d' (wire w ++ [":ANALyzer:COMMon:MEASure:TYPE?"])
                   (slept_ms w))) as Hl.
  destruct (forallb accepted_item (Py.split " " reply)).
  - destruct Hl as [r Hr]. rewrite Hr. split; [reflexivity |].
    intros _. exists r. reflexivity.
  - destruct Hl as [e He]. rewrite He. split; [| discriminate].
    intros [cfg Hc]. discriminate Hc.
Qed.

Lemma float_of_str_error (s : string) (e : exn) :
  Py.float_of_str s = Raise e -> e = Py.float_syntax_error.
Proof.
  unfold Py.float_of_str.
  destruct (Py.split_sign (Py.strip s)) as [neg body].
  destruct (_ || _); [discriminate |].
  destruct (String.eqb _ "nan"); [discriminate |].
  destruct (Py.split_exponent body) as [mant ex].
  destruct (Py.mantissa_value mant) as [[d fc] |];
    [destruct (Py.exponent_value ex) |]; congruence.
Qed.

Lemma unpack2_error {A} (l : list A) (w : World T) (e : exn) :
  fst (unpack2 (T := T) l w) = Raise e -> exists msg, e = ValueError msg.
Proof.
  destruct l as [| a [| b [| c l]]]; cbn; intros H;
    try discriminate; injection H as <-; eexists; reflexivity.
Qed.

Lemma unpack3_error {A} (l : list A) (w : World T) (e : exn) :
  fst (unpack3 (T := T) l w) = Raise e -> exists msg, e = ValueError msg.
Proof.
  destruct l as [| a [| b [| c [| d l]]]]; cbn; intros H;
    try discriminate; injection H as <-; eexists; reflexivity.
Qed.

Lemma unpack3_wrong_length {A} (l : list A) (w : World T) :
  List.length l <> 3%nat ->
  exists msg, unpack3 (T := T) l w = (Raise (ValueError msg), w).
Proof.
  destruct l as [| a [| b [| c [| d l]]]]; cbn; intros H;
    try (eexists; reflexivity). contradiction.
Qed.

Lemma split1_whole (sep : ascii) (a : string) :
  all_chars (fun c => negb (Ascii.eqb c sep)) a = true ->
  Py.split1 sep a = [a].
Proof.
  induction a as [| c a IH]; intros Ha; [reflexivity |].
  cbn [all_chars] in Ha. apply andb_true_iff in Ha. destruct Ha as [Hc Ha].
  apply negb_true_iff in Hc. cbn. rewrite Hc, (IH Ha). reflexivity.
Qed.

Lemma get_output_world (self : Channel.t) (w : World T) :
  snd (Channel.get_output self w)
  = snd (scpi_query (":APPL? " ++ Channel.ch self) w).
Proof.
  unfold Channel.get_output. apply pure_tail_world. intros r w1.
  rewrite pure_tail_world.
  - destruct (Py.split1 ":" r) as [| a [| b [| c l]]]; reflexivity.
  - intros p w2. rewrite pure_tail_world; [apply unpack3_world |].
    intros [[m v] c] w3.
    repeat (rewrite pure_tail_world; [reflexivity | intros ? ?]).
    reflexivity.
Qed.

(** X9.  [get_output] hands the client its one query and nothing else,
    whatever the reply.  Given a reply, it either returns set-points or
    raises [ValueError]; it raises when the reply has no colon, and when
    the text after the first colon does not have exactly three fields
    separated by commas. *)
Theorem get_output_malformed_reply
  (self : Channel.t) (w : World T) (r : string) (d' : T) :
  client_query (":APPL? " ++ Channel.ch self) (device w) = (Return r, d') ->
  snd (Channel.get_output self w)
    = mkWorld d' (wire w ++ [(":APPL? " ++ Channel.ch self)%string]) (slept_ms w)
  /\ (forall e, fst (Channel.get_output self w) = Raise e ->
                exists msg, e = ValueError msg)
  /\ (all_chars (fun k => negb (Ascii.eqb k ":")) r = true ->
      fst (Channel.get_output self w)
      = Raise (ValueError "not enough values to unpack (expected 2)"))
  /\ (forall name rest,
        r = (name ++ ":" ++ rest)%string ->
        all_chars (fun k => negb (Ascii.eqb k ":")) name = true ->
        List.length (Py.split "," rest) <> 3%nat ->
        exists msg, fst (Channel.get_output self w) = Raise (ValueError msg)).
Proof.
  intros H. split.
  { rewrite get_output_world, scpi_query_run, H. reflexivity. }
  set (w1 := mkWorld d' (wire w ++ [(":APPL? " ++ Channel.ch self)%string])
                     (slept_ms w)).
  assert (Hrun : Channel.get_output self w
                 = (p <- unpack2 (Py.split1 ":" r) ;;
                    q <- unpack3 (Py.split "," (snd p)) ;;
                    let '(_, set_voltage, set_current) := q in
                    v <- lift (Py.float_of_str set_voltage) ;;
                    c <- lift (Py.float_of_str set_current) ;;
                    ret (mkOutput v c)) w1).
  { unfold Channel.get_output. unfold bind at 1.
    rewrite scpi_query_run, H. reflexivity. }
  rewrite Hrun. clear Hrun.
  split; [| split].
  - intros e. unfold bind at 1.
    destruct (unpack2 (Py.split1 ":" r) w1) as [[p | e2] w2] eqn:E2.
    + unfold bind at 1.
      destruct (unpack3 (Py.split "," (snd p)) w2) as [[[[m v] c] | e3] w3] eqn:E3.
      * unfold bind, lift, ret.
        destruct (Py.float_of_str v) as [v' | ev] eqn:Ev.
        -- destruct (Py.float_of_str c) as [c' | ec] eqn:Ec; [discriminate |].
           cbn. intros Heq. injection Heq as <-.
           rewrite (float_of_str_error c ec Ec). eexists; reflexivity.
        -- cbn. intros Heq. injection Heq as <-.
           rewrite (float_of_str_error v ev Ev). eexists; reflexivity.
      * cbn. intros Heq. injection Heq as <-.
        apply (unpack3_error (Py.split "," (snd p)) w2). rewrite E3. reflexivity.
    + cbn. intros Heq. injection Heq as <-.
      apply (unpack2_error (Py.split1 ":" r) w1). rewrite E2. reflexivity.
  - intros Hr. rewrite (split1_whole ":" r Hr). reflexivity.
  - intros name rest -> Hname Hlen.
    change (name ++ ":" ++ rest)%string with (name ++ String ":" rest)%string.
    rewrite (split1_at ":" name rest Hname). cbn [unpack2].
    unfold bind at 1. unfold ret at 1. cbn [snd].
    destruct (unpack3_wrong_length (Py.split "," rest) w1 Hlen) as [msg Hm].
    unfold bind at 1. rewrite Hm. exists msg. reflexivity.
Qed.

(** X10.  Given a reply, [probe] either returns a measurement or raises
    [ValueError], never anything else; it raises when the reply does not
    have exactly three fields separated by commas, and when one of the
    three is not a float literal. *)
Theorem probe_malformed_reply
  (self : Channel.t) (w : World T) (r : string) (d' : T) :
  client_query ("MEAS:ALL? " ++ Channel.ch self) (device w) = (Return r, d') ->
  (forall e, fst (Channel.probe self w) = Raise e ->
             exists msg, e = ValueError msg)
  /\ (List.length (Py.split "," r) <> 3%nat ->
      exists msg, fst (Channel.probe self w) = Raise (ValueError msg))
  /\ (forall v c p,
        Py.split "," r = [v; c; p] ->
        (exists e, Py.float_of_str v = Raise e
                   \/ Py.float_of_str c = Raise e
                   \/ Py.float_of_str p = Raise e) ->
        fst (Channel.probe self w) = Raise Py.float_syntax_error).
Proof.
  intros H.
  set (w1 := mkWorld d' (wire w ++ [("MEAS:ALL? " ++ Channel.ch self)%string])
                     (slept_ms w)).
  assert (Hrun : Channel.probe self w
                 = (q <- unpack3 (Py.split "," r) ;;
                    let '(v, c, p) := q in
                    v' <- lift (Py.float_of_str v) ;;
                    c' <- lift (Py.float_of_str c) ;;
                    p' <- lift (Py.float_of_str p) ;;
                    ret (mkMeasurement v' c' p')) w1).
  { unfold Channel.probe. unfold bind at 1.
    rewrite scpi_query_run, H. reflexivity. }
  rewrite Hrun. clear Hrun.
  split; [| split].
  - intros e. unfold bind at 1.
    destruct (unpack3 (Py.split "," r) w1) as [[[[v c] p] | e3] w3] eqn:E3.
    + unfold bind, lift, ret.
      destruct (Py.float_of_str v) as [v' | ev] eqn:Ev.
      * destruct (Py.float_of_str c) as [c' | ec] eqn:Ec.
        -- destruct (Py.float_of_str p) as [p' | ep] eqn:Ep; [discriminate |].
           cbn. intros Heq. injection Heq as <-.
           rewrite (float_of_str_error p ep Ep). eexists; reflexivity.
        -- cbn. intros Heq. injection Heq as <-.
           rewrite (float_of_str_error c ec Ec). eexists; reflexivity.
      * cbn. intros Heq. injection Heq as <-.
        rewrite (float_of_str_error v ev Ev). eexists; reflexivity.
    + cbn. intros Heq. injection Heq as <-.
      apply (unpack3_error (Py.split "," r) w1). rewrite E3. reflexivity.
  - intros Hlen.
    destruct (unpack3_wrong_length (Py.split "," r) w1 Hlen) as [msg Hm].
    unfold bind at 1. rewrite Hm. exists msg. reflexivity.
  - intros v c p Hs [e He]. rewrite Hs. cbn [unpack3].
    unfold bind, lift, ret.
    destruct (Py.float_of_str v) as [v' | ev] eqn:Ev.
    + destruct (Py.float_of_str c) as [c' | ec] eqn:Ec.
      * destruct (Py.float_of_str p) as [p' | ep] eqn:Ep.
        -- destruct He as [He | [He | He]]; discriminate He.
        -- cbn. rewrite (float_of_str_error p ep Ep). reflexivity.
      * cbn. rewrite (float_of_str_error c ec Ec). reflexivity.
    + cbn. rewrite (float_of_str_error v ev Ev). reflexivity.
Qed.

End Replies.

(** X7 at a configuration of two channels and at the empty one. *)
Lemma common_measure_read_back_witness :
  let cfg := CommonAnalysis.mk (Some CommonAnalysisType.Current) None
               (Some CommonAnalysisType.Voltage) in
  client_query ":ANALyzer:COMMon:MEASure:TYPE?"
    (device (Scripted.start [Return "CH1_C CH3_V"]))
    = (Return (Py.join " " (AnalyzerAPI.common_cmd_parts cfg)), [])
  /\ cfg <> CommonAnalysis.default
  /\ fst (AnalyzerAPI.get_common_measure (Scripted.start [Return "CH1_C CH3_V"]))
     = Return cfg
  /\ client_query ":ANALyzer:COMMon:MEASure:TYPE?"
       (device (Scripted.start [Return ""]))
     = (Return (Py.join " " (AnalyzerAPI.common_cmd_parts CommonAnalysis.default)),
        [])
  /\ fst (AnalyzerAPI.get_common_measure (Scripted.start [Return ""]))
     = Raise (ValueError "not enough values to unpack (expected 2)").
Proof.
  intros cfg. split; [reflexivity |].
  assert (Hne : cfg <> CommonAnalysis.default) by discriminate.
  split; [exact Hne |]. split.
  { exact (proj1 (common_measure_read_back cfg
                    (Scripted.start [Return "CH1_C CH3_V"]) [] eq_refl) Hne). }
  split; [reflexivity |].
  exact (proj2 (common_measure_read_back CommonAnalysis.default
                  (Scripted.start [Return ""]) [] eq_refl) eq_refl).
Defined.

(** X8 at a reply with a doubled space. *)
Lemma common_measure_accepted_replies_witness :
  let w := Scripted.start [Return "CH1_V  CH2_C"] in
  client_query ":ANALyzer:COMMon:MEASure:TYPE?" (device w)
    = (Return "CH1_V  CH2_C", [])
  /\ forallb accepted_item (Py.split " " "CH1_V  CH2_C") = false
  /\ ((exists cfg, fst (AnalyzerAPI.get_common_measure w) = Return cfg)
      <-> forallb accepted_item (Py.split " " "CH1_V  CH2_C") = true).
Proof.
  intros w. split; [reflexivity |]. split; [reflexivity |].
  exact (common_measure_accepted_replies w "CH1_V  CH2_C" [] eq_refl).
Defined.

(** X9 at a reply with only two fields after the colon. *)
Lemma get_output_malformed_reply_witness :
  let w := Scripted.start [Return "CH1:5.000,1.000"] in
  client_query (":APPL? " ++ Channel.ch ch1) (device w)
    = (Return "CH1:5.000,1.000", [])
  /\ all_chars (fun k => negb (Ascii.eqb k ":")) "CH1" = true
  /\ List.length (Py.split "," "5.000,1.000") <> 3%nat
  /\ wire (snd (Channel.get_output ch1 w)) = [":APPL? CH1"]
  /\ exists msg, fst (Channel.get_output ch1 w) = Raise (ValueError msg).
Proof.
  intros w.
  assert (Hlen : List.length (Py.split "," "5.000,1.000") <> 3%nat)
    by discriminate.
  assert (Hq : client_query (":APPL? " ++ Channel.ch ch1) (device w)
               = (Return "CH1:5.000,1.000", [])) by reflexivity.
  destruct (get_output_malformed_reply ch1 w "CH1:5.000,1.000" [] Hq)
    as (Hw & _ & _ & Hf).
  split; [reflexivity |]. split; [reflexivity |]. split; [exact Hlen |].
  split; [rewrite Hw; reflexivity |].
  exact (Hf "CH1" "5.000,1.000" eq_refl eq_refl Hlen).
Defined.

(** X10 at a reply whose power field is not a number. *)
Lemma probe_malformed_reply_witness :
  let w := Scripted.start [Return "5.001,0.998,****"] in
  client_query ("MEAS:ALL? " ++ Channel.ch ch1) (device w)
    = (Return "5.001,0.998,****", [])
  /\ Py.split "," "5.001,0.998,****" = ["5.001"; "0.998"; "****"]
  /\ Py.float_of_str "****" = Raise Py.float_syntax_error
  /\ fst (Channel.probe ch1 w) = Raise Py.float_syntax_error.
Proof.
  intros w. do 3 (split; [reflexivity |]).
  assert (Hq : client_query ("MEAS:ALL? " ++ Channel.ch ch1) (device w)
               = (Return "5.001,0.998,****", [])) by reflexivity.
  refine (proj2 (proj2 (probe_malformed_reply ch1 w "5.001,0.998,****" []
                          Hq)) "5.001" "0.998" "****" eq_refl _).
  exists Py.float_syntax_error. right. right. reflexivity.
Defined.

(** ** Round trips of single settings *)

Lemma str_of_N_plain (n : N) : all_chars plain_char (Py.str_of_N n) = true.
Proof.
  apply all_chars_weaken with (2 := str_of_N_chars n). exact digit_is_plain.
Qed.

Lemma int_of_digits (neg : bool) (n : N) :
  (String.length (Py.str_of_N n) <= Py.int_max_str_digits)%nat ->
  Py.int_of_str (Py.sign_text neg ++ Py.str_of_N n)
  = Return (if neg then - Z.of_N n else Z.of_N n).
Proof.
  intros Hlen.
  pose proof (str_of_N_chars n) as Hd. pose proof (str_of_N_plain n) as Hp.
  pose proof (str_of_N_nonempty n) as Hne.
  pose proof (str_of_N_value n) as Hv.
  unfold Py.int_of_str. rewrite strip_plain.
  2:{ rewrite all_chars_app, Hp. destruct neg; reflexivity. }
  destruct (Py.str_of_N n) as [| c s] eqn:E; [contradiction |].
  assert (Hc : Py.is_digit c = true).
  { cbn [all_chars] in Hd. apply andb_true_iff in Hd. apply Hd. }
  assert (Hs : Py.split_sign (Py.sign_text neg ++ String c s)
               = (neg, String c s)).
  { destruct neg; [reflexivity | apply split_sign_digit, Hc]. }
  rewrite Hs, (digit_run_value _ Hd), Hv. cbn [String.length] in *.
  apply Nat.leb_le in Hlen. rewrite Hlen. reflexivity.
Qed.

(** [int] reads back what [str] wrote. *)
Lemma int_of_str_of_int (z : Z) (t : string) :
  Py.str z = Return t -> Py.int_of_str t = Return z.
Proof.
  unfold Py.str.
  destruct (Nat.leb_spec (String.length (Py.str_of_N (Z.abs_N z)))
              Py.int_max_str_digits) as [Hlen | _]; [| discriminate].
  intros H. injection H as <-. destruct z as [| p | p].
  - reflexivity.
  - exact (int_of_digits false (Npos p) Hlen).
  - exact (int_of_digits true (Npos p) Hlen).
Qed.

Lemma str_of_int_plain (z : Z) : all_chars plain_char (Py.str_of_int z) = true.
Proof.
  destruct z as [| p | p]; cbn [Py.str_of_int all_chars];
    rewrite ?str_of_N_plain; reflexivity.
Qed.

Lemma str_of_N_inj (a b : N) : Py.str_of_N a = Py.str_of_N b -> a = b.
Proof.
  intros H. rewrite <- (str_of_N_value a), H. apply str_of_N_value.
Qed.

Lemma str_of_N_no_sign (n : N) (s : string) : Py.str_of_N n <> String "-" s.
Proof.
  intros H. pose proof (str_of_N_chars n) as Hd. rewrite H in Hd.
  discriminate Hd.
Qed.

Lemma str_of_int_inj (i j : Z) : Py.str_of_int i = Py.str_of_int j -> i = j.
Proof.
  destruct i as [| p | p], j as [| q | q]; cbn [Py.str_of_int]; intros H;
    try (apply str_of_N_inj in H; lia);
    try (exfalso; exact (str_of_N_no_sign _ _ H));
    try (exfalso; symmetry in H; exact (str_of_N_no_sign _ _ H)).
  injection H as H. apply str_of_N_inj in H. lia.
Qed.

Section Settings.
Context {T : Type} {client : SCPIClient T}.

(** X11.  A protection threshold written by the [level] setter and
    echoed by the client is read back by the getter as the value rounded
    to three places, for every float, infinities and NaN included.  For a
    finite binary64 threshold the text written is the threshold to the
    nearest thousandth and the value read back is a binary64 nearest to
    that text, hence within one thousandth of the threshold; for a
    binary64 value, writing the value read back sends the very same
    command again. *)
Theorem level_round_trip
  (self : OverProtectiveParent.t) (level : Py.float) (w : World T)
  (a : string) (d1 d2 : T) :
  client_send (level_cmd self level) (device w) = (Return a, d1) ->
  client_query (OverProtectiveParent.prefix self ++ ":PROT?") d1
    = (Return (Py.format_3f level), d2) ->
  fst ((OverProtectiveParent.set_level self level ;;
        OverProtectiveParent.get_level self) w) = Return (round3 level)
  /\ (Py.is_binary64 level -> Py.is_finite level = true ->
      names_to_thousandth (Py.format_3f level) level
      /\ nearest_binary64 (round3 level) (Py.format_3f level)
      /\ 1000 * Z.abs (scaled (round3 level) - scaled level) <= grid)
  /\ (Py.is_binary64 level ->
      level_cmd self (round3 level) = level_cmd self level).
Proof.
  intros Hs Hq. split; [| split].
  2:{ intros Hv Hf. split; [apply format_names; assumption |].
      split; [apply round3_nearest | apply round3_near]; assumption. }
  - unfold OverProtectiveParent.set_level, OverProtectiveParent.get_level.
    fold (level_cmd self level).
    unfold bind at 1 2. rewrite scpi_send_run, Hs. cbn [fst snd].
    unfold ret at 1. unfold bind. rewrite scpi_query_run. cbn [device].
    rewrite Hq. cbn [fst snd]. unfold lift. rewrite float_of_format.
    reflexivity.
  - intros Hv. unfold level_cmd. rewrite (format_round3 level Hv). reflexivity.
Qed.

(** X12.  A display brightness below [10^4300] in absolute value,
    written by the setter and echoed by the client, is read back
    unchanged, negative ones included.  From [10^4300] on the text would
    have more digits than [str] allows: the setter raises and sends
    nothing. *)
Theorem brightness_round_trip
  (z : Z) (w : World T) (a : string) (d1 d2 : T) :
  (Z.abs z < 10 ^ 4300 ->
   client_send (":SYST:BRIG " ++ Py.str_of_int z) (device w) = (Return a, d1) ->
   client_query ":SYST:BRIG?" d1 = (Return (Py.str_of_int z), d2) ->
   fst ((RigolDP932A.set_display_brightness z ;;
         RigolDP932A.get_display_brightness) w) = Return z)
  /\ (10 ^ 4300 <= Z.abs z ->
      RigolDP932A.set_display_brightness z w = (Raise Py.str_limit_error, w)).
Proof.
  split.
  - intros Hz Hs Hq. pose proof (str_small z Hz) as Hstr.
    unfold RigolDP932A.set_display_brightness,
      RigolDP932A.get_display_brightness.
    unfold bind at 1 2 3, lift at 1. rewrite Hstr.
    rewrite scpi_send_run, Hs. cbn [fst snd].
    unfold ret at 1. unfold bind. rewrite scpi_query_run. cbn [device].
    rewrite Hq. cbn [fst snd]. unfold lift.
    rewrite (int_of_str_of_int z _ Hstr). reflexivity.
  - intros Hz. unfold RigolDP932A.set_display_brightness.
    unfold bind at 1, lift. rewrite (str_large z Hz). reflexivity.
Qed.

End Settings.

Lemma append_comma_assoc (p s t : string) :
  (p ++ s ++ "," ++ t)%string = ((p ++ s) ++ String "," t)%string.
Proof.
  induction p as [| c p IH]; [reflexivity |]. cbn. f_equal. exact IH.
Qed.

Lemma before_comma (s t s' t' : string) :
  all_chars (fun c => negb (Ascii.eqb c ",")) s = true ->
  all_chars (fun c => negb (Ascii.eqb c ",")) s' = true ->
  (s ++ String "," t)%string = (s' ++ String "," t')%string -> s = s'.
Proof.
  intros Hs Hs' H. apply (f_equal (Py.split1 ",")) in H.
  rewrite (split1_at "," s t Hs), (split1_at "," s' t' Hs') in H.
  congruence.
Qed.

Lemma ch_no_comma (pre : string) (i : Z) :
  all_chars (fun c => negb (Ascii.eqb c ",")) pre = true ->
  all_chars (fun c => negb (Ascii.eqb c ","))
    (pre ++ Channel.ch (Channel.__init__ i)) = true.
Proof.
  intros Hp. rewrite all_chars_app, Hp. unfold Channel.ch.
  cbn [Channel._channel Channel.__init__].
  change ("CH" ++ Py.str_of_int i)%string
    with (String "C" (String "H" (Py.str_of_int i))).
  cbn [all_chars andb]. cbn.
  apply all_chars_weaken with (2 := str_of_int_plain i).
  intros c Hc. apply (plain_not "," c); [cbn; lia | exact Hc].
Qed.

Lemma ch_inj (pre : string) (i j : Z) :
  (pre ++ Channel.ch (Channel.__init__ i))%string
  = (pre ++ Channel.ch (Channel.__init__ j))%string -> i = j.
Proof.
  intros H. induction pre as [| c pre IH].
  - cbn in H. injection H as H. apply str_of_int_inj, H.
  - cbn in H. injection H as H. apply IH, H.
Qed.

(** X13.  Channels with different numbers never share a command: the
    set-point, enable and disable commands and the four queries of one
    channel all differ from those of the other, whatever the set-points. *)
Theorem distinct_channels_distinct_commands (i j : Z) (o o' : Output)
  (b b' : bool) :
  i <> j ->
  let ci := Channel.__init__ i in
  let cj := Channel.__init__ j in
  apply_cmd ci o <> apply_cmd cj o'
  /\ (":OUTP " ++ Channel.ch ci ++ "," ++ on_off b)%string
     <> (":OUTP " ++ Channel.ch cj ++ "," ++ on_off b')%string
  /\ (":APPL? " ++ Channel.ch ci)%string <> (":APPL? " ++ Channel.ch cj)%string
  /\ ("MEAS:ALL? " ++ Channel.ch ci)%string
     <> ("MEAS:ALL? " ++ Channel.ch cj)%string
  /\ (":OUTP? " ++ Channel.ch ci)%string <> (":OUTP? " ++ Channel.ch cj)%string
  /\ (":OUTP:MODE? " ++ Channel.ch ci)%string
     <> (":OUTP:MODE? " ++ Channel.ch cj)%string.
Proof.
  intros Hij ci cj.
  assert (Hcomma : forall pre t t',
             all_chars (fun c => negb (Ascii.eqb c ",")) pre = true ->
             ((pre ++ Channel.ch ci) ++ String "," t)%string
             <> ((pre ++ Channel.ch cj) ++ String "," t')%string).
  { intros pre t t' Hp H. apply Hij, (ch_inj pre).
    apply (before_comma _ t _ t'); [apply ch_no_comma, Hp.. | exact H]. }
  split; [| split; [| repeat split]].
  - unfold apply_cmd. rewrite !(append_comma_assoc ":APPL ").
    apply Hcomma. reflexivity.
  - rewrite !(append_comma_assoc ":OUTP "). apply Hcomma. reflexivity.
  - intros H. apply Hij, (ch_inj _ _ _ H).
  - intros H. apply Hij, (ch_inj _ _ _ H).
  - intros H. apply Hij, (ch_inj _ _ _ H).
  - intros H. apply Hij, (ch_inj _ _ _ H).
Qed.

(** X11 at the over-current threshold 2.4996 A of channel 1. *)
Lemma level_round_trip_witness :
  let level := float_lit "2.4996" in
  let w := Scripted.start [Return ""; Return "2.500"] in
  client_send (level_cmd ocp1 level) (device w) = (Return "", [Return "2.500"])
  /\ client_query (OverProtectiveParent.prefix ocp1 ++ ":PROT?") [Return "2.500"]
     = (Return (Py.format_3f level), [])
  /\ Py.is_binary64 level
  /\ Py.is_finite level = true
  /\ fst ((OverProtectiveParent.set_level ocp1 level ;;
           OverProtectiveParent.get_level ocp1) w) = Return (float_lit "2.5")
  /\ names_to_thousandth "2.500" level
  /\ nearest_binary64 (float_lit "2.5") "2.500"
  /\ level_cmd ocp1 (float_lit "2.5") = level_cmd ocp1 level.
Proof.
  intros level w.
  assert (H1 : client_send (level_cmd ocp1 level) (device w)
               = (Return "", [Return "2.500"])) by reflexivity.
  assert (H2 : client_query (OverProtectiveParent.prefix ocp1 ++ ":PROT?")
                 [Return "2.500"] = (Return (Py.format_3f level), []))
    by reflexivity.
  assert (H3 : Py.is_binary64 level) by reflexivity.
  assert (H4 : Py.is_finite level = true) by reflexivity.
  destruct (level_round_trip ocp1 level w "" [Return "2.500"] [] H1 H2)
    as (Hr & Hn & Hc).
  destruct (Hn H3 H4) as (Hname & Hnear & _).
  do 4 (split; [reflexivity |]). split; [exact Hr |].
  split; [exact Hname |]. split; [exact Hnear | exact (Hc H3)].
Defined.

(** X12 on the simulated device, for 75 and for a brightness of 4301
    digits. *)
Lemma brightness_round_trip_witness :
  let d1 := Sim.mk false false [] 75 true in
  Z.abs 75 < 10 ^ 4300
  /\ client_send (":SYST:BRIG " ++ Py.str_of_int 75)
       (device (Sim.start Sim.initial))
     = (Return "", d1)
  /\ client_query ":SYST:BRIG?" d1 = (Return (Py.str_of_int 75), d1)
  /\ fst ((RigolDP932A.set_display_brightness 75 ;;
           RigolDP932A.get_display_brightness) (Sim.start Sim.initial))
     = Return 75
  /\ 10 ^ 4300 <= Z.abs (- 10 ^ 4300)
  /\ RigolDP932A.set_display_brightness (- 10 ^ 4300) (Sim.start Sim.initial)
     = (Raise Py.str_limit_error, Sim.start Sim.initial).
Proof.
  intros d1.
  assert (H0 : Z.abs 75 < 10 ^ 4300).
  { apply Z.lt_le_trans with (10 ^ 2); [reflexivity |].
    apply Z.pow_le_mono_r; lia. }
  assert (H3 : 10 ^ 4300 <= Z.abs (- 10 ^ 4300)).
  { rewrite Z.abs_opp, Z.abs_eq; [apply Z.le_refl |].
    apply Z.pow_nonneg. lia. }
  assert (H1 : client_send (":SYST:BRIG " ++ Py.str_of_int 75)
                 (device (Sim.start Sim.initial)) = (Return "", d1))
    by reflexivity.
  assert (H2 : client_query ":SYST:BRIG?" d1 = (Return (Py.str_of_int 75), d1))
    by reflexivity.
  split; [exact H0 |]. split; [exact H1 |]. split; [exact H2 |].
  split;
    [exact (proj1 (brightness_round_trip 75 (Sim.start Sim.initial) "" d1 d1)
              H0 H1 H2) |].
  split; [exact H3 |].
  exact (proj2 (brightness_round_trip (- 10 ^ 4300) (Sim.start Sim.initial)
                  "" d1 d1) H3).
Defined.

(** X13 at channels 1 and 2. *)
Lemma distinct_channels_distinct_commands_witness :
  1 <> 2
  /\ enable_cmd (Channel.__init__ 1) <> enable_cmd (Channel.__init__ 2)
  /\ ("MEAS:ALL? " ++ Channel.ch (Channel.__init__ 1))%string
     <> ("MEAS:ALL? " ++ Channel.ch (Channel.__init__ 2))%string.
Proof.
  assert (H12 : 1 <> 2) by discriminate.
  destruct (distinct_channels_distinct_commands 1 2
              (mkOutput S754_nan S754_nan) (mkOutput S754_nan S754_nan)
              true true H12) as (_ & He & _ & Hm & _).
  split; [exact H12 |]. split; [exact He | exact Hm].
Defined.

(** ** The attention sequence *)

Section Attention.
Context {T : Type} {client : SCPIClient T}.

(** X14.  When the brightness cannot be read, because the query raises or
    because the reply is not an integer, [look_at_me] stops with that
    error after this one query: nothing has been changed on the device
    side and the beeper is not even read. *)
Theorem look_at_me_unreadable_brightness (w : World T) :
  (forall e d1,
      client_query ":SYST:BRIG?" (device w) = (Raise e, d1) ->
      RigolDP932A.look_at_me w
      = (Raise e, mkWorld d1 (wire w ++ [":SYST:BRIG?"]) (slept_ms w)))
  /\ (forall s e d1,
      client_query ":SYST:BRIG?" (device w) = (Return s, d1) ->
      Py.int_of_str s = Raise e ->
      RigolDP932A.look_at_me w
      = (Raise e, mkWorld d1 (wire w ++ [":SYST:BRIG?"]) (slept_ms w))).
Proof.
  split.
  - intros e d1 H. unfold RigolDP932A.look_at_me,
      RigolDP932A.get_display_brightness.
    unfold bind at 1 2. rewrite scpi_query_run, H. reflexivity.
  - intros s e d1 H Hi. unfold RigolDP932A.look_at_me,
      RigolDP932A.get_display_brightness.
    unfold bind at 1 2. rewrite scpi_query_run, H. cbn [fst snd].
    unfold lift. rewrite Hi. reflexivity.
Qed.

Lemma runs_bind (c1 c2 : M T unit) (l1 l2 : list string) (t1 t2 : N) :
  runs c1 l1 t1 -> runs c2 l2 t2 -> runs (c1 ;; c2) (l1 ++ l2) (t1 + t2).
Proof.
  intros H1 H2 w. unfold bind. destruct (H1 w) as (Hr & Hw & Ht).
  destruct (c1 w) as [r w1]. cbn [fst snd] in *. subst r.
  destruct (H2 w1) as (Hr2 & Hw2 & Ht2).
  rewrite Hr2, Hw2, Hw, Ht2, Ht, app_assoc, N.add_assoc. repeat split.
Qed.

Lemma runs_sleep (ms : N) : runs (time_sleep (T := T) ms) [] ms.
Proof. intros w. cbn. rewrite app_nil_r. repeat split. Qed.

Hypothesis reliable : sends_never_raise.

Lemma runs_send (cmd : string) : runs (scpi_send cmd ;; ret tt) [cmd] 0.
Proof.
  intros w. rewrite bind_ret_tt, scpi_send_run. cbn [fst snd wire slept_ms].
  destruct (reliable cmd (device w)) as [a Ha]. rewrite Ha, N.add_0_r.
  repeat split.
Qed.

Lemma runs_brightness (z : Z) :
  Py.str z = Return (Py.str_of_int z) ->
  runs (RigolDP932A.set_display_brightness z)
    [(":SYST:BRIG " ++ Py.str_of_int z)%string] 0.
Proof.
  intros Hz w. unfold RigolDP932A.set_display_brightness.
  unfold bind at 1, lift at 1. rewrite Hz. apply runs_send.
Qed.

Lemma runs_blink :
  runs RigolDP932A.blink [":SYST:BRIG 100"; ":SYST:BRIG 10"] 1000.
Proof.
  unfold RigolDP932A.blink.
  apply (runs_bind _ _ [_] [_] 0 1000); [apply runs_send |].
  apply (runs_bind _ _ [] [_] 500 500); [apply runs_sleep |].
  apply (runs_bind _ _ [_] [] 0 500); [apply runs_send | apply runs_sleep].
Qed.

Lemma runs_round :
  runs (RigolDP932A.blink ;; RigolDP932A.beep ;; RigolDP932A.blink)
    blink_round 2000.
Proof.
  apply (runs_bind _ _ [_; _] [_; _; _] 1000 1000); [apply runs_blink |].
  apply (runs_bind _ _ [_] [_; _] 0 1000); [apply runs_send | apply runs_blink].
Qed.

(** X15.  A [look_at_me] that runs to its end, on a client that
    acknowledges every command, sleeps six seconds in all and hands the
    client nineteen commands, the two queries included. *)
Theorem look_at_me_duration
  (w : World T) (s t : string) (b : Z) (d1 d2 : T) :
  client_query ":SYST:BRIG?" (device w) = (Return s, d1) ->
  Py.int_of_str s = Return b ->
  client_query ":SYST:BEEP?" d1 = (Return t, d2) ->
  slept_ms (snd (RigolDP932A.look_at_me w)) = (slept_ms w + 6000)%N
  /\ List.length (wire (snd (RigolDP932A.look_at_me w)))
     = (List.length (wire w) + 19)%nat.
Proof.
  intros Hq1 Hb Hq2.
  set (rest := (for_each [0; 1; 2]
                  (fun _ : Z =>
                     RigolDP932A.blink ;; RigolDP932A.beep ;; RigolDP932A.blink) ;;
                RigolDP932A.set_display_brightness b ;;
                RigolDP932A.set_beeper (String.eqb t "1"))).
  set (w2 := mkWorld d2 ((wire w ++ [":SYST:BRIG?"]) ++ [":SYST:BEEP?"])
                     (slept_ms w)).
  assert (Hrun : RigolDP932A.look_at_me w = rest w2).
  { unfold RigolDP932A.look_at_me.
    unfold RigolDP932A.get_display_brightness, RigolDP932A.get_beeper.
    unfold bind at 1 2. rewrite scpi_query_run, Hq1. cbn [fst snd].
    unfold lift at 1. rewrite Hb.
    unfold bind at 1 2. rewrite scpi_query_run. cbn [device]. rewrite Hq2.
    reflexivity. }
  assert (E : runs rest
                ((blink_round ++ blink_round ++ blink_round ++ [])
                 ++ [(":SYST:BRIG " ++ Py.str_of_int b)%string;
                     (":SYST:BEEP " ++ on_off (String.eqb t "1"))%string])
                ((2000 + (2000 + (2000 + 0))) + (0 + 0))).
  { unfold rest. apply runs_bind.
    - cbn [for_each].
      apply runs_bind; [apply runs_round |].
      apply runs_bind; [apply runs_round |].
      apply runs_bind; [apply runs_round |].
      intros w'. cbn. rewrite app_nil_r, N.add_0_r. repeat split.
    - apply (runs_bind _ _ [_] [_]);
        [apply runs_brightness, (int_of_str_small s), Hb | apply runs_send]. }
  rewrite Hrun. destruct (E w2) as (_ & Hw & Ht).
  split.
  - rewrite Ht. reflexivity.
  - rewrite Hw. unfold w2. cbn [wire]. rewrite !length_app. cbn. lia.
Qed.

End Attention.

(** ** Analyzer type and measure lists *)

Section AnalyzerSettings.
Context {T : Type} {client : SCPIClient T}.

(** X16.  [get_type] returns an analysis type exactly for the reply that
    is the wire code of that type, letter for letter, so it reads back
    what [set_type] wrote; every other reply raises [ValueError]. *)
Theorem get_type_accepted_replies (w : World T) (r : string) (d' : T) :
  client_query ":ANALyzer:TYPE?" (device w) = (Return r, d') ->
  (forall t, fst (AnalyzerAPI.get_type w) = Return t
             <-> r = AnalysisType.value t)
  /\ ((forall t, r <> AnalysisType.value t) ->
      exists msg, fst (AnalyzerAPI.get_type w) = Raise (ValueError msg)).
Proof.
  intros H.
  assert (Hrun : fst (AnalyzerAPI.get_type w)
                 = match AnalysisType.by_value r with
                   | Some n => Return n
                   | None => Raise (ValueError (r ++ " is not a valid AnalysisType"))
                   end).
  { unfold AnalyzerAPI.get_type, bind. rewrite scpi_query_run, H.
    cbn [fst snd]. unfold AnalysisType.call.
    destruct (AnalysisType.by_value r); reflexivity. }
  rewrite Hrun. unfold AnalysisType.by_value. cbn [find AnalysisType.value].
  destruct (String.eqb_spec "COM" r) as [<- | Hcom].
  - split.
    + intros t. destruct t; cbn [AnalysisType.value]; split; intros Ht;
        try reflexivity; discriminate Ht.
    + intros Hno. exfalso. apply (Hno AnalysisType.Common). reflexivity.
  - destruct (String.eqb_spec "CURR" r) as [<- | Hcurr].
    + split.
      * intros t. destruct t; cbn [AnalysisType.value]; split; intros Ht;
          try reflexivity; discriminate Ht.
      * intros Hno. exfalso. apply (Hno AnalysisType.PulseCurrent). reflexivity.
    + split.
      * intros t. split; [discriminate |].
        intros ->. destruct t; [elim Hcom | elim Hcurr]; reflexivity.
      * intros _. eexists. reflexivity.
Qed.

Hypothesis reliable : sends_never_raise.

(** X17.  On a client that acknowledges every command,
    [set_current_measure] sends the measure command exactly when a channel
    is enabled, and the list it carries names exactly the enabled
    channels, each once, in channel order: [CH1] if the first is enabled,
    then [CH2] if the second is. *)
Theorem pulse_measure_names_enabled
  (cfg : PulseCurrentAnalysis.t) (w : World T) :
  let tags := AnalyzerAPI.pulse_cmd_parts cfg in
  tags = ((if PulseCurrentAnalysis.ch1 cfg then ["CH1"] else [])
          ++ (if PulseCurrentAnalysis.ch2 cfg then ["CH2"] else []))%list
  /\ (In "CH1" tags <-> PulseCurrentAnalysis.ch1 cfg = true)
  /\ (In "CH2" tags <-> PulseCurrentAnalysis.ch2 cfg = true)
  /\ (forall tag, In tag tags -> tag = "CH1" \/ tag = "CH2")
  /\ wire (snd (AnalyzerAPI.set_current_measure cfg w))
     = (wire w ++ ":ANALyzer:TYPE CURR"
        :: match tags with
           | [] => []
           | _ => [(":ANALyzer:CURRent:MEASure:TYPE " ++ Py.join "," tags)%string]
           end)%list
  /\ (fst (AnalyzerAPI.set_current_measure cfg w) = Return tt <-> tags <> [])
  /\ (tags <> [] -> Py.split "," (Py.join "," tags) = tags).
Proof.
  intros tags.
  assert (Hrun : AnalyzerAPI.set_current_measure cfg w
                 = ((scpi_send ":ANALyzer:TYPE CURR" ;; ret tt) ;;
                    if negb (PulseCurrentAnalysis.ch1 cfg
                             || PulseCurrentAnalysis.ch2 cfg)
                    then raise no_channel_error
                    else scpi_send (":ANALyzer:CURRent:MEASure:TYPE "
                                    ++ Py.join "," tags) ;; ret tt) w).
  { unfold AnalyzerAPI.set_current_measure. cbn [existsb].
    rewrite orb_false_r. reflexivity. }
  rewrite Hrun. clear Hrun.
  match goal with |- context [bind ?c (fun _ => ?k) w] =>
    destruct (emits_then c [":ANALyzer:TYPE CURR"] k w
                (emits_send reliable ":ANALyzer:TYPE CURR")) as [E W];
    rewrite E; set (w1 := snd (c w)) in *
  end.
  unfold tags in *. clear tags.
  destruct cfg as [[] []]; cbn [PulseCurrentAnalysis.ch1 PulseCurrentAnalysis.ch2
                               orb negb];
    cbn [AnalyzerAPI.pulse_cmd_parts enumerate flat_map app snd fst
         PulseCurrentAnalysis.ch1 PulseCurrentAnalysis.ch2];
    idtac.
  all: repeat split; intros; cbn in *;
    try solve [ auto | tauto | discriminate | congruence
              | intuition (auto; discriminate) ].
  all: try (rewrite W; reflexivity).
  all: match goal with
       | |- context [(scpi_send ?c ;; ret tt) ?w'] =>
           destruct (emits_send reliable c w') as [Hr Hw]
       end;
       first [ exact Hr | rewrite Hw, W, <- app_assoc; reflexivity ].
Qed.

(** X18.  On a client that acknowledges every command,
    [set_common_measure] rejects no configuration: it always sends the
    type switch and the measure command and returns.  The measure command
    carries one token for each selected channel, the tag of the channel
    joined to the code of the selected quantity; for the configuration
    without channels it carries none. *)
Theorem common_measure_never_rejects (cfg : CommonAnalysis.t) (w : World T) :
  let tags := AnalyzerAPI.common_cmd_parts cfg in
  fst (AnalyzerAPI.set_common_measure cfg w) = Return tt
  /\ wire (snd (AnalyzerAPI.set_common_measure cfg w))
     = (wire w ++ [":ANALyzer:TYPE COM";
                   (":ANALyzer:COMMon:MEASure:TYPE " ++ Py.join "," tags)%string])%list
  /\ List.length tags = selected cfg
  /\ (forall q, In ("CH1_" ++ CommonAnalysisType.value q)%string tags
                <-> CommonAnalysis.ch1 cfg = Some q)
  /\ (forall q, In ("CH2_" ++ CommonAnalysisType.value q)%string tags
                <-> CommonAnalysis.ch2 cfg = Some q)
  /\ (forall q, In ("CH3_" ++ CommonAnalysisType.value q)%string tags
                <-> CommonAnalysis.ch3 cfg = Some q)
  /\ (cfg = CommonAnalysis.default -> Py.join "," tags = "").
Proof.
  intros tags.
  assert (E : emits (AnalyzerAPI.set_common_measure cfg)
                [":ANALyzer:TYPE COM";
                 (":ANALyzer:COMMon:MEASure:TYPE " ++ Py.join "," tags)%string]).
  { unfold AnalyzerAPI.set_common_measure, AnalyzerAPI.set_type.
    apply (emits_bind _ _ [_] [_]); apply emits_send; exact reliable. }
  destruct (E w) as [Hr Hw]. split; [exact Hr |]. split; [exact Hw |].
  unfold tags. clear.
  destruct cfg as [[a |] [b |] [c |]];
    try destruct a; try destruct b; try destruct c;
    (split; [reflexivity |]);
    (split; [intros q; destruct q; cbn;
             intuition (try discriminate; try congruence) |]);
    (split; [intros q; destruct q; cbn;
             intuition (try discriminate; try congruence) |]);
    (split; [intros q; destruct q; cbn;
             intuition (try discriminate; try congruence) |]);
    intros H; first [reflexivity | discriminate H].
Qed.

End AnalyzerSettings.

(** ** The summary text of a channel *)

Section Summary.
Context {T : Type} {client : SCPIClient T}.

Lemma get_output_echo (self : Channel.t) (w : World T)
  (name mode : string) (v c : Py.float) (d1 : T) :
  client_query (":APPL? " ++ Channel.ch self) (device w)
    = (Return (name ++ ":" ++ mode ++ ","
               ++ Py.format_3f v ++ "," ++ Py.format_3f c), d1) ->
  all_chars (fun k => negb (Ascii.eqb k ":")) name = true ->
  all_chars (fun k => negb (Ascii.eqb k ",")) mode = true ->
  Channel.get_output self w
  = (Return (mkOutput (round3 v) (round3 c)),
     mkWorld d1 (wire w ++ [(":APPL? " ++ Channel.ch self)%string]) (slept_ms w)).
Proof.
  intros Hq Hname Hmode. unfold Channel.get_output.
  unfold bind at 1. rewrite scpi_query_run, Hq. cbn [fst snd].
  change (name ++ ":" ++ mode ++ "," ++ Py.format_3f v ++ ","
          ++ Py.format_3f c)%string
    with (name ++ String ":" (mode ++ String ","
            (Py.format_3f v ++ String "," (Py.format_3f c))))%string.
  rewrite (split1_at ":" name _ Hname). cbn [unpack2].
  unfold bind at 1. unfold ret at 1. cbn [snd].
  rewrite (split_at "," mode _ Hmode),
    (split_at "," _ _ (format_no_comma v)),
    (split_whole "," _ (format_no_comma c)).
  cbn [unpack3]. unfold bind at 1. unfold ret at 1.
  unfold bind, lift, ret. rewrite !float_of_format. reflexivity.
Qed.

Lemma probe_echo (self : Channel.t) (w : World T)
  (pv pc pp : Py.float) (d1 : T) :
  client_query ("MEAS:ALL? " ++ Channel.ch self) (device w)
    = (Return (Py.format_3f pv ++ "," ++ Py.format_3f pc ++ ","
               ++ Py.format_3f pp), d1) ->
  Channel.probe self w
  = (Return (mkMeasurement (round3 pv) (round3 pc) (round3 pp)),
     mkWorld d1 (wire w ++ [("MEAS:ALL? " ++ Channel.ch self)%string])
             (slept_ms w)).
Proof.
  intros Hq. unfold Channel.probe.
  unfold bind at 1. rewrite scpi_query_run, Hq. cbn [fst snd].
  change (Py.format_3f pv ++ "," ++ Py.format_3f pc ++ ","
          ++ Py.format_3f pp)%string
    with (Py.format_3f pv ++ String ","
            (Py.format_3f pc ++ String "," (Py.format_3f pp)))%string.
  rewrite (split_at "," _ _ (format_no_comma pv)),
    (split_at "," _ _ (format_no_comma pc)),
    (split_whole "," _ (format_no_comma pp)).
  cbn [unpack3]. unfold bind at 1. unfold ret at 1.
  unfold bind, lift, ret. rewrite !float_of_format. reflexivity.
Qed.

(** X19.  The summary text of a channel is made from two queries, the
    set-points first and the measurement second, and from nothing else.
    When both replies carry binary64 values written with three decimals,
    the text shows the measured and the set voltage and current exactly as
    they stand in the replies. *)
Theorem repr_shows_replies
  (self : Channel.t) (w : World T) (name mode : string)
  (v c pv pc pp : Py.float) (d1 d2 : T) :
  Py.is_binary64 v -> Py.is_binary64 c ->
  Py.is_binary64 pv -> Py.is_binary64 pc ->
  client_query (":APPL? " ++ Channel.ch self) (device w)
    = (Return (name ++ ":" ++ mode ++ ","
               ++ Py.format_3f v ++ "," ++ Py.format_3f c), d1) ->
  client_query ("MEAS:ALL? " ++ Channel.ch self) d1
    = (Return (Py.format_3f pv ++ "," ++ Py.format_3f pc ++ ","
               ++ Py.format_3f pp), d2) ->
  all_chars (fun k => negb (Ascii.eqb k ":")) name = true ->
  all_chars (fun k => negb (Ascii.eqb k ",")) mode = true ->
  Channel__repr__ self w
  = (Return ("<CH" ++ Py.str_of_int (Channel._channel self) ++ ": "
             ++ "voltage: " ++ Py.format_3f pv
             ++ " V (set: " ++ Py.format_3f v ++ " V), "
             ++ "current: " ++ Py.format_3f pc
             ++ " A (set: " ++ Py.format_3f c ++ ") A>")%string,
     mkWorld d2
       (wire w ++ [(":APPL? " ++ Channel.ch self)%string;
                   ("MEAS:ALL? " ++ Channel.ch self)%string])
       (slept_ms w)).
Proof.
  intros Hv Hc Hpv Hpc Hq1 Hq2 Hname Hmode. unfold Channel__repr__.
  unfold bind at 1.
  rewrite (get_output_echo self w name mode v c d1 Hq1 Hname Hmode).
  unfold bind at 1.
  rewrite (probe_echo self
             (mkWorld d1 (wire w ++ [(":APPL? " ++ Channel.ch self)%string])
                (slept_ms w)) pv pc pp d2 Hq2).
  unfold ret. cbn [m_voltage m_current voltage current wire slept_ms].
  rewrite !format_round3 by assumption.
  rewrite <- app_assoc. reflexivity.
Qed.

End Summary.

(** X14 at a query that times out and at a reply that is not a number. *)
Lemma look_at_me_unreadable_brightness_witness :
  let w1 := Scripted.start [Raise (SCPIError "timeout")] in
  let w2 := Scripted.start [Return "high"; Return "1"] in
  client_query ":SYST:BRIG?" (device w1) = (Raise (SCPIError "timeout"), [])
  /\ RigolDP932A.look_at_me w1
     = (Raise (SCPIError "timeout"), mkWorld [] [":SYST:BRIG?"] 0)
  /\ client_query ":SYST:BRIG?" (device w2) = (Return "high", [Return "1"])
  /\ Py.int_of_str "high"
     = Raise (ValueError "invalid literal for int() with base 10")
  /\ RigolDP932A.look_at_me w2
     = (Raise (ValueError "invalid literal for int() with base 10"),
        mkWorld [Return "1"] [":SYST:BRIG?"] 0).
Proof.
  intros w1 w2. split; [reflexivity |]. split.
  { exact (proj1 (look_at_me_unreadable_brightness w1)
             (SCPIError "timeout") [] eq_refl). }
  split; [reflexivity |]. split; [reflexivity |].
  exact (proj2 (look_at_me_unreadable_brightness w2) "high"
           (ValueError "invalid literal for int() with base 10")
           [Return "1"] eq_refl eq_refl).
Defined.

(** X15 on the simulated device. *)
Lemma look_at_me_duration_witness :
  sends_never_raise (T := Sim.t)
  /\ client_query ":SYST:BRIG?" (device (Sim.start Sim.initial))
     = (Return "50", Sim.initial)
  /\ Py.int_of_str "50" = Return 50
  /\ client_query ":SYST:BEEP?" Sim.initial = (Return "1", Sim.initial)
  /\ slept_ms (snd (RigolDP932A.look_at_me (Sim.start Sim.initial))) = 6000%N
  /\ List.length (wire (snd (RigolDP932A.look_at_me (Sim.start Sim.initial))))
     = 19%nat.
Proof.
  split; [exact sim_sends_succeed |]. do 3 (split; [reflexivity |]).
  exact (look_at_me_duration sim_sends_succeed (Sim.start Sim.initial)
           "50" "1" 50 Sim.initial Sim.initial eq_refl eq_refl eq_refl).
Defined.

(** X16 at the reply [CURR]. *)
Lemma get_type_accepted_replies_witness :
  let w := Scripted.start [Return "CURR"] in
  client_query ":ANALyzer:TYPE?" (device w) = (Return "CURR", [])
  /\ fst (AnalyzerAPI.get_type w) = Return AnalysisType.PulseCurrent.
Proof.
  intros w. split; [reflexivity |].
  exact (proj2 (proj1 (get_type_accepted_replies w "CURR" [] eq_refl)
                  AnalysisType.PulseCurrent) eq_refl).
Defined.

(** X17 on the simulated device, both channels enabled. *)
Lemma pulse_measure_names_enabled_witness :
  let cfg := PulseCurrentAnalysis.mk true true in
  sends_never_raise (T := Sim.t)
  /\ AnalyzerAPI.pulse_cmd_parts cfg = ["CH1"; "CH2"]
  /\ wire (snd (AnalyzerAPI.set_current_measure cfg (Sim.start Sim.initial)))
     = [":ANALyzer:TYPE CURR"; ":ANALyzer:CURRent:MEASure:TYPE CH1,CH2"].
Proof.
  intros cfg. split; [exact sim_sends_succeed |].
  destruct (pulse_measure_names_enabled sim_sends_succeed cfg
              (Sim.start Sim.initial)) as (Ht & _ & _ & _ & Hw & _).
  split; [exact Ht | exact Hw].
Defined.

(** X18 on the simulated device, for the configuration without channels. *)
Lemma common_measure_never_rejects_witness :
  sends_never_raise (T := Sim.t)
  /\ fst (AnalyzerAPI.set_common_measure CommonAnalysis.default
            (Sim.start Sim.initial)) = Return tt
  /\ wire (snd (AnalyzerAPI.set_common_measure CommonAnalysis.default
                  (Sim.start Sim.initial)))
     = [":ANALyzer:TYPE COM"; ":ANALyzer:COMMon:MEASure:TYPE "].
Proof.
  split; [exact sim_sends_succeed |].
  destruct (common_measure_never_rejects sim_sends_succeed
              CommonAnalysis.default (Sim.start Sim.initial))
    as (Hr & Hw & _).
  split; [exact Hr | exact Hw].
Defined.

(** X19 at scripted replies of channel 1. *)
Lemma repr_shows_replies_witness :
  let v := float_lit "5" in
  let c := float_lit "1" in
  let pv := float_lit "4.998" in
  let pc := float_lit "0.25" in
  let pp := float_lit "1.2495" in
  let w := Scripted.start [Return "CH1:30V/3A,5.000,1.000";
                           Return "4.998,0.250,1.250"] in
  (Py.is_binary64 v /\ Py.is_binary64 c /\ Py.is_binary64 pv /\ Py.is_binary64 pc)
  /\ client_query (":APPL? " ++ Channel.ch ch1) (device w)
     = (Return ("CH1" ++ ":" ++ "30V/3A" ++ ","
                ++ Py.format_3f v ++ "," ++ Py.format_3f c),
        [Return "4.998,0.250,1.250"])
  /\ client_query ("MEAS:ALL? " ++ Channel.ch ch1) [Return "4.998,0.250,1.250"]
     = (Return (Py.format_3f pv ++ "," ++ Py.format_3f pc ++ ","
                ++ Py.format_3f pp), [])
  /\ Channel__repr__ ch1 w
     = (Return "<CH1: voltage: 4.998 V (set: 5.000 V), current: 0.250 A (set: 1.000) A>",
        mkWorld [] [":APPL? CH1"; "MEAS:ALL? CH1"] 0).
Proof.
  intros v c pv pc pp w.
  assert (H1 : client_query (":APPL? " ++ Channel.ch ch1) (device w)
               = (Return ("CH1" ++ ":" ++ "30V/3A" ++ ","
                          ++ Py.format_3f v ++ "," ++ Py.format_3f c),
                  [Return "4.998,0.250,1.250"])) by reflexivity.
  assert (H2 : client_query ("MEAS:ALL? " ++ Channel.ch ch1)
                 [Return "4.998,0.250,1.250"]
               = (Return (Py.format_3f pv ++ "," ++ Py.format_3f pc ++ ","
                          ++ Py.format_3f pp), [])) by reflexivity.
  split; [repeat split |]. split; [exact H1 |]. split; [exact H2 |].
  exact (repr_shows_replies ch1 w "CH1" "30V/3A" v c pv pc pp
           [Return "4.998,0.250,1.250"] []
           eq_refl eq_refl eq_refl eq_refl H1 H2 eq_refl eq_refl).
Defined.

(** ** Addressing of protections, nesting of sessions *)

Lemma string_append_assoc (a b c : string) :
  ((a ++ b) ++ c)%string = (a ++ b ++ c)%string.
Proof.
  induction a as [| x a IH]; [reflexivity |]. cbn. f_equal. exact IH.
Qed.

Lemma protection_cmd_shape (i : Z) (p s : string) :
  (OverProtectiveParent.prefix (OverProtectiveParent.__init__ i p) ++ s)%string
  = ((":SOURCe[" ++ Py.str_of_int i) ++ String "]" (":" ++ p ++ s))%string.
Proof.
  unfold OverProtectiveParent.prefix, OverProtectiveParent.__init__.
  cbn [OverProtectiveParent._source_id OverProtectiveParent._protecting].
  rewrite !string_append_assoc. reflexivity.
Qed.

Lemma source_no_bracket (i : Z) :
  all_chars (fun c => negb (Ascii.eqb c "]")) (":SOURCe[" ++ Py.str_of_int i)
  = true.
Proof.
  rewrite all_chars_app. apply andb_true_iff. split; [reflexivity |].
  apply all_chars_weaken with (2 := str_of_int_plain i).
  intros c Hc. apply (plain_not "]" c); [cbn; lia | exact Hc].
Qed.

Lemma protection_cmd_inj (i j : Z) (p p' s s' : string) :
  (OverProtectiveParent.prefix (OverProtectiveParent.__init__ i p) ++ s)%string
  = (OverProtectiveParent.prefix (OverProtectiveParent.__init__ j p') ++ s')%string ->
  i = j /\ (p ++ s)%string = (p' ++ s')%string.
Proof.
  rewrite !protection_cmd_shape. intros H.
  apply (f_equal (Py.split1 "]")) in H.
  rewrite !split1_at in H by apply source_no_bracket.
  injection H as H1 H2. split; [| exact H2].
  apply str_of_int_inj.
  revert H1. generalize (Py.str_of_int i) (Py.str_of_int j). intros a b H.
  cbn in H. congruence.
Qed.

(** X20.  No command of an over-current protection is a command of an
    over-voltage protection, and protections of channels with different
    numbers share no command either. *)
Theorem protection_commands_distinct (i j : Z) (s s' : string) :
  (OverProtectiveParent.prefix (OverCurrentProtection i) ++ s)%string
  <> (OverProtectiveParent.prefix (OverVoltageProtection j) ++ s')%string
  /\ (i <> j ->
      (OverProtectiveParent.prefix (OverCurrentProtection i) ++ s)%string
      <> (OverProtectiveParent.prefix (OverCurrentProtection j) ++ s')%string
      /\ (OverProtectiveParent.prefix (OverVoltageProtection i) ++ s)%string
         <> (OverProtectiveParent.prefix (OverVoltageProtection j) ++ s')%string).
Proof.
  unfold OverCurrentProtection, OverVoltageProtection. split.
  - intros H. apply protection_cmd_inj in H. destruct H as [_ H].
    discriminate H.
  - intros Hij. split; intros H; apply protection_cmd_inj in H;
      destruct H as [H _]; contradiction.
Qed.

(** X20 at channels 1 and 2. *)
Lemma protection_commands_distinct_witness :
  1 <> 2
  /\ clear_cmd (OverCurrentProtection 1) <> clear_cmd (OverVoltageProtection 1)
  /\ arm_cmd (OverCurrentProtection 1) <> arm_cmd (OverCurrentProtection 2).
Proof.
  assert (H12 : 1 <> 2) by discriminate.
  split; [exact H12 |]. split.
  - exact (proj1 (protection_commands_distinct 1 1 ":PROT:CLE" ":PROT:CLE")).
  - exact (proj1 (proj2 (protection_commands_distinct 1 2 ":PROT:STAT ON"
                           ":PROT:STAT ON") H12)).
Defined.

Section Nesting.
Context {T : Type} {client : SCPIClient T}.

Lemma protection_session_run
  {A} (self : OverProtectiveParent.t) (level : Py.float) (body : M T A)
  (w : World T) (a1 a2 a3 : string) (d1 d2 d3 : T) :
  client_send (clear_cmd self) (device w) = (Return a1, d1) ->
  client_send (level_cmd self level) d1 = (Return a2, d2) ->
  client_send (arm_cmd self) d2 = (Return a3, d3) ->
  OverProtectiveParent.__call__ self level body w
  = try_finally body (scpi_send (disarm_cmd self) ;; ret tt)
      (mkWorld d3
         (wire w ++ [clear_cmd self; level_cmd self level; arm_cmd self])
         (slept_ms w)).
Proof.
  intros H1 H2 H3.
  unfold OverProtectiveParent.__call__, try_finally.
  unfold OverProtectiveParent.clear, OverProtectiveParent.set_level,
    OverProtectiveParent.set_state.
  fold (clear_cmd self). fold (level_cmd self level).
  change (OverProtectiveParent.prefix self ++ ":PROT:STAT " ++ on_off true)
    with (arm_cmd self).
  change (OverProtectiveParent.prefix self ++ ":PROT:STAT " ++ on_off false)
    with (disarm_cmd self).
  unfold bind at 1 2. rewrite scpi_send_run, H1. cbn [fst snd]. unfold ret at 1.
  unfold bind at 1 2. rewrite scpi_send_run. cbn [device]. rewrite H2.
  cbn [fst snd]. unfold ret at 1.
  unfold bind at 1 2. rewrite scpi_send_run. cbn [device]. rewrite H3.
  cbn [fst snd wire slept_ms]. unfold ret at 1.
  rewrite <- !app_assoc. reflexivity.
Qed.

Lemma finally_send_wire {A} (c : M T A) (cmd : string) (w : World T) :
  wire (snd (try_finally c (scpi_send cmd ;; ret tt) w))
  = (wire (snd (c w)) ++ [cmd])%list.
Proof.
  unfold try_finally. destruct (c w) as [r w1].
  rewrite bind_ret_tt, scpi_send_run. cbn [fst snd].
  destruct (fst (client_send cmd (device w1))); reflexivity.
Qed.

(** X21.  Sessions nest and unwind innermost first: a channel session
    inside a protection session, once protection is armed, ends with the
    channel's disable command followed by the disarm command, whatever the
    body does and however it ends.  On a client that acknowledges every
    command the body runs after the five setup commands, clear, threshold,
    arm, set-points, enable, and the nested session ends the way the body
    did. *)
Theorem nested_sessions_unwind_in_reverse
  {A} (prot : OverProtectiveParent.t) (level : Py.float)
  (self : Channel.t) (output : Output) (body : M T A) (w : World T)
  (a1 a2 a3 : string) (d1 d2 d3 : T) :
  client_send (clear_cmd prot) (device w) = (Return a1, d1) ->
  client_send (level_cmd prot level) d1 = (Return a2, d2) ->
  client_send (arm_cmd prot) d2 = (Return a3, d3) ->
  let session :=
    OverProtectiveParent.__call__ prot level
      (Channel.__call__ self output body) in
  (exists pre,
      wire (snd (session w))
      = (pre ++ [disable_cmd self; disarm_cmd prot])%list)
  /\ (sends_never_raise ->
      exists w_in,
        wire w_in
        = (wire w ++ [clear_cmd prot; level_cmd prot level; arm_cmd prot;
                      apply_cmd self output; enable_cmd self])%list
        /\ fst (session w) = fst (body w_in)
        /\ wire (snd (session w))
           = (wire (snd (body w_in))
              ++ [disable_cmd self; disarm_cmd prot])%list).
Proof.
  intros H1 H2 H3 session. unfold session.
  rewrite (protection_session_run prot level _ w a1 a2 a3 d1 d2 d3 H1 H2 H3).
  set (w3 := mkWorld d3
               (wire w ++ [clear_cmd prot; level_cmd prot level; arm_cmd prot])
               (slept_ms w)).
  assert (Hshape : Channel.__call__ self output body
                   = try_finally
                       ((scpi_send (apply_cmd self output) ;; ret tt) ;;
                        (scpi_send (enable_cmd self) ;; ret tt) ;; body)
                       (scpi_send (disable_cmd self) ;; ret tt))
    by reflexivity.
  rewrite Hshape, finally_send_wire. split.
  - destruct (finally_send_is_last
                ((scpi_send (apply_cmd self output) ;; ret tt) ;;
                 (scpi_send (enable_cmd self) ;; ret tt) ;; body)
                (disable_cmd self) w3) as [pre Hpre].
    exists pre. rewrite Hpre, <- app_assoc. reflexivity.
  - intros reliable.
    destruct (finally_emits
                (try_finally
                   ((scpi_send (apply_cmd self output) ;; ret tt) ;;
                    (scpi_send (enable_cmd self) ;; ret tt) ;; body)
                   (scpi_send (disable_cmd self) ;; ret tt))
                _ _ w3 (emits_send reliable (disarm_cmd prot))) as [Hr _].
    rewrite Hr.
    destruct (finally_emits
                ((scpi_send (apply_cmd self output) ;; ret tt) ;;
                 (scpi_send (enable_cmd self) ;; ret tt) ;; body)
                _ _ w3 (emits_send reliable (disable_cmd self))) as [Hr2 Hw2].
    rewrite Hr2, Hw2.
    destruct (emits_then _ _ ((scpi_send (enable_cmd self) ;; ret tt) ;; body)
                w3 (emits_send reliable (apply_cmd self output))) as [E1 W1].
    rewrite E1.
    set (w4 := snd ((scpi_send (apply_cmd self output) ;; ret tt) w3)) in *.
    destruct (emits_then _ _ body w4 (emits_send reliable (enable_cmd self)))
      as [E2 W2].
    rewrite E2.
    set (w5 := snd ((scpi_send (enable_cmd self) ;; ret tt) w4)) in *.
    exists w5. split; [| split].
    + rewrite W2, W1. unfold w3. cbn [wire]. rewrite <- !app_assoc. reflexivity.
    + reflexivity.
    + rewrite <- app_assoc. reflexivity.
Qed.

End Nesting.

(** X21 at a body that fails, on the simulated device. *)
Lemma nested_sessions_unwind_in_reverse_witness :
  let w := Sim.start Sim.initial in
  let output := mkOutput (float_lit "5") (float_lit "1") in
  client_send (clear_cmd ocp1) (device w) = (Return "", Sim.initial)
  /\ client_send (level_cmd ocp1 (float_lit "1.5")) Sim.initial
     = (Return "", Sim.initial)
  /\ client_send (arm_cmd ocp1) Sim.initial = (Return "", Sim.initial)
  /\ sends_never_raise (T := Sim.t)
  /\ OverProtectiveParent.__call__ ocp1 (float_lit "1.5")
       (Channel.__call__ ch1 output (raise (A := unit) KeyboardInterrupt)) w
     = (Raise KeyboardInterrupt,
        mkWorld (Sim.mk false false [("CH1", "5.000,1.000")] 50 true)
          [":SOURCe[1]:CURRent:PROT:CLE"; ":SOURCe[1]:CURRent:PROT 1.500";
           ":SOURCe[1]:CURRent:PROT:STAT ON"; ":APPL CH1,5.000,1.000";
           ":OUTP CH1,ON"; ":OUTP CH1,OFF"; ":SOURCe[1]:CURRent:PROT:STAT OFF"]
          0)
  /\ exists pre,
       wire (snd (OverProtectiveParent.__call__ ocp1 (float_lit "1.5")
                    (Channel.__call__ ch1 output
                       (raise (A := unit) KeyboardInterrupt)) w))
       = (pre ++ [disable_cmd ch1; disarm_cmd ocp1])%list.
Proof.
  intros w output.
  assert (H1 : client_send (clear_cmd ocp1) (device w) = (Return "", Sim.initial))
    by reflexivity.
  assert (H2 : client_send (level_cmd ocp1 (float_lit "1.5")) Sim.initial
               = (Return "", Sim.initial)) by reflexivity.
  assert (H3 : client_send (arm_cmd ocp1) Sim.initial = (Return "", Sim.initial))
    by reflexivity.
  split; [exact H1 |]. split; [exact H2 |]. split; [exact H3 |].
  split; [exact sim_sends_succeed |]. split; [reflexivity |].
  exact (proj1 (nested_sessions_unwind_in_reverse ocp1 (float_lit "1.5")
                  ch1 output (raise KeyboardInterrupt) w
                  "" "" "" Sim.initial Sim.initial Sim.initial H1 H2 H3)).
Defined.
